(** * vpub-market: the action-message flow, the test-data generator and the
      RPC client, embedded and verified

    The development follows the TypeScript sources:
    - [src/api/services/CoreRpcService.ts]  (module [CoreRpcService]),
    - [src/api/services/TestDataService.ts] (module [TestDataService]),
    - [src/api/exceptions/MessageException.ts] and
      [NotImplementedException.ts]          (module [Exceptions]).

    JavaScript values that cross a JSON boundary are terms of [Js.value];
    asynchronous methods are computations in a state-and-exception monad
    [M], where an awaited promise that rejects is a thrown exception. *)

From Stdlib Require Import List String Ascii ZArith Bool Lia.
From Stdlib Require Import Permutation Sorted Orders Mergesort.
From Stdlib Require Import DecimalString.
From Stdlib Require Import QArith Qround Qminmax Lqa.
Import ListNotations.

#[local] Set Warnings "-register-all".

Local Open Scope list_scope.
Local Open Scope string_scope.
Local Open Scope Z_scope.

(* ================================================================== *)
(** * JavaScript values and the JSON built-ins *)
(* ================================================================== *)

Module Js.

(** A JavaScript string is a sequence of UTF-16 code units. The model keeps
    the code units below 256, which is what [ascii] holds. A number is one
    of IEEE 754 binary64: [VNum n] is the integer [n] (identifiers, status
    codes, epoch milliseconds), [VFrac x] a number that is not an integer,
    as the rational that it is; [VNegZero] and [VInfinity] are what
    numerals such as [-0] and [1e999] denote. [NaN] has no JSON text. *)
Inductive value : Type :=
| VUndefined
| VNull
| VBool (b : bool)
| VNum (n : Z)
| VFrac (x : Q)
| VNegZero
| VInfinity (negative : bool)
| VStr (s : string)
| VArr (items : list value)
| VObj (fields : list (string * value)).   (* in enumeration order *)

(** ToBoolean. *)
Definition truthy (v : value) : bool :=
  match v with
  | VUndefined | VNull => false
  | VBool b => b
  | VNum n => negb (n =? 0)
  | VFrac x => negb (Qnum x =? 0)
  | VNegZero => false
  | VInfinity _ => true
  | VStr s => negb (s =? "")%string
  | VArr _ | VObj _ => true
  end.

(** Own-property lookup in an object literal; the last binding of a key is
    the live one. *)
Fixpoint lookup (k : string) (fields : list (string * value)) : option value :=
  match fields with
  | [] => None
  | (k', v) :: rest =>
      match lookup k rest with
      | Some v' => Some v'
      | None => if (k =? k')%string then Some v else None
      end
  end.

(** [v.k] for a key that no built-in prototype defines. Reading a property
    of [null] or [undefined] raises a TypeError, here [None]. *)
Definition get (v : value) (k : string) : option value :=
  match v with
  | VUndefined | VNull => None
  | VObj fields =>
      Some (match lookup k fields with Some x => x | None => VUndefined end)
  | _ => Some VUndefined
  end.

(** Assignment [o.k = v] on an object literal: an existing key keeps its
    place, a new one is appended. *)
Fixpoint set_field (k : string) (v : value) (fields : list (string * value))
  : list (string * value) :=
  match fields with
  | [] => [(k, v)]
  | (k', v') :: rest =>
      if (k =? k')%string then (k', v) :: rest
      else (k', v') :: set_field k v rest
  end.

(** ** Strings as arrays of characters *)

(** [s.split('')]: one single-character string for each code unit. *)
Fixpoint split_chars (s : string) : list string :=
  match s with
  | EmptyString => []
  | String c rest => String c EmptyString :: split_chars rest
  end.

(** [Array.prototype.toString], that is [join(',')], on an array of
    strings. *)
Definition toString (xs : list string) : string := String.concat "," xs.

(** [Array.prototype.sort()] without a comparator orders the elements as
    strings, code unit by code unit. *)
Module StringOrder <: TotalLeBool.
Definition t := string.
Definition leb := String.leb.
Theorem leb_total : forall a1 a2, leb a1 a2 = true \/ leb a2 a1 = true.
Proof. exact String.leb_total. Qed.
End StringOrder.

Module StringSort := Sort StringOrder.

Definition sort (xs : list string) : list string := StringSort.sort xs.

(** ** JSON.stringify *)

(** The double quote, code unit 34. *)
Definition DQ : string := String "034"%char "".

Definition hex_digit (n : N) : ascii :=
  ascii_of_N (if (n <? 10)%N then 48 + n else 87 + n)%N.

(** The escape that [JSON.stringify] writes for one code unit of a string. *)
Definition escape_char (c : ascii) : string :=
  let n := N_of_ascii c in
  if (n =? 34)%N then String "\" DQ
  else if (n =? 92)%N then "\\"
  else if (n =? 8)%N then "\b"
  else if (n =? 12)%N then "\f"
  else if (n =? 10)%N then "\n"
  else if (n =? 13)%N then "\r"
  else if (n =? 9)%N then "\t"
  else if (n <? 32)%N then
    "\u00" ++ String (hex_digit (n / 16)) (String (hex_digit (n mod 16)) "")
  else String c "".

Fixpoint escape (s : string) : string :=
  match s with
  | EmptyString => ""
  | String c rest => escape_char c ++ escape rest
  end.

Definition quote (s : string) : string := DQ ++ escape s ++ DQ.

Definition string_of_Z (n : Z) : string := NilZero.string_of_int (Z.to_int n).

(** ** Numbers *)

(** [n / (d * 2^e)] as a fraction of integers. *)
Definition scaled (n d e : Z) : Z * Z :=
  if 0 <=? e then (n, d * 2 ^ e) else (n * 2 ^ (- e), d).

(** The integer nearest to [num / den], the even one of two that are
    equally near. *)
Definition round_half_even (num den : Z) : Z :=
  let q := num / den in
  match 2 * (num mod den) ?= den with
  | Lt => q
  | Gt => q + 1
  | Eq => if Z.even q then q else q + 1
  end.

(** The binary64 number nearest to the positive fraction [n / d], as a
    significand of at most 53 bits and an exponent of at least -1074; the
    exponent is not bounded from above here. *)
Definition nearest (n d : Z) : Z * Z :=
  let e1 := Z.max (-1074) (Z.log2 n - Z.log2 d - 53) in
  let '(num1, den1) := scaled n d e1 in
  let e := Z.max (-1074) (e1 + Z.log2 (num1 / den1) - 52) in
  let '(num, den) := scaled n d e in
  (round_half_even num den, e).

(** The Number value for the positive fraction [n / d]: the binary64
    number nearest to it, as a rational in lowest terms, or [None] for
    Infinity when that number is 2^1024 or more. *)
Definition binary64 (n d : Z) : option Q :=
  let '(m, e) := nearest n d in
  if 0 <=? e then
    if 2 ^ 1024 <=? m * 2 ^ e then None else Some (inject_Z (m * 2 ^ e))
  else Some (Qred (m # Z.to_pos (2 ^ (- e)))).

(** [s * 10^p] as a fraction of integers. *)
Definition decimal (s p : Z) : Z * Z :=
  if 0 <=? p then (s * 10 ^ p, 1) else (s, 10 ^ (- p)).

(** [num / den < 10^n] *)
Definition below (num den n : Z) : bool :=
  if 0 <=? n then num <? den * 10 ^ n else num * 10 ^ (- n) <? den.

Fixpoint least_above (fuel : nat) (num den n : Z) : Z :=
  match fuel with
  | O => n
  | S fuel' => if below num den n then n else least_above fuel' num den (n + 1)
  end.

(** The [n] with [10^(n-1) <= num / den < 10^n], for a positive fraction.
    The binary logarithms place it within two of the estimate that the
    search starts from. *)
Definition magnitude (num den : Z) : Z :=
  least_above 8 num den ((Z.log2 num - Z.log2 den) * 30103 / 100000 - 2).

(** The decimal [s * 10^p] denotes [x]: [x] is its Number value. *)
Definition denotes (x : Q) (s p : Z) : bool :=
  let '(n, d) := decimal s p in
  match binary64 n d with
  | Some y => Qeq_bool x y
  | None => false
  end.

(** The integer part of [x / 10^p]. *)
Definition floor_scaled (x : Q) (p : Z) : Z :=
  if 0 <=? p then Qnum x / (Zpos (Qden x) * 10 ^ p)
  else (Qnum x * 10 ^ (- p)) / Zpos (Qden x).

(** Of [s] and [s + 1], the one whose decimal at position [p] is closer to
    [x]; the even one when they are equally close. *)
Definition closer (x : Q) (s p : Z) : Z :=
  let '(n, d) := decimal (2 * s + 1) p in
  match Qcompare (2 * x) (n # Z.to_pos d) with
  | Lt => s
  | Gt => s + 1
  | Eq => if Z.even s then s else s + 1
  end.

(** The digits [s] at position [p] that denote [x], if some do: the two
    decimals next to [x] are the ones to try. *)
Definition pick (x : Q) (p : Z) : option Z :=
  let s := floor_scaled x p in
  match denotes x s p, denotes x (s + 1) p with
  | true, true => Some (closer x s p)
  | true, false => Some s
  | false, true => Some (s + 1)
  | false, false => None
  end.

(** The fewest digits [s], [k] of them or more, such that [s * 10^(n-k)]
    denotes [x]. Seventeen digits denote every binary64 number. *)
Fixpoint shortest (fuel : nat) (x : Q) (n k : Z) : Z * Z :=
  match fuel with
  | O => (closer x (floor_scaled x (n - k)) (n - k), k)
  | S fuel' =>
      match pick x (n - k) with
      | Some s => (s, k)
      | None => shortest fuel' x n (k + 1)
      end
  end.

Fixpoint zeros (n : nat) : string :=
  match n with
  | O => ""
  | S n' => String "0" (zeros n')
  end.

Definition take (n : Z) (s : string) : string := substring 0 (Z.to_nat n) s.
Definition drop (n : Z) (s : string) : string :=
  substring (Z.to_nat n) (String.length s - Z.to_nat n) s.

(** The text of the number [0.digits * 10^n], as [Number.prototype.toString]
    lays it out: plain up to 21 integer digits and down to six zeros after
    the point, with an exponent beyond. *)
Definition layout (digits : string) (n : Z) : string :=
  let k := Z.of_nat (String.length digits) in
  if (k <=? n) && (n <=? 21) then digits ++ zeros (Z.to_nat (n - k))
  else if (0 <? n) && (n <=? 21) then take n digits ++ "." ++ drop n digits
  else if (-6 <? n) && (n <=? 0) then "0." ++ zeros (Z.to_nat (- n)) ++ digits
  else
    let e := n - 1 in
    let exponent := (if e <? 0 then "-" else "+") ++ string_of_Z (Z.abs e) in
    if k =? 1 then digits ++ "e" ++ exponent
    else take 1 digits ++ "." ++ drop 1 digits ++ "e" ++ exponent.

(** [Number.prototype.toString] on a positive binary64 number. *)
Definition number_toString (x : Q) : string :=
  let n := magnitude (Qnum x) (Zpos (Qden x)) in
  let '(s, k) := shortest 16 x n 1 in
  if s =? 10 ^ k then layout "1" (n + 1) else layout (string_of_Z s) n.

(** What [JSON.stringify] writes for the number nearest to [x]: its
    shortest text, and [null] for Infinity. *)
Definition number_text (x : Q) : string :=
  if Qnum x =? 0 then "0"
  else
    match binary64 (Z.abs (Qnum x)) (Zpos (Qden x)) with
    | None => "null"
    | Some y =>
        if Qnum y =? 0 then "0"
        else (if Qnum x <? 0 then "-" else "") ++ number_toString y
    end.

(** An integer below 2^53 is a binary64 number, and its text is its
    digits. *)
Definition integer_text (n : Z) : string :=
  if Z.abs n <? 2 ^ 53 then string_of_Z n else number_text (inject_Z n).

(** [JSON.stringify v]; [None] is the JavaScript [undefined] that the
    built-in returns for [undefined]. Inside an array [undefined] is
    written as [null], inside an object the property is left out. *)
Fixpoint stringify (v : value) : option string :=
  match v with
  | VUndefined => None
  | VNull => Some "null"
  | VBool true => Some "true"
  | VBool false => Some "false"
  | VNum n => Some (integer_text n)
  | VFrac x => Some (number_text x)
  | VNegZero => Some "0"
  | VInfinity _ => Some "null"
  | VStr s => Some (quote s)
  | VArr items =>
      Some ("[" ++ String.concat ","
              (map (fun x => match stringify x with
                             | Some s => s
                             | None => "null"
                             end) items) ++ "]")
  | VObj fields =>
      Some ("{" ++ String.concat ","
              (flat_map (fun kv => match kv with
                                   | (k, x) =>
                                       match stringify x with
                                       | Some s => [(quote k ++ ":" ++ s)%string]
                                       | None => []
                                       end
                                   end) fields) ++ "}")
  end.

(** ** JSON.parse *)

Definition is_ws (c : ascii) : bool :=
  let n := N_of_ascii c in
  ((n =? 32) || (n =? 9) || (n =? 10) || (n =? 13))%N.

Fixpoint skip_ws (s : list ascii) : list ascii :=
  match s with
  | c :: rest => if is_ws c then skip_ws rest else s
  | [] => []
  end.

Definition digit_of (c : ascii) : option Z :=
  let n := N_of_ascii c in
  if ((48 <=? n) && (n <=? 57))%N then Some (Z.of_N (n - 48)) else None.

Definition hex_of (c : ascii) : option N :=
  let n := N_of_ascii c in
  if ((48 <=? n) && (n <=? 57))%N then Some (n - 48)%N
  else if ((65 <=? n) && (n <=? 70))%N then Some (n - 55)%N
  else if ((97 <=? n) && (n <=? 102))%N then Some (n - 87)%N
  else None.

Fixpoint parse_digits (acc : Z) (s : list ascii) : Z * list ascii :=
  match s with
  | c :: rest =>
      match digit_of c with
      | Some d => parse_digits (10 * acc + d) rest
      | None => (acc, s)
      end
  | [] => (acc, [])
  end.

(** The Number value of the numeral with the digits [digits] and the
    decimal exponent [p]. *)
Definition number_value (negative : bool) (digits p : Z) : value :=
  let zero := if negative then VNegZero else VNum 0 in
  if digits =? 0 then zero
  else
    let '(n, d) := decimal digits p in
    match binary64 n d with
    | None => VInfinity negative
    | Some x =>
        if Qnum x =? 0 then zero
        else if (Qden x =? 1)%positive
        then VNum (if negative then - Qnum x else Qnum x)
        else VFrac (if negative then (- x)%Q else x)
    end.

(** The fraction of a numeral: a point and at least one digit. The result
    has the digits read so far and the number of those after the point. *)
Definition parse_fraction (int : Z) (s : list ascii)
  : option (Z * Z * list ascii) :=
  match s with
  | "."%char :: c :: rest =>
      match digit_of c with
      | Some d =>
          let '(digits, rest') := parse_digits (10 * int + d) rest in
          Some (digits,
                1 + Z.of_nat (List.length rest) - Z.of_nat (List.length rest'),
                rest')
      | None => None
      end
  | "."%char :: [] => None
  | _ => Some (int, 0, s)
  end.

(** The exponent of a numeral: [e] or [E], an optional sign and at least
    one digit. *)
Definition parse_exponent (s : list ascii) : option (Z * list ascii) :=
  let unsigned (negative : bool) (s : list ascii) :=
    match s with
    | c :: rest =>
        match digit_of c with
        | Some d =>
            let '(e, rest') := parse_digits d rest in
            Some (if negative then - e else e, rest')
        | None => None
        end
    | [] => None
    end in
  match s with
  | "e"%char :: rest | "E"%char :: rest =>
      match rest with
      | "+"%char :: rest' => unsigned false rest'
      | "-"%char :: rest' => unsigned true rest'
      | _ => unsigned false rest
      end
  | _ => Some (0, s)
  end.

(** A numeral: an optional minus sign, then [0] or a digit sequence that
    does not start with [0], then an optional fraction and an optional
    exponent. *)
Definition parse_number (s : list ascii) : option (value * list ascii) :=
  let '(negative, s1) :=
    match s with
    | "-"%char :: rest => (true, rest)
    | _ => (false, s)
    end in
  match s1 with
  | c :: rest =>
      match digit_of c with
      | Some d =>
          let '(int, s2) := if d =? 0 then (0, rest) else parse_digits d rest in
          match parse_fraction int s2 with
          | Some (digits, places, s3) =>
              match parse_exponent s3 with
              | Some (exponent, s4) =>
                  Some (number_value negative digits (exponent - places), s4)
              | None => None
              end
          | None => None
          end
      | None => None
      end
  | [] => None
  end.

Definition unescape (c : ascii) : option ascii :=
  match c with
  | "034"%char => Some "034"%char
  | "\"%char => Some "\"%char
  | "/"%char => Some "/"%char
  | "b"%char => Some "008"%char
  | "f"%char => Some "012"%char
  | "n"%char => Some "010"%char
  | "r"%char => Some "013"%char
  | "t"%char => Some "009"%char
  | _ => None
  end.

(** The characters of a string literal after its opening quote. *)
Fixpoint parse_string_body (s acc : list ascii) : option (string * list ascii) :=
  match s with
  | [] => None
  | "034"%char :: rest => Some (string_of_list_ascii (rev acc), rest)
  | "\"%char :: "u"%char :: h1 :: h2 :: h3 :: h4 :: rest =>
      match hex_of h1, hex_of h2, hex_of h3, hex_of h4 with
      | Some a, Some b, Some c, Some d =>
          let code := (((a * 16 + b) * 16 + c) * 16 + d)%N in
          if (code <? 256)%N
          then parse_string_body rest (ascii_of_N code :: acc)
          else None
      | _, _, _, _ => None
      end
  | "\"%char :: e :: rest =>
      match unescape e with
      | Some c => parse_string_body rest (c :: acc)
      | None => None
      end
  | c :: rest =>
      if (N_of_ascii c <? 32)%N then None
      else parse_string_body rest (c :: acc)
  end.

(** An array index: the canonical numeral of an integer from 0 to
    2^32 - 2. *)
Definition array_index (k : string) : option Z :=
  match list_ascii_of_string k with
  | c :: rest =>
      match digit_of c with
      | Some d =>
          let '(n, rest') := if d =? 0 then (0, rest) else parse_digits d rest in
          match rest' with
          | [] => if n <? 2 ^ 32 - 1 then Some n else None
          | _ => None
          end
      | None => None
      end
  | [] => None
  end.

(** The member [k] of the object that [JSON.parse] builds: a key that is
    there keeps its place; a new array index goes among the array
    indices, which an object enumerates first and in ascending order;
    another new key goes last. *)
Fixpoint define_index (i : Z) (k : string) (v : value)
    (fields : list (string * value)) : list (string * value) :=
  match fields with
  | [] => [(k, v)]
  | (k', v') :: rest =>
      match array_index k' with
      | Some j =>
          if i <? j then (k, v) :: fields
          else if i =? j then (k', v) :: rest
          else (k', v') :: define_index i k v rest
      | None => (k, v) :: fields
      end
  end.

Definition define (k : string) (v : value) (fields : list (string * value))
  : list (string * value) :=
  match array_index k with
  | Some i => define_index i k v fields
  | None => set_field k v fields
  end.

Fixpoint parse_value (fuel : nat) (s : list ascii) : option (value * list ascii) :=
  match fuel with
  | O => None
  | S fuel' =>
      match skip_ws s with
      | "n"%char :: "u"%char :: "l"%char :: "l"%char :: rest => Some (VNull, rest)
      | "t"%char :: "r"%char :: "u"%char :: "e"%char :: rest =>
          Some (VBool true, rest)
      | "f"%char :: "a"%char :: "l"%char :: "s"%char :: "e"%char :: rest =>
          Some (VBool false, rest)
      | "034"%char :: rest =>
          match parse_string_body rest [] with
          | Some (str, rest') => Some (VStr str, rest')
          | None => None
          end
      | "["%char :: rest =>
          match skip_ws rest with
          | "]"%char :: rest' => Some (VArr [], rest')
          | _ => parse_items fuel' rest []
          end
      | "{"%char :: rest =>
          match skip_ws rest with
          | "}"%char :: rest' => Some (VObj [], rest')
          | _ => parse_members fuel' rest []
          end
      | s' => parse_number s'
      end
  end
with parse_items (fuel : nat) (s : list ascii) (acc : list value)
  : option (value * list ascii) :=
  match fuel with
  | O => None
  | S fuel' =>
      match parse_value fuel' s with
      | Some (v, rest) =>
          match skip_ws rest with
          | ","%char :: rest' => parse_items fuel' rest' (v :: acc)
          | "]"%char :: rest' => Some (VArr (rev (v :: acc)), rest')
          | _ => None
          end
      | None => None
      end
  end
with parse_members (fuel : nat) (s : list ascii) (acc : list (string * value))
  : option (value * list ascii) :=
  match fuel with
  | O => None
  | S fuel' =>
      match skip_ws s with
      | "034"%char :: rest =>
          match parse_string_body rest [] with
          | Some (k, rest1) =>
              match skip_ws rest1 with
              | ":"%char :: rest2 =>
                  match parse_value fuel' rest2 with
                  | Some (v, rest3) =>
                      match skip_ws rest3 with
                      | ","%char :: rest4 =>
                          parse_members fuel' rest4 (define k v acc)
                      | "}"%char :: rest4 =>
                          Some (VObj (define k v acc), rest4)
                      | _ => None
                      end
                  | None => None
                  end
              | _ => None
              end
          | None => None
          end
      | _ => None
      end
  end.

(** [JSON.parse text]; [None] is the SyntaxError that the built-in throws.
    Every step of the descent consumes a character, so twice the length
    of the text is fuel enough. *)
Definition parse (text : string) : option value :=
  let chars := list_ascii_of_string text in
  match parse_value (2 * List.length chars + 2) chars with
  | Some (v, rest) =>
      match skip_ws rest with
      | [] => Some v
      | _ => None
      end
  | None => None
  end.

(** The texts within the model: every [\u] escape names a code unit
    below 256, one that the strings of the model hold. A backslash
    escapes the character after it. On these texts [parse] is
    [JSON.parse]; an escape for a code unit from 256 on is where [parse]
    stops and the built-in goes on. *)
Fixpoint narrow_escapes (s : list ascii) : bool :=
  match s with
  | "\"%char :: "u"%char :: h1 :: h2 :: rest =>
      (h1 =? "0")%char && (h2 =? "0")%char && narrow_escapes rest
  | "\"%char :: _ :: rest => narrow_escapes rest
  | _ :: rest => narrow_escapes rest
  | [] => true
  end.

Definition within_model (text : string) : bool :=
  narrow_escapes (list_ascii_of_string text).

(** Test texts are written with apostrophes where JSON has double quotes;
    [dq] puts the double quotes back. *)
Fixpoint dq (s : string) : string :=
  match s with
  | EmptyString => EmptyString
  | String c rest => String (if (c =? "'")%char then "034"%char else c) (dq rest)
  end.

End Js.

Import Js.

(* ================================================================== *)
(** * Exceptions and asynchronous computations *)
(* ================================================================== *)

(** What a method can throw, or a promise reject with. The classes of
    [src/api/exceptions] keep the arguments of their constructors;
    [SyntaxError] and [TypeError] are the errors of the runtime. *)
Inductive thrown : Type :=
| HttpException (statusCode : Z) (message : value)
| InternalServerException (args : ise_args)
| MessageException (message : option string)
| NotImplementedException
| ValidationException
| SyntaxError
| TypeError
| NotFoundException (id : string)
| Rejection (name message : value)
with ise_args : Type :=
| RpcError (code message : value)     (* [error.code, error.message] *)
| Caught (error : thrown).            (* [error.name, error.message] *)

Module Exceptions.

(** The template literal [`${message}`] of an optional string. *)
Definition template (message : option string) : string :=
  match message with
  | Some m => m
  | None => "undefined"
  end.

(** The arguments that reach the base class [Exception]:
    [MessageException] calls [super(404, `${message}`)] and
    [NotImplementedException] calls [super('Not implemented.')] of
    [MessageException]. The other constructors are not in the sources. *)
Definition super_args (e : thrown) : option (Z * string) :=
  match e with
  | MessageException message => Some (404, template message)
  | NotImplementedException => Some (404, template (Some "Not implemented."))
  | _ => None
  end.

Definition code (e : thrown) : option Z := option_map fst (super_args e).
Definition message (e : thrown) : option string := option_map snd (super_args e).

(** [e instanceof MessageException]. *)
Definition instanceof_MessageException (e : thrown) : bool :=
  match e with
  | MessageException _ | NotImplementedException => true
  | _ => false
  end.

End Exceptions.

(** The result of running a method: it returns or it throws. *)
Inductive Outcome (A : Type) : Type :=
| Return (a : A)
| Throw (e : thrown).
Arguments Return {A} a.
Arguments Throw {A} e.

(** An [async] method over a world of type [W]. *)
Definition M (W A : Type) : Type := W -> Outcome A * W.

Definition ret {W A} (a : A) : M W A := fun w => (Return a, w).
Definition throw {W A} (e : thrown) : M W A := fun w => (Throw e, w).
Definition bind {W A B} (m : M W A) (k : A -> M W B) : M W B :=
  fun w =>
    match m w with
    | (Return a, w') => k a w'
    | (Throw e, w') => (Throw e, w')
    end.
Definition lift {W A} (o : Outcome A) : M W A := fun w => (o, w).

Notation "x <- m ;; k" := (bind m (fun x => k))
  (at level 61, m at next level, right associativity).
Notation "m ;;; k" := (bind m (fun _ => k))
  (at level 61, right associativity).

(* ================================================================== *)
(** * CoreRpcService *)
(* ================================================================== *)

Module CoreRpcService.

(** The response of [WebRequest.post]. *)
Record Response : Type := mkResponse {
  statusCode : Z;
  statusMessage : string;
  content : string
}.

(** [WebRequest.post] resolves with a response or rejects with an Error
    object, of which the service reads [name] and [message]. *)
Inductive post_result : Type :=
| Resolved (response : Response)
| Rejected (name message : value).

Section Service.

(** The network and the coin daemon behind it: an external collaborator.
    The url and the options are fixed by the process environment, so a
    request is determined by its body. *)
Variable Net : Type.
Variable WebRequest_post : string -> Net -> post_result * Net.

(** The module-level counter [RPC_REQUEST_ID] and the network. *)
Record State : Type := mkState {
  RPC_REQUEST_ID : Z;
  net : Net
}.

(** The body of the JSON-RPC request. *)
Definition postData (method : string) (params : list value) (id : Z) : string :=
  match stringify (VObj [("jsonrpc", VStr "2.0"); ("method", VStr method);
                         ("params", VArr params); ("id", VNum id)]) with
  | Some s => s
  | None => ""
  end.

(** The [.then] callback of [call]. *)
Definition on_response (response : Response) : Outcome value :=
  if negb (statusCode response =? 200) then
    let message :=
      if negb (content response =? "")%string
      then parse (content response)
      else Some (VStr (statusMessage response)) in
    match message with
    | None => Throw SyntaxError
    | Some message => Throw (HttpException (statusCode response) message)
    end
  else
    match parse (content response) with
    | None => Throw SyntaxError
    | Some jsonRpcResponse =>
        match get jsonRpcResponse "error" with
        | None => Throw TypeError
        | Some error =>
            if truthy error then
              match get error "code", get error "message" with
              | Some code, Some message =>
                  Throw (InternalServerException (RpcError code message))
              | _, _ => Throw TypeError
              end
            else
              match get jsonRpcResponse "result" with
              | Some result => Return result
              | None => Throw TypeError
              end
        end
    end.

(** The [.catch] callback of [call]. *)
Definition on_error (error : thrown) : Outcome value :=
  match error with
  | HttpException _ _ | InternalServerException _ => Throw error
  | _ => Throw (InternalServerException (Caught error))
  end.

Definition call (method : string) (params : list value) (logCall : bool)
  : M State value :=
  fun st =>
    let id := RPC_REQUEST_ID st in
    let '(posted, net') := WebRequest_post (postData method params id) (net st) in
    let st' := mkState (id + 1) net' in
    let settled :=
      match posted with
      | Resolved response => on_response response
      | Rejected name message => Throw (Rejection name message)
      end in
    match settled with
    | Return result => (Return result, st')
    | Throw error => (on_error error, st')
    end.

Definition getNewAddress (params : list value) (smsgAddress : bool)
  : M State value :=
  response <- call "getnewaddress" params true ;;
  if smsgAddress then
    call "smsgaddlocaladdress" [response] true ;;;
    ret response
  else ret response.

(** [JSON.stringify(message).split('').sort().toString()], written out in
    both methods as the source does; [undefined.split] is a TypeError. *)
Definition signMessage (address : string) (message : value) : M State value :=
  match stringify message with
  | None => throw TypeError
  | Some text =>
      let signableMessage := toString (sort (split_chars text)) in
      call "signmessage" [VStr address; VStr signableMessage] true
  end.

Definition verifyMessage (address signature : string) (message : value)
  : M State value :=
  match stringify message with
  | None => throw TypeError
  | Some text =>
      let signableMessage := toString (sort (split_chars text)) in
      call "verifymessage" [VStr address; VStr signature; VStr signableMessage] true
  end.

(** The daemon keeps its word: a text that it signs for [address] with
    [signature] when asked in state [st], it verifies when asked in state
    [st1]. *)
Definition keeps_word (address signature : string) (st st' st1 st2 : State)
  : Prop :=
  forall text,
    call "signmessage" [VStr address; VStr text] true st
      = (Return (VStr signature), st') ->
    call "verifymessage" [VStr address; VStr signature; VStr text] true st1
      = (Return (VBool true), st2).

End Service.

Arguments mkState {Net} _ _.
Arguments RPC_REQUEST_ID {Net} _.
Arguments net {Net} _.

(** The canonical form of a serialized message, by name. *)
Definition signable (text : string) : string := toString (sort (split_chars text)).

(** A scripted network for the examples: it answers the requests with the
    results queued in it, in order, and rejects when the queue is empty. *)
Definition scripted_post (body : string) (queue : list post_result)
  : post_result * list post_result :=
  match queue with
  | r :: rest => (r, rest)
  | [] => (Rejected (VStr "RequestError") (VStr "ECONNREFUSED"), [])
  end.

Definition ok (content : string) : post_result :=
  Resolved (mkResponse 200 "OK" (dq content)).

(** Example data: an address, two messages whose serializations are
    permutations of each other, and daemon states before and after a
    signing and a verification. *)
Definition example_address : string := "pmktyVZshdMAQ6DPbbRXEFNGuzMbTMkqAA".
Definition example_message : value :=
  VObj [("action", VStr "MPA_BID"); ("item", VStr "f08f3d6e")].
Definition message_ab : value := VObj [("a", VStr "b")].
Definition message_ba : value := VObj [("b", VStr "a")].
Definition signing : State (list post_result) :=
  mkState 1 [ok "{'result':'H7sGk3w=','error':null,'id':1}"].
Definition signed : State (list post_result) := mkState 2 [].
Definition verifying : State (list post_result) :=
  mkState 5 [ok "{'result':true,'error':null,'id':5}"].
Definition verified : State (list post_result) := mkState 6 [].

(** A daemon that answers status 500 with a page that is not JSON, and one
    that answers a successful request the way the coin daemon does, with
    an [error] member that is [null]. *)
Definition answers_html : State (list post_result) :=
  mkState 1 [Resolved (mkResponse 500 "Internal Server Error" "<html>")].
Definition answers_null_error : State (list post_result) :=
  mkState 1 [ok "{'result':7,'error':null,'id':1}"].

(** A daemon that answers a request for the balance with an amount of
    coins, a number with a fraction. *)
Definition answers_balance : State (list post_result) :=
  mkState 1 [ok "{'result':1.52497491,'error':null,'id':1}"].

End CoreRpcService.


(* ================================================================== *)
(** * The data model *)
(* ================================================================== *)

(** The enumerations of [src/api/enums] are imported by the services but
    are not among the sources; their members are the ones the services
    name ([MPA_REJECT] is the bid-reject message of the message flow). *)
Inductive CreatableModel : Type :=
| LISTINGITEMTEMPLATE | LISTINGITEM | ACTIONMESSAGE | PROFILE | ITEMCATEGORY
| FAVORITEITEM | ITEMINFORMATION | BID | PAYMENTINFORMATION | ITEMIMAGE
| ORDER | PROPOSAL.

Inductive BidMessageType : Type := MPA_BID | MPA_ACCEPT | MPA_REJECT.

Inductive ProposalType : Type := ITEM_VOTE | PUBLIC_VOTE.

Inductive ItemVote : Type := KEEP | REMOVE.

Module HashableObjectType.
Inductive t : Type :=
| LISTINGITEM_CREATEREQUEST
| LISTINGITEM
| LISTINGITEMTEMPLATE_CREATEREQUEST
| LISTINGITEMTEMPLATE
| PROPOSAL_CREATEREQUEST.
End HashableObjectType.

(** JavaScript truthiness of an optional string: [undefined], [null] and
    the empty string are falsy. *)
Definition truthy_string (s : option string) : option string :=
  match s with
  | Some x => if (x =? "")%string then None else Some x
  | None => None
  end.

(** ** Resources (the [resources] type declarations) *)

Module Profile.
Record t : Type := mk { id : Z; address : value }.
End Profile.

Module Market.
Record t : Type := mk { id : Z; address : value }.
End Market.

Module ListingItem.
Record t : Type := mk {
  id : Z;
  hash : string;
  seller : value;
  marketId : Z;
  listingItemTemplateId : option Z;
  ItemInformation : value;
  PaymentInformation : value;
  MessagingInformation : value;
  ListingItemObjects : value
}.
End ListingItem.

Module ListingItemTemplate.
Record t : Type := mk {
  id : Z;
  hash : string;
  ItemInformation : value;
  PaymentInformation : value;
  MessagingInformation : value;
  ListingItemObjects : value;
  ListingItems : list ListingItem.t;
  Profile : Profile.t
}.
End ListingItemTemplate.

Module Bid.
Record t : Type := mk {
  id : Z;
  action : BidMessageType;
  bidder : value;
  listingItemId : option Z
}.
End Bid.

Module Order.
Record t : Type := mk { id : Z; body : value; OrderItems : list value }.
End Order.

Module ProposalOption.
Record t : Type := mk { id : Z; optionId : Z; description : string }.
End ProposalOption.

Module Proposal.
Record t : Type := mk {
  id : Z;
  hash : string;
  ProposalOptions : list ProposalOption.t
}.
End Proposal.

(** ** Create requests *)

Module ListingItemTemplateCreateRequest.
Record t : Type := mk {
  itemInformation : value;
  paymentInformation : value;
  messagingInformation : value;
  listingItemObjects : value;
  profile_id : Z
}.
End ListingItemTemplateCreateRequest.

Module ListingItemCreateRequest.
Record t : Type := mk {
  seller : value;
  market_id : Z;
  listing_item_template_id : option Z;
  itemInformation : value;
  paymentInformation : value;
  messagingInformation : value;
  listingItemObjects : value;
  expiryTime : Z;
  postedAt : Z;
  expiredAt : Z;
  receivedAt : Z
}.
End ListingItemCreateRequest.

Module AddressCreateRequest.
(** [generated] holds the Faker-made fields of the address. *)
Record t : Type := mk { generated : value; profile_id : option Z }.
End AddressCreateRequest.

Module BidCreateRequest.
Record t : Type := mk {
  action : BidMessageType;
  address : AddressCreateRequest.t;
  bidder : value;
  bidDatas : value;
  listing_item_id : option Z
}.
End BidCreateRequest.

Module OrderCreateRequest.
(** [body] holds what [OrderFactory.getModelFromBid] fills in besides the
    order items. *)
Record t : Type := mk { body : value; orderItems : list value }.
End OrderCreateRequest.

Module ProposalOptionCreateRequest.
Record t : Type := mk {
  proposalHash : string;
  optionId : Z;
  description : ItemVote
}.
End ProposalOptionCreateRequest.

Module ProposalCreateRequest.
(** The times are rational: [_.random] yields a fraction when one of its
    bounds is one, and half of an odd epoch time is. *)
Record t : Type := mk {
  submitter : value;
  type : ProposalType;
  item : option string;
  title : string;
  description : string;
  timeStart : Q;
  postedAt : Q;
  receivedAt : Q;
  expiredAt : Q;
  hash : option string;
  options : list ProposalOptionCreateRequest.t
}.
End ProposalCreateRequest.

Module VoteCreateRequest.
Record t : Type := mk {
  proposal_option_id : Z;
  signature : string;
  voter : string;
  weight : Z;
  postedAt : Z;
  receivedAt : Z;
  expiredAt : Z
}.
End VoteCreateRequest.

(** ** Generation parameters ([src/api/requests/params]) *)

(** The switches that only the Faker-based builders of item, payment and
    object data read. *)
Record ContentParams : Type := mkContentParams {
  generateShippingDestinations : bool;
  generateItemImages : bool;
  generateItemLocation : bool;
  categoryId : option Z;
  generateEscrow : bool;
  generateItemPrice : bool;
  generateObjectDatas : bool
}.

Module GenerateListingItemTemplateParams.
Record t : Type := mk {
  generateItemInformation : bool;
  generatePaymentInformation : bool;
  generateMessagingInformation : bool;
  generateListingItemObjects : bool;
  content : ContentParams;
  profileId : option Z;
  generateListingItem : bool;
  marketId : option Z
}.
End GenerateListingItemTemplateParams.

Module GenerateListingItemParams.
Record t : Type := mk {
  generateItemInformation : bool;
  generatePaymentInformation : bool;
  generateMessagingInformation : bool;
  generateListingItemObjects : bool;
  content : ContentParams;
  listingItemTemplateHash : option string;
  seller : option string
}.
End GenerateListingItemParams.

Module GenerateBidParams.
Record t : Type := mk {
  generateListingItemTemplate : bool;
  generateListingItem : bool;
  listingItemHash : option string;
  action : option BidMessageType;
  bidder : option string;
  listingItemSeller : option string
}.
End GenerateBidParams.

Module GenerateOrderParams.
Record t : Type := mk {
  generateListingItemTemplate : bool;
  generateListingItem : bool;
  generateBid : bool;
  generateOrderItem : bool;
  listingItemSeller : option string;
  bidId : option Z
}.
End GenerateOrderParams.

Module GenerateProposalParams.
Record t : Type := mk {
  generateListingItemTemplate : bool;
  generateListingItem : bool;
  listingItemHash : option string;
  submitter : option string;
  voteCount : Z;
  generatePastProposal : bool
}.
End GenerateProposalParams.

(** ** Requests of the test-data service *)

Module TestDataCreateRequest.
Record t : Type := mk {
  model : CreatableModel;
  data : value;
  timestampedHash : option bool
}.
End TestDataCreateRequest.

Module TestDataGenerateRequest.
Record t : Type := mk {
  model : CreatableModel;
  amount : Z;
  withRelated : bool;
  generateParams : value
}.
End TestDataGenerateRequest.

(** What [ObjectHash.getHash] is given. *)
Inductive Hashable : Type :=
| HashListingItemTemplateCreateRequest (r : ListingItemTemplateCreateRequest.t)
| HashListingItemTemplate (r : ListingItemTemplate.t)
| HashListingItemCreateRequest (r : ListingItemCreateRequest.t)
| HashListingItem (r : ListingItem.t)
| HashProposalCreateRequest (r : ProposalCreateRequest.t).

(* ================================================================== *)
(** * The collaborators of TestDataService *)
(* ================================================================== *)

(** Every call that leaves the service: the methods of the injected
    services, the [@validate()] decorator, the clock, lodash and Faker, and
    the builders of this service that only assemble Faker data. The index
    is the type of what the call resolves with. *)
Inductive Op : Type -> Type :=
(* the decorator @validate() with @request(...) *)
| Validate_TestDataCreateRequest (body : TestDataCreateRequest.t) : Op unit
| Validate_TestDataGenerateRequest (body : TestDataGenerateRequest.t) : Op unit
(* create(): service.create(body.data as ...CreateRequest) *)
| Service_create (model : CreatableModel) (data : value)
    (timestampedHash : option bool) : Op value
(* injected services *)
| ProfileService_getDefault : Op Profile.t
| ProfileService_findOne (id : Z) : Op Profile.t
| MarketService_getDefault : Op Market.t
| MarketService_findOne (id : Z) : Op Market.t
| ListingItemTemplateService_create
    (r : ListingItemTemplateCreateRequest.t) : Op ListingItemTemplate.t
| ListingItemTemplateService_findOne (id : Z) : Op ListingItemTemplate.t
| ListingItemTemplateService_findOneByHash (hash : string)
  : Op (option ListingItemTemplate.t)
| ListingItemService_create (r : ListingItemCreateRequest.t) : Op ListingItem.t
| ListingItemService_findOneByHash (hash : string) : Op (option ListingItem.t)
| BidService_create (r : BidCreateRequest.t) : Op Bid.t
| BidService_findOne (id : option Z) : Op Bid.t
| OrderService_create (r : OrderCreateRequest.t) : Op Order.t
| OrderFactory_getModelFromBid (bid : Bid.t) : Op OrderCreateRequest.t
| ProposalService_create (r : ProposalCreateRequest.t) : Op Proposal.t
| ProposalService_findOne (id : Z) : Op Proposal.t
| ProposalService_createEmptyProposalResult (p : Proposal.t) : Op value
| ProposalService_recalculateProposalResult (p : Proposal.t) (test : bool)
  : Op value
| VoteService_create (r : VoteCreateRequest.t) : Op value
| CoreRpcService_getNewAddress : Op value
(* generators of this service that the development does not open *)
| GenerateActionMessages (amount : Z) (withRelated : bool) (params : value)
  : Op value
| GenerateProfiles (amount : Z) (withRelated : bool) (params : value) : Op value
(* Faker-based builders of this service *)
| GenerateItemInformationData (c : ContentParams) : Op value
| GeneratePaymentInformationData (c : ContentParams) : Op value
| GenerateMessagingInformationData : Op value
| GenerateListingItemObjectsData (c : ContentParams) : Op value
| GenerateAddressData : Op value
(* the environment *)
| Date_getTime : Op Z
| Lodash_random (lower upper : Q) : Op Q
| Math_random : Op Q
| Faker_lorem_words (n : Z) : Op string
| Faker_finance_bitcoinAddress : Op string.

(** One entry of the call log: the call and how it settled. *)
Inductive Event : Type :=
| Ev (T : Type) (op : Op T) (outcome : Outcome T).
Arguments Ev {T} op outcome.

(* ================================================================== *)
(** * TestDataService *)
(* ================================================================== *)

Module TestDataService.

(** Resources with a primary key, for [generateResponse]. *)
Class HasId (T : Type) : Type := id_of : T -> Z.
#[export] Instance ListingItemTemplate_HasId : HasId ListingItemTemplate.t :=
  ListingItemTemplate.id.
#[export] Instance ListingItem_HasId : HasId ListingItem.t := ListingItem.id.
#[export] Instance Bid_HasId : HasId Bid.t := Bid.id.
#[export] Instance Order_HasId : HasId Order.t := Order.id.
#[export] Instance Proposal_HasId : HasId Proposal.t := Proposal.id.

(** What a generator resolves with: the items, or their ids. *)
Definition Generated (T : Type) (withRelated : bool) : Type :=
  if withRelated then list T else list Z.

(** What [generate] resolves with, by the model asked for. *)
Inductive GenerateResult (withRelated : bool) : Type :=
| Templates (items : Generated ListingItemTemplate.t withRelated)
| ListingItems (items : Generated ListingItem.t withRelated)
| Bids (items : Generated Bid.t withRelated)
| Orders (items : Generated Order.t withRelated)
| Proposals (items : Generated Proposal.t withRelated)
| Other (result : value).

Section Service.

(** The world behind the collaborators, and how they answer. *)
Variable W : Type.
Variable handler : forall T, Op T -> M W T.

(** Static helpers and constructors that are not among the sources:
    [ObjectHash.getHash], the parameter classes of [requests/params] and
    the literal of bid data whose keys are members of [BidDataValue]. *)
Variable ObjectHash_getHash : Hashable -> HashableObjectType.t -> string.
Variable new_GenerateListingItemTemplateParams :
  option value -> GenerateListingItemTemplateParams.t.
Variable new_GenerateListingItemParams : option value -> GenerateListingItemParams.t.
Variable new_GenerateBidParams : option value -> GenerateBidParams.t.
Variable new_GenerateOrderParams : option value -> GenerateOrderParams.t.
Variable new_GenerateProposalParams : option value -> GenerateProposalParams.t.
Variable bidDatas_literal : value.

(** The state of a run: the world and the log of the calls made so far. *)
Record St : Type := mkSt { world : W; log : list Event }.

(** A call to a collaborator, entered in the log with its outcome. *)
Definition invoke {T} (op : Op T) : M St T :=
  fun s =>
    let '(outcome, w') := handler T op (world s) in
    (outcome, mkSt w' (log s ++ [Ev op outcome])).

(** [for (let i = amount; i > 0; i--) { items.push(await body()) }] *)
Fixpoint push_each {A} (rounds : nat) (body : M St A) (items : list A)
  : M St (list A) :=
  match rounds with
  | O => ret items
  | S rounds' => x <- body ;; push_each rounds' body (items ++ [x])
  end.

(** The amounts are integers; an amount of zero or less makes no round. *)
Definition for_amount {A} (amount : Z) (body : M St A) : M St (list A) :=
  push_each (Z.to_nat amount) body [].

(** [xs[0]] followed by a property read: a TypeError on an empty array. *)
Definition first {A} (xs : list A) : M St A :=
  match xs with
  | x :: _ => ret x
  | [] => throw TypeError
  end.

(** The property read [v.k]: a TypeError when [v] is [undefined] or
    [null]. *)
Definition property (v : value) (k : string) : M St value :=
  match get v k with
  | Some x => ret x
  | None => throw TypeError
  end.

Definition generateResponse {T} `{HasId T} (items : list T) (withRelated : bool)
  : M St (Generated T withRelated) :=
  match withRelated as b return M St (Generated T b) with
  | true => ret items
  | false => ret (map id_of items)
  end.

(** [m] only adds calls that satisfy [P] to the log, however it ends. *)
Definition emits (P : Event -> Prop) {A} (m : M St A) : Prop :=
  forall s o s',
    m s = (o, s') ->
    exists calls, log s' = (log s ++ calls)%list /\ Forall P calls.


(** ** create *)

Definition create (body : TestDataCreateRequest.t) : M St value :=
  invoke (Validate_TestDataCreateRequest body) ;;;
  match TestDataCreateRequest.model body with
  | LISTINGITEMTEMPLATE =>
      invoke (Service_create LISTINGITEMTEMPLATE (TestDataCreateRequest.data body)
                (TestDataCreateRequest.timestampedHash body))
  | LISTINGITEM =>
      invoke (Service_create LISTINGITEM (TestDataCreateRequest.data body) None)
  | ACTIONMESSAGE =>
      invoke (Service_create ACTIONMESSAGE (TestDataCreateRequest.data body) None)
  | PROFILE =>
      invoke (Service_create PROFILE (TestDataCreateRequest.data body) None)
  | ITEMCATEGORY =>
      invoke (Service_create ITEMCATEGORY (TestDataCreateRequest.data body) None)
  | FAVORITEITEM =>
      invoke (Service_create FAVORITEITEM (TestDataCreateRequest.data body) None)
  | ITEMINFORMATION =>
      invoke (Service_create ITEMINFORMATION (TestDataCreateRequest.data body) None)
  | BID =>
      invoke (Service_create BID (TestDataCreateRequest.data body) None)
  | PAYMENTINFORMATION =>
      invoke (Service_create PAYMENTINFORMATION (TestDataCreateRequest.data body) None)
  | ITEMIMAGE =>
      invoke (Service_create ITEMIMAGE (TestDataCreateRequest.data body) None)
  | _ => throw (MessageException (Some "Not implemented"))
  end.

(** ** Listing item templates *)

Definition generateListingItemTemplateData
    (generateParams : GenerateListingItemTemplateParams.t)
  : M St ListingItemTemplateCreateRequest.t :=
  let c := GenerateListingItemTemplateParams.content generateParams in
  itemInformation <-
    (if GenerateListingItemTemplateParams.generateItemInformation generateParams
     then invoke (GenerateItemInformationData c) else ret (VObj [])) ;;
  paymentInformation <-
    (if GenerateListingItemTemplateParams.generatePaymentInformation generateParams
     then invoke (GeneratePaymentInformationData c) else ret (VObj [])) ;;
  messagingInformation <-
    (if GenerateListingItemTemplateParams.generateMessagingInformation generateParams
     then invoke GenerateMessagingInformationData else ret (VArr [])) ;;
  listingItemObjects <-
    (if GenerateListingItemTemplateParams.generateListingItemObjects generateParams
     then invoke (GenerateListingItemObjectsData c) else ret (VArr [])) ;;
  profile <-
    match GenerateListingItemTemplateParams.profileId generateParams with
    | None => invoke ProfileService_getDefault
    | Some profileId => invoke (ProfileService_findOne profileId)
    end ;;
  ret (ListingItemTemplateCreateRequest.mk itemInformation paymentInformation
         messagingInformation listingItemObjects (Profile.id profile)).

Definition generateListingItemTemplates (amount : Z) (withRelated : bool)
    (generateParams : GenerateListingItemTemplateParams.t)
  : M St (Generated ListingItemTemplate.t withRelated) :=
  items <- for_amount amount (
    listingItemTemplateCreateRequest <-
      generateListingItemTemplateData generateParams ;;
    result <-
      invoke (ListingItemTemplateService_create listingItemTemplateCreateRequest) ;;
    if GenerateListingItemTemplateParams.generateListingItem generateParams then
      market <-
        match GenerateListingItemTemplateParams.marketId generateParams with
        | None => invoke MarketService_getDefault
        | Some marketId => invoke (MarketService_findOne marketId)
        end ;;
      postedAt <- invoke Date_getTime ;;
      expiredAt <- invoke Date_getTime ;;
      receivedAt <- invoke Date_getTime ;;
      let listingItemCreateRequest :=
        ListingItemCreateRequest.mk
          (Profile.address (ListingItemTemplate.Profile result))
          (Market.id market)
          (Some (ListingItemTemplate.id result))
          (ListingItemTemplateCreateRequest.itemInformation
             listingItemTemplateCreateRequest)
          (ListingItemTemplateCreateRequest.paymentInformation
             listingItemTemplateCreateRequest)
          (ListingItemTemplateCreateRequest.messagingInformation
             listingItemTemplateCreateRequest)
          (ListingItemTemplateCreateRequest.listingItemObjects
             listingItemTemplateCreateRequest)
          10
          postedAt
          (expiredAt + 60 * 1000 * 60 * 24 * 10)
          receivedAt in
      invoke (ListingItemService_create listingItemCreateRequest) ;;;
      invoke (ListingItemTemplateService_findOne (ListingItemTemplate.id result))
    else ret result) ;;
  generateResponse items withRelated.

(** ** Listing items *)

Definition generateListingItemData (generateParams : GenerateListingItemParams.t)
  : M St ListingItemCreateRequest.t :=
  let c := GenerateListingItemParams.content generateParams in
  invoke ProfileService_getDefault ;;;
  defaultMarket <- invoke MarketService_getDefault ;;
  seller <-
    match truthy_string (GenerateListingItemParams.seller generateParams) with
    | Some seller => ret (VStr seller)
    | None => invoke CoreRpcService_getNewAddress
    end ;;
  itemInformation <-
    (if GenerateListingItemParams.generateItemInformation generateParams
     then invoke (GenerateItemInformationData c) else ret (VObj [])) ;;
  paymentInformation <-
    (if GenerateListingItemParams.generatePaymentInformation generateParams
     then invoke (GeneratePaymentInformationData c) else ret (VObj [])) ;;
  messagingInformation <-
    (if GenerateListingItemParams.generateMessagingInformation generateParams
     then invoke GenerateMessagingInformationData else ret (VArr [])) ;;
  listingItemObjects <-
    (if GenerateListingItemParams.generateListingItemObjects generateParams
     then invoke (GenerateListingItemObjectsData c) else ret (VArr [])) ;;
  postedAt <- invoke Date_getTime ;;
  expiredAt <- invoke Date_getTime ;;
  receivedAt <- invoke Date_getTime ;;
  let listingItemCreateRequest listing_item_template_id :=
    ListingItemCreateRequest.mk seller (Market.id defaultMarket)
      listing_item_template_id
      itemInformation paymentInformation messagingInformation listingItemObjects
      4 postedAt (expiredAt + 100000000) receivedAt in
  match truthy_string (GenerateListingItemParams.listingItemTemplateHash
                         generateParams) with
  | Some hash =>
      listingItemTemplate <- invoke (ListingItemTemplateService_findOneByHash hash) ;;
      match listingItemTemplate with
      | Some template =>
          ret (listingItemCreateRequest (Some (ListingItemTemplate.id template)))
      | None => ret (listingItemCreateRequest None)
      end
  | None => ret (listingItemCreateRequest None)
  end.

Definition generateListingItems (amount : Z) (withRelated : bool)
    (generateParams : GenerateListingItemParams.t)
  : M St (Generated ListingItem.t withRelated) :=
  items <- for_amount amount (
    listingItemCreateRequest <- generateListingItemData generateParams ;;
    invoke MarketService_getDefault ;;;
    invoke (ListingItemService_create listingItemCreateRequest)) ;;
  generateResponse items withRelated.

(** ** Bids *)

Fixpoint generateAddressesData_loop (rounds : nat) (addresses : list AddressCreateRequest.t)
  : M St (list AddressCreateRequest.t) :=
  match rounds with
  | O => ret addresses
  | S rounds' =>
      generated <- invoke GenerateAddressData ;;
      generateAddressesData_loop rounds'
        (addresses ++ [AddressCreateRequest.mk generated None])
  end.

Definition generateAddressesData (amount : Z) : M St (list AddressCreateRequest.t) :=
  generateAddressesData_loop (Z.to_nat amount) [].

Definition generateBidData (generateParams : GenerateBidParams.t)
  : M St BidCreateRequest.t :=
  addresses <- generateAddressesData 1 ;;
  defaultProfile <- invoke ProfileService_getDefault ;;
  address <- first addresses ;;
  let address :=
    AddressCreateRequest.mk (AddressCreateRequest.generated address)
      (Some (Profile.id defaultProfile)) in
  bidder <-
    match truthy_string (GenerateBidParams.bidder generateParams) with
    | Some bidder => ret (VStr bidder)
    | None => invoke CoreRpcService_getNewAddress
    end ;;
  let action :=
    match GenerateBidParams.action generateParams with
    | Some action => action
    | None => MPA_BID
    end in
  let bidCreateRequest listing_item_id :=
    BidCreateRequest.mk action address bidder bidDatas_literal listing_item_id in
  match truthy_string (GenerateBidParams.listingItemHash generateParams) with
  | Some hash =>
      listingItem <- invoke (ListingItemService_findOneByHash hash) ;;
      match listingItem with
      | Some listingItem => ret (bidCreateRequest (Some (ListingItem.id listingItem)))
      | None => ret (bidCreateRequest None)
      end
  | None => ret (bidCreateRequest None)
  end.

(** The parameter object is mutable: the generator returns it next to its
    result, as the caller sees it afterwards. *)
Definition generateBids (amount : Z) (withRelated : bool)
    (generateParams : GenerateBidParams.t)
  : M St (Generated Bid.t withRelated * GenerateBidParams.t) :=
  let listingItemTemplateGenerateParams :=
    new_GenerateListingItemTemplateParams None in
  let listingItemGenerateParams := new_GenerateListingItemParams None in
  listingItemGenerateParams <-
    (if GenerateBidParams.generateListingItemTemplate generateParams then
       listingItemTemplates <-
         generateListingItemTemplates 1 true listingItemTemplateGenerateParams ;;
       listingItemTemplate <- first (listingItemTemplates : list _) ;;
       ret (GenerateListingItemParams.mk
              (GenerateListingItemParams.generateItemInformation
                 listingItemGenerateParams)
              (GenerateListingItemParams.generatePaymentInformation
                 listingItemGenerateParams)
              (GenerateListingItemParams.generateMessagingInformation
                 listingItemGenerateParams)
              (GenerateListingItemParams.generateListingItemObjects
                 listingItemGenerateParams)
              (GenerateListingItemParams.content listingItemGenerateParams)
              (Some (ListingItemTemplate.hash listingItemTemplate))
              (GenerateListingItemParams.seller listingItemGenerateParams))
     else ret listingItemGenerateParams) ;;
  generateParams <-
    (if GenerateBidParams.generateListingItem generateParams then
       let listingItemGenerateParams :=
         GenerateListingItemParams.mk
           (GenerateListingItemParams.generateItemInformation
              listingItemGenerateParams)
           (GenerateListingItemParams.generatePaymentInformation
              listingItemGenerateParams)
           (GenerateListingItemParams.generateMessagingInformation
              listingItemGenerateParams)
           (GenerateListingItemParams.generateListingItemObjects
              listingItemGenerateParams)
           (GenerateListingItemParams.content listingItemGenerateParams)
           (GenerateListingItemParams.listingItemTemplateHash
              listingItemGenerateParams)
           (truthy_string (GenerateBidParams.listingItemSeller generateParams)) in
       listingItems <- generateListingItems 1 true listingItemGenerateParams ;;
       listingItem <- first (listingItems : list _) ;;
       ret (GenerateBidParams.mk
              (GenerateBidParams.generateListingItemTemplate generateParams)
              (GenerateBidParams.generateListingItem generateParams)
              (Some (ListingItem.hash listingItem))
              (GenerateBidParams.action generateParams)
              (GenerateBidParams.bidder generateParams)
              (GenerateBidParams.listingItemSeller generateParams))
     else ret generateParams) ;;
  items <- for_amount amount (
    bid <- generateBidData generateParams ;;
    invoke (BidService_create bid)) ;;
  result <- generateResponse items withRelated ;;
  ret (result, generateParams).

(** ** Orders *)

Definition generateOrderData (generateParams : GenerateOrderParams.t)
  : M St OrderCreateRequest.t :=
  bid <- invoke (BidService_findOne (GenerateOrderParams.bidId generateParams)) ;;
  orderCreateRequest <- invoke (OrderFactory_getModelFromBid bid) ;;
  if negb (GenerateOrderParams.generateOrderItem generateParams)
  then ret (OrderCreateRequest.mk (OrderCreateRequest.body orderCreateRequest) [])
  else ret orderCreateRequest.

Definition generateOrders (amount : Z) (withRelated : bool)
    (generateParams : GenerateOrderParams.t)
  : M St (Generated Order.t withRelated * GenerateOrderParams.t) :=
  bid <-
    (if GenerateOrderParams.generateBid generateParams then
       let bidGenerateParams := new_GenerateBidParams None in
       let bidGenerateParams :=
         GenerateBidParams.mk
           (GenerateOrderParams.generateListingItemTemplate generateParams)
           (GenerateOrderParams.generateListingItem generateParams)
           (GenerateBidParams.listingItemHash bidGenerateParams)
           (Some MPA_ACCEPT)
           (GenerateBidParams.bidder bidGenerateParams)
           (GenerateOrderParams.listingItemSeller generateParams) in
       generated <- generateBids 1 true bidGenerateParams ;;
       first (fst generated : list _)
     else invoke (BidService_findOne (GenerateOrderParams.bidId generateParams))) ;;
  let generateParams :=
    GenerateOrderParams.mk
      (GenerateOrderParams.generateListingItemTemplate generateParams)
      (GenerateOrderParams.generateListingItem generateParams)
      (GenerateOrderParams.generateBid generateParams)
      (GenerateOrderParams.generateOrderItem generateParams)
      (GenerateOrderParams.listingItemSeller generateParams)
      (Some (Bid.id bid)) in
  items <- for_amount amount (
    orderCreateRequest <- generateOrderData generateParams ;;
    invoke (OrderService_create orderCreateRequest)) ;;
  result <- generateResponse items withRelated ;;
  ret (result, generateParams).

(** ** Proposals *)

Definition generateProposalData (generateParams : GenerateProposalParams.t)
  : M St ProposalCreateRequest.t :=
  submitter <-
    match truthy_string (GenerateProposalParams.submitter generateParams) with
    | None =>
        defaultProfile <- invoke ProfileService_getDefault ;;
        ret (Profile.address defaultProfile)
    | Some submitter => ret (VStr submitter)
    end ;;
  let listingItemHash :=
    truthy_string (GenerateProposalParams.listingItemHash generateParams) in
  let type :=
    match listingItemHash with
    | Some _ => ITEM_VOTE
    | None => PUBLIC_VOTE
    end in
  title <-
    match listingItemHash with
    | Some hash => ret hash
    | None => invoke (Faker_lorem_words 4)
    end ;;
  let item := listingItemHash in
  description <-
    match listingItemHash with
    | Some _ => ret "ILLEGAL ITEM"
    | None => invoke (Faker_lorem_words 40)
    end ;;
  currentTime <- invoke Date_getTime ;;
  let currentTime := inject_Z currentTime in
  timeStart <-
    (if GenerateProposalParams.generatePastProposal generateParams
     then invoke (Lodash_random 1 (currentTime / 2))
     else invoke (Lodash_random (currentTime + 100) (currentTime + 1000)))%Q ;;
  timeEnd <-
    (if GenerateProposalParams.generatePastProposal generateParams
     then invoke (Lodash_random (currentTime / 2 + 100) (currentTime - 1000))
     else invoke (Lodash_random (currentTime + 1001) (currentTime + 2000)))%Q ;;
  let proposalCreateRequest :=
    ProposalCreateRequest.mk submitter type item title description
      timeStart timeStart timeStart timeEnd None [] in
  let hash :=
    ObjectHash_getHash (HashProposalCreateRequest proposalCreateRequest)
      HashableObjectType.PROPOSAL_CREATEREQUEST in
  let options :=
    [ProposalOptionCreateRequest.mk hash 0 KEEP;
     ProposalOptionCreateRequest.mk hash 1 REMOVE] in
  ret (ProposalCreateRequest.mk submitter type item title description
         timeStart timeStart timeStart timeEnd (Some hash) options).

Fixpoint generateVotesForProposal_loop (rounds : nat) (proposal : Proposal.t)
    (items : list value) : M St (list value) :=
  match rounds with
  | O => ret items
  | S rounds' =>
      random <- invoke Math_random ;;
      let randomBoolean := Qle_bool (1 # 2) random in
      voter <- invoke Faker_finance_bitcoinAddress ;;
      proposalOption <-
        match nth_error (Proposal.ProposalOptions proposal)
                (if randomBoolean then 0%nat else 1%nat) with
        | Some option => ret option
        | None => throw TypeError
        end ;;
      signature <- invoke Faker_finance_bitcoinAddress ;;
      postedAt <- invoke Date_getTime ;;
      receivedAt <- invoke Date_getTime ;;
      expiredAt <- invoke Date_getTime ;;
      vote <- invoke (VoteService_create
                (VoteCreateRequest.mk (ProposalOption.id proposalOption)
                   ("signature" ++ signature) voter 1 postedAt receivedAt
                   (expiredAt + 100000000))) ;;
      (* the line for the log reads the vote that was created *)
      property vote "voter" ;;;
      chosen <- property vote "ProposalOption" ;;
      property chosen "optionId" ;;;
      chosen <- property vote "ProposalOption" ;;
      property chosen "description" ;;;
      generateVotesForProposal_loop rounds' proposal (items ++ [vote])
  end.

Definition generateVotesForProposal (amount : Z) (proposal : Proposal.t)
  : M St (list value) :=
  generateVotesForProposal_loop (Z.to_nat amount) proposal [].

Definition generateProposals (amount : Z) (withRelated : bool)
    (generateParams : GenerateProposalParams.t)
  : M St (Generated Proposal.t withRelated) :=
  if GenerateProposalParams.generateListingItemTemplate generateParams
  then throw NotImplementedException
  else if GenerateProposalParams.generateListingItem generateParams
  then throw NotImplementedException
  else
    items <- for_amount amount (
      proposalCreateRequest <- generateProposalData generateParams ;;
      proposal <- invoke (ProposalService_create proposalCreateRequest) ;;
      (if 0 <? GenerateProposalParams.voteCount generateParams
       then generateVotesForProposal
              (GenerateProposalParams.voteCount generateParams) proposal ;;; ret tt
       else ret tt) ;;;
      invoke (ProposalService_createEmptyProposalResult proposal) ;;;
      invoke (ProposalService_recalculateProposalResult proposal true) ;;;
      invoke (ProposalService_findOne (Proposal.id proposal))) ;;
    generateResponse items withRelated.

(** ** generate *)

Definition generate (body : TestDataGenerateRequest.t)
  : M St (GenerateResult (TestDataGenerateRequest.withRelated body)) :=
  let amount := TestDataGenerateRequest.amount body in
  let withRelated := TestDataGenerateRequest.withRelated body in
  let given := Some (TestDataGenerateRequest.generateParams body) in
  invoke (Validate_TestDataGenerateRequest body) ;;;
  match TestDataGenerateRequest.model body with
  | LISTINGITEMTEMPLATE =>
      items <- generateListingItemTemplates amount withRelated
                 (new_GenerateListingItemTemplateParams given) ;;
      ret (Templates withRelated items)
  | ACTIONMESSAGE =>
      result <- invoke (GenerateActionMessages amount withRelated
                          (TestDataGenerateRequest.generateParams body)) ;;
      ret (Other withRelated result)
  | LISTINGITEM =>
      items <- generateListingItems amount withRelated
                 (new_GenerateListingItemParams given) ;;
      ret (ListingItems withRelated items)
  | PROFILE =>
      result <- invoke (GenerateProfiles amount withRelated
                          (TestDataGenerateRequest.generateParams body)) ;;
      ret (Other withRelated result)
  | BID =>
      generated <- generateBids amount withRelated (new_GenerateBidParams given) ;;
      ret (Bids withRelated (fst generated))
  | ORDER =>
      generated <- generateOrders amount withRelated (new_GenerateOrderParams given) ;;
      ret (Orders withRelated (fst generated))
  | PROPOSAL =>
      items <- generateProposals amount withRelated
                 (new_GenerateProposalParams given) ;;
      ret (Proposals withRelated items)
  | _ => throw (MessageException (Some "Not implemented"))
  end.

End Service.

Arguments mkSt {W} _ _.
Arguments world {W} _.
Arguments log {W} _.

(** ** Reading the call log *)

(** The request and the outcome of a call of [bidService.create]. *)
Definition bid_created (e : Event) : option (BidCreateRequest.t * Outcome Bid.t) :=
  match e with
  | Ev op outcome =>
      match op in Op T
            return Outcome T -> option (BidCreateRequest.t * Outcome Bid.t) with
      | BidService_create r => fun o => Some (r, o)
      | _ => fun _ => None
      end outcome
  end.

Definition order_created (e : Event)
  : option (OrderCreateRequest.t * Outcome Order.t) :=
  match e with
  | Ev op outcome =>
      match op in Op T
            return Outcome T -> option (OrderCreateRequest.t * Outcome Order.t) with
      | OrderService_create r => fun o => Some (r, o)
      | _ => fun _ => None
      end outcome
  end.

(** The calls of [bidService.create], and of [orderService.create], in a
    log, in order. *)
Definition bids_created (calls : list Event)
  : list (BidCreateRequest.t * Outcome Bid.t) :=
  flat_map (fun e => match bid_created e with
                     | Some call => [call]
                     | None => []
                     end) calls.

Definition orders_created (calls : list Event)
  : list (OrderCreateRequest.t * Outcome Order.t) :=
  flat_map (fun e => match order_created e with
                     | Some call => [call]
                     | None => []
                     end) calls.

(** A call that creates neither a bid nor an order. *)
Definition quiet (e : Event) : Prop :=
  bid_created e = None /\ order_created e = None.

(** What a call of [new Date().getTime()] read. *)
Definition clock_reading (e : Event) : option Z :=
  match e with
  | Ev op outcome =>
      match op in Op T return Outcome T -> option Z with
      | Date_getTime => fun o => match o with
                                 | Return t => Some t
                                 | Throw _ => None
                                 end
      | _ => fun _ => None
      end outcome
  end.

(** The bounds and the result of a call of [_.random]. *)
Definition random_draw (e : Event) : option (Q * Q * Q) :=
  match e with
  | Ev op outcome =>
      match op in Op T return Outcome T -> option (Q * Q * Q) with
      | Lodash_random lower upper =>
          fun o => match o with
                   | Return r => Some (lower, upper, r)
                   | Throw _ => None
                   end
      | _ => fun _ => None
      end outcome
  end.

Definition clock_at_least (t0 : Z) (e : Event) : Prop :=
  match clock_reading e with
  | Some t => t0 <= t
  | None => True
  end.

(** lodash's contract: the number lies between the bounds, whichever way
    round they were given. *)
Definition draw_in_range (e : Event) : Prop :=
  match random_draw e with
  | Some (lower, upper, r) => (Qmin lower upper <= r /\ r <= Qmax lower upper)%Q
  | None => True
  end.

(** The request that [generateOrderData] leaves of a model. *)
Definition order_request (generateOrderItem : bool) (model : OrderCreateRequest.t)
  : OrderCreateRequest.t :=
  if negb generateOrderItem
  then OrderCreateRequest.mk (OrderCreateRequest.body model) []
  else model.

(** The calls of completed rounds of the order loop for the bid [bidId],
    with the orders they created: each round reads the bid by its id, has
    the factory build the model from it and creates the order. *)
Inductive OrderRounds (bidId : Z) (generateOrderItem : bool)
  : list Event -> list Order.t -> Prop :=
| rounds_done : OrderRounds bidId generateOrderItem [] []
| rounds_next bid model order calls orders :
    OrderRounds bidId generateOrderItem calls orders ->
    OrderRounds bidId generateOrderItem
      (Ev (BidService_findOne (Some bidId)) (Return bid)
       :: Ev (OrderFactory_getModelFromBid bid) (Return model)
       :: Ev (OrderService_create (order_request generateOrderItem model))
            (Return order)
       :: calls)
      (order :: orders).

(** The models that the switch of [create], and of [generate], names. *)
Definition create_supports (model : CreatableModel) : bool :=
  match model with
  | LISTINGITEMTEMPLATE | LISTINGITEM | ACTIONMESSAGE | PROFILE | ITEMCATEGORY
  | FAVORITEITEM | ITEMINFORMATION | BID | PAYMENTINFORMATION | ITEMIMAGE => true
  | ORDER | PROPOSAL => false
  end.

Definition generate_supports (model : CreatableModel) : bool :=
  match model with
  | LISTINGITEMTEMPLATE | ACTIONMESSAGE | LISTINGITEM | PROFILE | BID | ORDER
  | PROPOSAL => true
  | ITEMCATEGORY | FAVORITEITEM | ITEMINFORMATION | PAYMENTINFORMATION
  | ITEMIMAGE => false
  end.

End TestDataService.

(* ================================================================== *)
(** * ObjectHash, the domain services and BidActionService *)
(* ================================================================== *)

Module ObjectHash.

Definition text_of_Q (q : Q) : string :=
  string_of_Z (Qnum (Qred q)) ++ "/" ++ string_of_Z (Zpos (Qden (Qred q))).

Definition listing_content (itemInformation paymentInformation
    messagingInformation listingItemObjects : value) : value :=
  VObj [("itemInformation", itemInformation);
        ("paymentInformation", paymentInformation);
        ("messagingInformation", messagingInformation);
        ("listingItemObjects", listingItemObjects)].

(** An example of a canonical form, for the services in memory of the
    examples: [ObjectHash] (in [core/helpers/ObjectHash.ts]) is not among
    the sources. This one keeps the content of a listing and the fields of
    a proposal, and leaves out ids, relations and timestamps. The theorems
    do not rest on it: they take the hash as a parameter. *)
Definition canonical (o : Hashable) : value :=
  match o with
  | HashListingItemTemplateCreateRequest r =>
      listing_content
        (ListingItemTemplateCreateRequest.itemInformation r)
        (ListingItemTemplateCreateRequest.paymentInformation r)
        (ListingItemTemplateCreateRequest.messagingInformation r)
        (ListingItemTemplateCreateRequest.listingItemObjects r)
  | HashListingItemTemplate r =>
      listing_content
        (ListingItemTemplate.ItemInformation r)
        (ListingItemTemplate.PaymentInformation r)
        (ListingItemTemplate.MessagingInformation r)
        (ListingItemTemplate.ListingItemObjects r)
  | HashListingItemCreateRequest r =>
      listing_content
        (ListingItemCreateRequest.itemInformation r)
        (ListingItemCreateRequest.paymentInformation r)
        (ListingItemCreateRequest.messagingInformation r)
        (ListingItemCreateRequest.listingItemObjects r)
  | HashListingItem r =>
      listing_content
        (ListingItem.ItemInformation r)
        (ListingItem.PaymentInformation r)
        (ListingItem.MessagingInformation r)
        (ListingItem.ListingItemObjects r)
  | HashProposalCreateRequest r =>
      VObj [("submitter", ProposalCreateRequest.submitter r);
            ("type", VStr match ProposalCreateRequest.type r with
                          | ITEM_VOTE => "ITEM_VOTE"
                          | PUBLIC_VOTE => "PUBLIC_VOTE"
                          end);
            ("item", match ProposalCreateRequest.item r with
                     | Some item => VStr item
                     | None => VNull
                     end);
            ("title", VStr (ProposalCreateRequest.title r));
            ("description", VStr (ProposalCreateRequest.description r));
            ("timeStart", VStr (text_of_Q (ProposalCreateRequest.timeStart r)));
            ("expiredAt", VStr (text_of_Q (ProposalCreateRequest.expiredAt r)))]
  end.

(** The example hash: the digest of the serialized canonical form, with
    the digest function as a parameter. *)
Definition getHash (digest : string -> string) (o : Hashable)
    (type : HashableObjectType.t) : string :=
  digest match stringify (canonical o) with
         | Some text => text
         | None => ""
         end.

End ObjectHash.

Module InMemory.

(** Example collaborators, to run the methods on: the domain services
    ("each owns one ORM-mapped entity, offering create/find/update/delete")
    over tables held in memory, with the clock and the random source of
    the process. None of the services is among the sources, and the
    theorems hold for every implementation of them; these are the ones of
    the examples. *)
Record Db : Type := mk {
  profiles : list Profile.t;
  markets : list Market.t;
  listingItemTemplates : list ListingItemTemplate.t;
  listingItems : list ListingItem.t;
  bids : list Bid.t;
  orders : list Order.t;
  proposals : list Proposal.t;
  nextId : Z;
  now : Z;
  draws : list Q
}.

Definition set_nextId (db : Db) (n : Z) : Db :=
  mk (profiles db) (markets db) (listingItemTemplates db) (listingItems db)
     (bids db) (orders db) (proposals db) n (now db) (draws db).

Definition set_draws (db : Db) (d : list Q) : Db :=
  mk (profiles db) (markets db) (listingItemTemplates db) (listingItems db)
     (bids db) (orders db) (proposals db) (nextId db) (now db) d.

Definition add_listingItemTemplate (db : Db) (x : ListingItemTemplate.t) : Db :=
  mk (profiles db) (markets db) (listingItemTemplates db ++ [x]) (listingItems db)
     (bids db) (orders db) (proposals db) (nextId db + 1) (now db) (draws db).

Definition add_listingItem (db : Db) (x : ListingItem.t) : Db :=
  mk (profiles db) (markets db) (listingItemTemplates db) (listingItems db ++ [x])
     (bids db) (orders db) (proposals db) (nextId db + 1) (now db) (draws db).

Definition add_bid (db : Db) (x : Bid.t) : Db :=
  mk (profiles db) (markets db) (listingItemTemplates db) (listingItems db)
     (bids db ++ [x]) (orders db) (proposals db) (nextId db + 1) (now db) (draws db).

Definition add_order (db : Db) (x : Order.t) : Db :=
  mk (profiles db) (markets db) (listingItemTemplates db) (listingItems db)
     (bids db) (orders db ++ [x]) (proposals db) (nextId db + 1) (now db) (draws db).

Definition add_proposal (db : Db) (x : Proposal.t) : Db :=
  mk (profiles db) (markets db) (listingItemTemplates db) (listingItems db)
     (bids db) (orders db) (proposals db ++ [x])
     (nextId db + 1 + Z.of_nat (List.length (Proposal.ProposalOptions x)))
     (now db) (draws db).

Definition found {T} (key : string) (x : option T) : M Db T :=
  match x with
  | Some x => ret x
  | None => throw (NotFoundException key)
  end.

Definition on_template (id : Z) (l : ListingItem.t) : bool :=
  match ListingItem.listingItemTemplateId l with
  | Some id' => id' =? id
  | None => false
  end.

(** A template read with its relation [ListingItems]. *)
Definition related (db : Db) (t : ListingItemTemplate.t) : ListingItemTemplate.t :=
  ListingItemTemplate.mk (ListingItemTemplate.id t) (ListingItemTemplate.hash t)
    (ListingItemTemplate.ItemInformation t)
    (ListingItemTemplate.PaymentInformation t)
    (ListingItemTemplate.MessagingInformation t)
    (ListingItemTemplate.ListingItemObjects t)
    (filter (on_template (ListingItemTemplate.id t)) (listingItems db))
    (ListingItemTemplate.Profile t).

(** The foreign key of a listing item to its template is enforced
    ([PRAGMA foreign_keys = ON] in [config/Database.ts]). *)
Definition references_template (db : Db) (id : option Z) : bool :=
  match id with
  | Some id =>
      match find (fun t => ListingItemTemplate.id t =? id) (listingItemTemplates db) with
      | Some _ => true
      | None => false
      end
  | None => true
  end.

Fixpoint number_options (first : Z) (options : list ProposalOptionCreateRequest.t)
  : list ProposalOption.t :=
  match options with
  | [] => []
  | o :: rest =>
      ProposalOption.mk first (ProposalOptionCreateRequest.optionId o)
        match ProposalOptionCreateRequest.description o with
        | KEEP => "KEEP"
        | REMOVE => "REMOVE"
        end :: number_options (first + 1) rest
  end.

Definition is_integer (q : Q) : bool := Qeq_bool q (inject_Z (Qfloor q)).

(** Modelled from the documentation of lodash: [_.random(lower, upper)]
    swaps bounds given in the wrong order and yields a number between
    them, an integer when both are integers; [u] is the draw of
    [Math.random]. *)
Definition random_between (lower upper u : Q) : Q :=
  let lo := Qmin lower upper in
  let hi := Qmax lower upper in
  let x :=
    if is_integer lo && is_integer hi
    then inject_Z (Qfloor (lo + u * (hi - lo + 1))%Q)
    else (lo + u * (hi - lo))%Q in
  Qmax lo (Qmin hi x).

Definition draw : M Db Q :=
  fun db =>
    match draws db with
    | u :: rest => (Return u, set_draws db rest)
    | [] => (Return 0%Q, db)
    end.

Definition fresh_value (label : string) : M Db value :=
  fun db => (Return (VObj [(label, VNum (nextId db))]), set_nextId db (nextId db + 1)).

(** The option of a proposal in the tables, by its primary key, and a vote
    as it is read back after its creation: with the relation to its
    option. *)
Definition find_option (db : Db) (id : Z) : option ProposalOption.t :=
  find (fun o => ProposalOption.id o =? id)
    (flat_map Proposal.ProposalOptions (proposals db)).

Definition new_vote (db : Db) (r : VoteCreateRequest.t) (o : ProposalOption.t)
  : value :=
  VObj [("id", VNum (nextId db));
        ("voter", VStr (VoteCreateRequest.voter r));
        ("weight", VNum (VoteCreateRequest.weight r));
        ("ProposalOption",
         VObj [("id", VNum (ProposalOption.id o));
               ("optionId", VNum (ProposalOption.optionId o));
               ("description", VStr (ProposalOption.description o))])].

Section Services.

Variable digest : string -> string.

(** How the example collaborators answer. The domain services create,
    find and relate rows of the tables; the decorator accepts every
    request; clock, random source and Faker are those of the database
    record. *)
Definition handler (T : Type) (op : Op T) : M Db T :=
  match op in Op T return M Db T with
  | Validate_TestDataCreateRequest _ => ret tt
  | Validate_TestDataGenerateRequest _ => ret tt
  | Service_create _ data _ => ret data
  | ProfileService_getDefault =>
      fun db => found "default profile" (hd_error (profiles db)) db
  | ProfileService_findOne id =>
      fun db => found (string_of_Z id)
                  (find (fun p => Profile.id p =? id) (profiles db)) db
  | MarketService_getDefault =>
      fun db => found "default market" (hd_error (markets db)) db
  | MarketService_findOne id =>
      fun db => found (string_of_Z id)
                  (find (fun m => Market.id m =? id) (markets db)) db
  | ListingItemTemplateService_create r =>
      fun db =>
        match find (fun p => Profile.id p =? ListingItemTemplateCreateRequest.profile_id r)
                (profiles db) with
        | Some profile =>
            let t :=
              ListingItemTemplate.mk (nextId db)
                (ObjectHash.getHash digest (HashListingItemTemplateCreateRequest r)
                   HashableObjectType.LISTINGITEMTEMPLATE_CREATEREQUEST)
                (ListingItemTemplateCreateRequest.itemInformation r)
                (ListingItemTemplateCreateRequest.paymentInformation r)
                (ListingItemTemplateCreateRequest.messagingInformation r)
                (ListingItemTemplateCreateRequest.listingItemObjects r)
                [] profile in
            (Return t, add_listingItemTemplate db t)
        | None =>
            (Throw (NotFoundException
                      (string_of_Z (ListingItemTemplateCreateRequest.profile_id r))),
             db)
        end
  | ListingItemTemplateService_findOne id =>
      fun db => found (string_of_Z id)
                  (option_map (related db)
                     (find (fun t => ListingItemTemplate.id t =? id)
                        (listingItemTemplates db))) db
  | ListingItemTemplateService_findOneByHash hash =>
      fun db => (Return (option_map (related db)
                           (find (fun t => (ListingItemTemplate.hash t =? hash)%string)
                              (listingItemTemplates db))), db)
  | ListingItemService_create r =>
      fun db =>
        let l :=
          ListingItem.mk (nextId db)
            (ObjectHash.getHash digest (HashListingItemCreateRequest r)
               HashableObjectType.LISTINGITEM_CREATEREQUEST)
            (ListingItemCreateRequest.seller r)
            (ListingItemCreateRequest.market_id r)
            (ListingItemCreateRequest.listing_item_template_id r)
            (ListingItemCreateRequest.itemInformation r)
            (ListingItemCreateRequest.paymentInformation r)
            (ListingItemCreateRequest.messagingInformation r)
            (ListingItemCreateRequest.listingItemObjects r) in
        if references_template db (ListingItemCreateRequest.listing_item_template_id r)
        then (Return l, add_listingItem db l)
        else (Throw (NotFoundException "listing_item_template_id"), db)
  | ListingItemService_findOneByHash hash =>
      fun db => (Return (find (fun l => (ListingItem.hash l =? hash)%string)
                           (listingItems db)), db)
  | BidService_create r =>
      fun db =>
        let bid :=
          Bid.mk (nextId db) (BidCreateRequest.action r) (BidCreateRequest.bidder r)
            (BidCreateRequest.listing_item_id r) in
        (Return bid, add_bid db bid)
  | BidService_findOne id =>
      fun db =>
        match id with
        | Some id =>
            found (string_of_Z id) (find (fun b => Bid.id b =? id) (bids db)) db
        | None => (Throw (NotFoundException "undefined"), db)
        end
  | OrderService_create r =>
      fun db =>
        let order :=
          Order.mk (nextId db) (OrderCreateRequest.body r)
            (OrderCreateRequest.orderItems r) in
        (Return order, add_order db order)
  | OrderFactory_getModelFromBid bid =>
      ret (OrderCreateRequest.mk
             (VObj [("buyer", Bid.bidder bid)])
             [VObj [("bid_id", VNum (Bid.id bid));
                    ("status", VStr "AWAITING_ESCROW")]])
  | ProposalService_create r =>
      fun db =>
        let proposal :=
          Proposal.mk (nextId db)
            match ProposalCreateRequest.hash r with
            | Some hash => hash
            | None => ObjectHash.getHash digest (HashProposalCreateRequest r)
                        HashableObjectType.PROPOSAL_CREATEREQUEST
            end
            (number_options (nextId db + 1) (ProposalCreateRequest.options r)) in
        (Return proposal, add_proposal db proposal)
  | ProposalService_findOne id =>
      fun db => found (string_of_Z id)
                  (find (fun p => Proposal.id p =? id) (proposals db)) db
  | ProposalService_createEmptyProposalResult _ => fresh_value "proposalResult"
  | ProposalService_recalculateProposalResult _ _ => fresh_value "proposalResult"
  | VoteService_create r =>
      fun db =>
        match find_option db (VoteCreateRequest.proposal_option_id r) with
        | Some o => (Return (new_vote db r o), set_nextId db (nextId db + 1))
        | None => (Throw (NotFoundException "proposal_option_id"), db)
        end
  | CoreRpcService_getNewAddress =>
      fun db => (Return (VStr ("p" ++ string_of_Z (nextId db))),
                 set_nextId db (nextId db + 1))
  | GenerateActionMessages _ _ _ => ret (VArr [])
  | GenerateProfiles _ _ _ => ret (VArr [])
  | GenerateItemInformationData _ => fresh_value "title"
  | GeneratePaymentInformationData _ => fresh_value "type"
  | GenerateMessagingInformationData => fresh_value "publicKey"
  | GenerateListingItemObjectsData _ => fresh_value "description"
  | GenerateAddressData => fresh_value "addressLine1"
  | Date_getTime => fun db => (Return (now db), db)
  | Lodash_random lower upper =>
      fun db =>
        match draw db with
        | (Return u, db') => (Return (random_between lower upper u), db')
        | (Throw e, db') => (Throw e, db')
        end
  | Math_random => draw
  | Faker_lorem_words _ => ret "lorem ipsum"
  | Faker_finance_bitcoinAddress => ret "1BoatSLRHtKNngkdXEeobR76b53LETtpyT"
  end.

End Services.

(** Parameter objects as the constructors leave them when no array of
    switches is given; with an array, the example constructors read its
    first switches as [generateListingItem], [generateBid] and so on. *)
Definition no_content : ContentParams :=
  mkContentParams false false false None false false false.

Definition switch (given : option value) (n : nat) : bool :=
  match given with
  | Some (VArr items) => truthy (nth n items VUndefined)
  | _ => false
  end.

Definition new_GenerateListingItemTemplateParams (given : option value)
  : GenerateListingItemTemplateParams.t :=
  GenerateListingItemTemplateParams.mk true true true true no_content None
    (switch given 0) None.

Definition new_GenerateListingItemParams (given : option value)
  : GenerateListingItemParams.t :=
  GenerateListingItemParams.mk true true true true no_content None None.

Definition new_GenerateBidParams (given : option value) : GenerateBidParams.t :=
  GenerateBidParams.mk (switch given 0) (switch given 1) None None None None.

Definition new_GenerateOrderParams (given : option value) : GenerateOrderParams.t :=
  GenerateOrderParams.mk (switch given 0) (switch given 1) (switch given 2)
    (switch given 3) None None.

Definition new_GenerateProposalParams (given : option value)
  : GenerateProposalParams.t :=
  GenerateProposalParams.mk false false None None 0 (switch given 0).

(** An example database: the default profile and market that
    [TestDataService.clean] seeds, and nothing else. *)
Definition seeded : Db :=
  mk [Profile.mk 1 (VStr "pdefaultprofileaddress")]
     [Market.mk 2 (VStr "pmktyVZshdMAQ6DPbbRXEFNGuzMbTMkqAA")]
     [] [] [] [] [] 3 1541116800000 [(1 # 4)%Q; (3 # 4)%Q].

(** The services of the examples hash with the identity: the hash is the
    serialized canonical form itself. *)
Definition plain (text : string) : string := text.
Definition services : forall T, Op T -> M Db T := handler plain.
Definition start : TestDataService.St Db := TestDataService.mkSt seeded [].

Definition example_bidDatas : value :=
  VArr [VObj [("dataId", VStr "size"); ("dataValue", VStr "XL")];
        VObj [("dataId", VStr "color"); ("dataValue", VStr "pink")]].

(** A database that holds a listing item with the hash of the
    integration test. *)
Definition with_listing : Db :=
  mk [Profile.mk 1 (VStr "pdefaultprofileaddress")]
     [Market.mk 2 (VStr "pmktyVZshdMAQ6DPbbRXEFNGuzMbTMkqAA")]
     []
     [ListingItem.mk 7 "f08f3d6e" (VStr "pseller") 2 None
        (VObj []) (VObj []) (VArr []) (VArr [])]
     [] [] [] 8 1541116800000 [(1 # 4)%Q; (3 # 4)%Q].

Definition bid_for_listing : GenerateBidParams.t :=
  GenerateBidParams.mk false false (Some "f08f3d6e") None (Some "pbidder") None.

Definition orders_with_bid : GenerateOrderParams.t :=
  GenerateOrderParams.mk false true true true None None.

Definition past_proposal : GenerateProposalParams.t :=
  GenerateProposalParams.mk false false None None 0 true.

Definition template_with_listing : GenerateListingItemTemplateParams.t :=
  GenerateListingItemTemplateParams.mk true true true true no_content None true
    None.

(** The seeded database at an odd epoch time, half of which is a
    fraction. *)
Definition at_odd_time : Db :=
  mk (profiles seeded) (markets seeded) [] [] [] [] [] 3 1541116800001
     [(1 # 4)%Q; (3 # 4)%Q].

(** A template request of the default profile. *)
Definition chair : ListingItemTemplateCreateRequest.t :=
  ListingItemTemplateCreateRequest.mk
    (VObj [("title", VStr "Chair")]) (VObj [("type", VStr "SALE")])
    (VArr []) (VArr []) 1.

Definition unsupported_create : TestDataCreateRequest.t :=
  TestDataCreateRequest.mk ORDER (VObj []) None.

Definition unsupported_generate : TestDataGenerateRequest.t :=
  TestDataGenerateRequest.mk ITEMIMAGE 1 true (VArr []).

End InMemory.

Module BidActionService.

(** The messages of [src/api/messages], read off the integration test. *)
Record BidMessage : Type := mkBidMessage {
  action : BidMessageType;
  item : string;
  objects : value
}.

Record MarketplaceMessage : Type := mkMarketplaceMessage {
  version : string;
  mpaction : BidMessage;
  market : value
}.

Record SmsgMessage : Type := mkSmsgMessage {
  msgid : Z;
  from : string;
  to : string;
  text : string
}.

Record MarketplaceEvent : Type := mkMarketplaceEvent {
  smsgMessage : SmsgMessage;
  marketplaceMessage : MarketplaceMessage
}.

Section Service.

Variable W : Type.
Variable handler : forall T, Op T -> M W T.

(** Modelled from the spec: the validation of an inbound event and the
    message factory [BidFactory], neither among the sources. The spec has
    the messages "validated" and does not say what is checked: the check
    is the parameter [valid]. It has the message factories "translate
    between wire-format message bodies and create-request DTOs for the
    domain services": [BidFactory_getModel] is the translation of a bid
    message, for a listing item and a bidder. *)
Variable valid : MarketplaceEvent -> ListingItem.t -> bool.
Variable BidFactory_getModel : BidMessage -> Z -> string -> BidCreateRequest.t.

#[local] Abbreviation St := (TestDataService.St W).
#[local] Abbreviation invoke := (TestDataService.invoke W handler).

(** Modelled from the spec: [BidActionService.processBidReceivedEvent] is
    not among the sources. The spec has inbound messages "matched against
    existing domain state (listings, bids, proposals) by content hash,
    validated, and turned into persisted state transitions (creating a
    Bid, ...)", and the action services "resolve [the event] against
    existing entities by hash, and drive the domain services to record the
    transition": the listing item is looked up by the hash that the bid
    message names, the event is validated, and the bid that the factory
    makes of the message, for this listing item and the sender as bidder,
    is created through the bid service. *)
Definition processBidReceivedEvent (event : MarketplaceEvent) : M St Bid.t :=
  let bidMessage := mpaction (marketplaceMessage event) in
  listingItem <- invoke (ListingItemService_findOneByHash (item bidMessage)) ;;
  match listingItem with
  | Some listingItem =>
      if valid event listingItem then
        invoke (BidService_create
                  (BidFactory_getModel bidMessage (ListingItem.id listingItem)
                     (from (smsgMessage event))))
      else throw ValidationException
  | None => throw (NotFoundException (item bidMessage))
  end.

(** Modelled from the spec: what the factory translates. The request has
    the action of the message, the listing item and the bidder it is
    made for. *)
Definition translates : Prop :=
  forall bidMessage listingItemId bidder,
    let request := BidFactory_getModel bidMessage listingItemId bidder in
    BidCreateRequest.action request = action bidMessage /\
    BidCreateRequest.listing_item_id request = Some listingItemId /\
    BidCreateRequest.bidder request = VStr bidder.

End Service.

(** Modelled from the spec: [BidService] is not among the sources. The
    domain services "each [own] one ORM-mapped entity, offering
    create/find/update/delete": the bid that the service resolves with has
    the action, the bidder and the listing item of the request. *)
Definition as_asked (e : Event) : Prop :=
  match TestDataService.bid_created e with
  | Some (request, Return bid) =>
      Bid.action bid = BidCreateRequest.action request /\
      Bid.bidder bid = BidCreateRequest.bidder request /\
      Bid.listingItemId bid = BidCreateRequest.listing_item_id request
  | _ => True
  end.

(** The bid message of the integration test, for the listing item of
    [InMemory.with_listing], and a message that is no bid, from nobody. *)
Definition example_event : MarketplaceEvent :=
  mkMarketplaceEvent
    (mkSmsgMessage 1541116800000 "pdefaultprofileaddress"
       "pmktyVZshdMAQ6DPbbRXEFNGuzMbTMkqAA" "")
    (mkMarketplaceMessage "0300"
       (mkBidMessage MPA_BID "f08f3d6e"
          (VArr [VObj [("id", VStr "size"); ("value", VStr "XL")]]))
       (VStr "pmktyVZshdMAQ6DPbbRXEFNGuzMbTMkqAA")).

Definition junk_event : MarketplaceEvent :=
  mkMarketplaceEvent
    (mkSmsgMessage 1541116800000 "" "pmktyVZshdMAQ6DPbbRXEFNGuzMbTMkqAA" "")
    (mkMarketplaceMessage "0300"
       (mkBidMessage MPA_REJECT "f08f3d6e" (VArr []))
       (VStr "pmktyVZshdMAQ6DPbbRXEFNGuzMbTMkqAA")).

(** An example of a validation, which lets a bid with a sender through,
    and of a factory. *)
Definition bid_with_sender (event : MarketplaceEvent) (listingItem : ListingItem.t)
  : bool :=
  match action (mpaction (marketplaceMessage event)) with
  | MPA_BID => negb (from (smsgMessage event) =? "")%string
  | _ => false
  end.

Definition example_getModel (bidMessage : BidMessage) (listingItemId : Z)
    (bidder : string) : BidCreateRequest.t :=
  BidCreateRequest.mk (action bidMessage) (AddressCreateRequest.mk VUndefined None)
    (VStr bidder) (objects bidMessage) (Some listingItemId).

End BidActionService.

(* ================================================================== *)
(** * CoreRpcService: the methods around [call] *)
(* ================================================================== *)

Module CoreRpcMethods.
Import CoreRpcService.

(** A parameter with a default value takes it when the argument is
    [undefined]. *)
Definition or_default (given default : value) : value :=
  match given with
  | VUndefined => default
  | _ => given
  end.

(** lodash's [_.isEmpty]: no elements, no own keys, or not a collection. *)
Definition isEmpty (v : value) : bool :=
  match v with
  | VStr s => (s =? "")%string
  | VArr items => match items with [] => true | _ => false end
  | VObj fields => match fields with [] => true | _ => false end
  | _ => true
  end.

(** [params.push(x)] *)
Definition push (params : list value) (x : value) : list value :=
  (params ++ [x])%list.

(** A string of one character, as [split('')] yields them. *)
Definition single (s : string) : Prop := exists c, s = String c "".

(** The exceptions that [call] throws. *)
Definition of_call (e : thrown) : Prop :=
  (exists status message, e = HttpException status message) \/
  (exists args, e = InternalServerException args).

(** [promise.then(onFulfilled)] and [promise.catch(onRejected)] for
    callbacks that await nothing. *)
Definition then_ {W A B} (m : M W A) (onFulfilled : A -> Outcome B) : M W B :=
  fun w =>
    match m w with
    | (Return a, w') => (onFulfilled a, w')
    | (Throw e, w') => (Throw e, w')
    end.

Definition catch_ {W A} (m : M W A) (onRejected : thrown -> Outcome A) : M W A :=
  fun w =>
    match m w with
    | (Return a, w') => (Return a, w')
    | (Throw e, w') => (onRejected e, w')
    end.

Section Methods.

Variable Net : Type.
Variable WebRequest_post : string -> Net -> post_result * Net.

#[local] Abbreviation call := (CoreRpcService.call Net WebRequest_post).

Definition getNetworkInfo : M (State Net) value := call "getnetworkinfo" [] false.

Definition getWalletInfo : M (State Net) value := call "getwalletinfo" [] true.

Definition getBlockchainInfo : M (State Net) value :=
  call "getblockchaininfo" [] false.

Definition isConnected : M (State Net) value :=
  catch_ (then_ getNetworkInfo (fun response => Return (VBool true)))
         (fun error => Return (VBool false)).

(** [response && response.hdseedid] *)
Definition hasWallet : M (State Net) value :=
  catch_ (then_ getWalletInfo
            (fun response =>
               if truthy response then
                 match get response "hdseedid" with
                 | Some hdseedid => Return hdseedid
                 | None => Throw TypeError
                 end
               else Return response))
         (fun error => Return (VBool false)).

Definition getVersion : M (State Net) value :=
  then_ getNetworkInfo
    (fun response =>
       match get response "version" with
       | Some version => Return version
       | None => Throw TypeError
       end).

Definition getAddressBalance (addresses logCall : value) : M (State Net) value :=
  call "getaddressbalance" [VObj [("addresses", addresses)]]
    (truthy (or_default logCall (VBool false))).

Definition listReceivedByAddress
    (minconf includeEmpty includeWatchOnly addressFilter : value)
  : M (State Net) value :=
  let minconf := or_default minconf (VNum 3) in
  let includeEmpty := or_default includeEmpty (VBool false) in
  let includeWatchOnly := or_default includeWatchOnly (VBool false) in
  if truthy addressFilter then
    call "listreceivedbyaddress"
      [minconf; includeEmpty; includeWatchOnly; addressFilter] true
  else
    call "listreceivedbyaddress" [minconf; includeEmpty; includeWatchOnly] true.

Definition getAddressInfo (address : value) : M (State Net) value :=
  call "getaddressinfo" [address] true.

Definition addMultiSigAddress (nrequired keys account : value)
  : M (State Net) value :=
  let params : list value := [] in
  let params := push params nrequired in
  let params := push params keys in
  let params := if truthy account then push params account else params in
  call "addmultisigaddress" params true.

Definition createRawTransaction (inputs outputs : value) : M (State Net) value :=
  call "createrawtransaction" [inputs; outputs] true.

Definition signRawTransactionWithWallet (hexstring outputs : value)
  : M (State Net) value :=
  let params : list value := [] in
  let params := push params hexstring in
  let params := if truthy outputs then push params outputs else params in
  call "signrawtransactionwithwallet" params true.

Definition combineRawTransaction (hexstrings : value) : M (State Net) value :=
  call "combinerawtransaction" [hexstrings] true.

Definition signRawTransactionWithKey (hexstring privkeys prevtxs sighashtype : value)
  : M (State Net) value :=
  let params := [hexstring; privkeys] in
  let params := if truthy prevtxs then push params prevtxs else params in
  let params := if truthy sighashtype then push params sighashtype else params in
  call "signrawtransactionwithkey" params true.

Definition signRawTransaction (hexstring outputs : value) : M (State Net) value :=
  let params : list value := [] in
  let params := push params hexstring in
  let params := if truthy outputs then push params outputs else params in
  call "signrawtransaction" params true.

Definition sendRawTransaction (hexstring allowHighFees : value)
  : M (State Net) value :=
  let allowHighFees := or_default allowHighFees (VBool false) in
  let params : list value := [] in
  let params := push params hexstring in
  let params := push params allowHighFees in
  call "sendrawtransaction" params true.

(** [isWitness !== undefined] *)
Definition is_defined (v : value) : bool :=
  match v with
  | VUndefined => false
  | _ => true
  end.

Definition decodeRawTransaction (hexstring isWitness : value)
  : M (State Net) value :=
  let params : list value := [] in
  let params := push params hexstring in
  let params := if is_defined isWitness then push params isWitness else params in
  call "decoderawtransaction" params true.

Definition getRawTransaction (txid verbose blockhash : value)
  : M (State Net) value :=
  let params : list value := [] in
  let params := push params txid in
  let params := if is_defined verbose then push params verbose else params in
  let params := if is_defined blockhash then push params blockhash else params in
  call "getrawtransaction" params true.

Definition listUnspent (minconf maxconf addresses includeUnsafe queryOptions : value)
  : M (State Net) value :=
  let minconf := or_default minconf (VNum 1) in
  let maxconf := or_default maxconf (VNum 9999999) in
  let addresses := or_default addresses (VArr []) in
  let includeUnsafe := or_default includeUnsafe (VBool true) in
  let queryOptions := or_default queryOptions (VObj []) in
  let params := [minconf; maxconf; addresses; includeUnsafe] in
  let params :=
    if negb (isEmpty queryOptions) then push params queryOptions else params in
  call "listunspent" params true.

Definition lockUnspent (unlock outputs : value) : M (State Net) value :=
  call "lockunspent" [unlock; outputs; VBool true] true.

Definition getAccountAddress (account : value) : M (State Net) value :=
  call "getaccountaddress" [account] true.

Definition getBlockCount : M (State Net) value := call "getblockcount" [] true.

Definition dumpPrivKey (address : value) : M (State Net) value :=
  call "dumpprivkey" [address] true.

(** A method that makes one request, however it ends, and throws what
    [call] throws. *)
Definition one_request (method : M (State Net) value) : Prop :=
  forall st,
    RPC_REQUEST_ID (snd (method st)) = RPC_REQUEST_ID st + 1 /\
    forall e, fst (method st) = Throw e -> of_call e.

End Methods.

(** ** The url of the daemon *)

(** The variables of [process.env] that the service reads, and the two
    tests of the class [Environment], which is not among the sources. *)
Record ProcessEnv : Type := mkProcessEnv {
  RPCHOSTNAME : option string;
  RPC_PORT : option string;
  REGTEST_PORT : option string;
  TESTNET_PORT : option string;
  MAINNET_PORT : option string;
  WALLET : option string;
  Environment_isRegtest : bool;
  Environment_isTestnet : bool
}.

Definition DEFAULT_MAINNET_PORT : Z := 51735.
Definition DEFAULT_TESTNET_PORT : Z := 51935.
Definition DEFAULT_REGTEST_PORT : Z := 19792.
Definition DEFAULT_HOSTNAME : string := "localhost".

(** [variable ? variable : fallback] on a variable of the environment. *)
Definition or_else (variable : option string) (fallback : string) : string :=
  match truthy_string variable with
  | Some text => text
  | None => fallback
  end.

Definition getUrl (env : ProcessEnv) : string :=
  let host := or_else (RPCHOSTNAME env) DEFAULT_HOSTNAME in
  let port :=
    match truthy_string (RPC_PORT env) with
    | Some port => port
    | None =>
        if Environment_isRegtest env
        then or_else (REGTEST_PORT env) (string_of_Z DEFAULT_REGTEST_PORT)
        else if Environment_isTestnet env
        then or_else (TESTNET_PORT env) (string_of_Z DEFAULT_TESTNET_PORT)
        else or_else (MAINNET_PORT env) (string_of_Z DEFAULT_MAINNET_PORT)
    end in
  let wallet :=
    match truthy_string (WALLET env) with
    | Some wallet => "/wallet/" ++ wallet
    | None => ""
    end in
  "http://" ++ host ++ ":" ++ port ++ wallet.

(** ** Example data *)

(** A daemon that hands out an address and registers it, one that fails
    at the registration, and one whose wallet has a seed. *)
Definition hands_out_address : State (list post_result) :=
  mkState 7 [ok "{'result':'pXvYNzP4UAWnzRkGhZTpKDQbjEUhW8UHqC','error':null,'id':7}";
             ok "{'result':'Receiving messages enabled for address.','error':null,'id':8}"].

Definition fails_to_register : State (list post_result) :=
  mkState 7 [ok "{'result':'pXvYNzP4UAWnzRkGhZTpKDQbjEUhW8UHqC','error':null,'id':7}";
             ok "{'result':null,'error':{'code':-1,'message':'Invalid address.'},'id':8}"].

Definition has_seed : State (list post_result) :=
  mkState 1 [ok "{'result':{'walletname':'wallet.dat','hdseedid':'8a2f'},'error':null,'id':1}"].

Definition answers_null : State (list post_result) :=
  mkState 1 [ok "{'result':null,'error':null,'id':1}"].

Definition unreachable : State (list post_result) := mkState 1 [].

(** An environment that names a port and a wallet on the test network,
    and the same one on the main network with other network ports. *)
Definition on_testnet : ProcessEnv :=
  mkProcessEnv None (Some "51936") None (Some "51935") None (Some "market")
    false true.

Definition on_mainnet : ProcessEnv :=
  mkProcessEnv (Some "") (Some "51936") (Some "1") (Some "2") (Some "3")
    (Some "market") false false.

End CoreRpcMethods.

(* ================================================================== *)
(** * TestDataService: the clean-up *)
(* ================================================================== *)

Module Cleaning.

(** The calls that leave [clean] and [cleanDb]: the deletion of the rows of
    a table, [Database.knex.select().from(table).del()], and the seeds of
    the three default services. What they resolve with is not read. *)
Inductive Call : Type :=
| Knex_del (table : string)
| DefaultItemCategoryService_seedDefaultCategories
| DefaultProfileService_seedDefaultProfile
| DefaultMarketService_seedDefaultMarket.

Definition ignoreTables : list string :=
  ["sqlite_sequence"; "version"; "version_lock"; "knex_migrations";
   "knex_migrations_lock"].

Definition tablesToClean : list string :=
  ["message_objects";
   "message_infos";
   "message_escrows";
   "message_datas";
   "action_messages";
   "order_item_objects";
   "order_items";
   "orders";
   "bid_datas";
   "locked_outputs";
   "bids";
   "location_markers";
   "item_locations";
   "shipping_destinations";
   "item_image_datas";
   "item_images";
   "item_informations";
   "shipping_prices";
   "item_prices";
   "escrow_ratios";
   "escrows";
   "payment_informations";
   "messaging_informations";
   "listing_item_object_datas";
   "listing_item_objects";
   "listing_items";
   "listing_item_templates";
   "addresses";
   "favorite_items";
   "cryptocurrency_addresses";
   "profiles";
   "shopping_cart_item";
   "shopping_cart";
   "item_categories";
   "markets";
   "users";
   "price_ticker";
   "flagged_items";
   "currency_prices";
   "proposal_option_results";
   "proposal_results";
   "proposal_options";
   "proposals";
   "votes";
   "smsg_messages"].

Section Service.

Variable W : Type.
Variable handler : Call -> M W unit.

(** The state of a run: the world and the calls made so far, each with
    its outcome. *)
Record St : Type := mkSt { world : W; log : list (Call * Outcome unit) }.

Definition invoke (c : Call) : M St unit :=
  fun s =>
    let '(outcome, w') := handler c (world s) in
    (outcome, mkSt w' (log s ++ [(c, outcome)])).

(** [for (const x of xs) { await body(x) }] *)
Fixpoint for_of {A} (xs : list A) (body : A -> M St unit) : M St unit :=
  match xs with
  | [] => ret tt
  | x :: rest => body x ;;; for_of rest body
  end.

(** [promise.catch(reason => { this.log.debug(...) })] *)
Definition logged (m : M St unit) : M St unit :=
  fun s =>
    match m s with
    | (Return _, s') => (Return tt, s')
    | (Throw reason, s') => (Return tt, s')
    end.

Definition cleanDb : M St unit :=
  for_of tablesToClean (fun table => invoke (Knex_del table)).

Definition clean (seed : bool) : M St unit :=
  logged cleanDb ;;;
  (if seed then
     logged (invoke DefaultItemCategoryService_seedDefaultCategories) ;;;
     logged (invoke DefaultProfileService_seedDefaultProfile) ;;;
     logged (invoke DefaultMarketService_seedDefaultMarket)
   else ret tt) ;;;
  ret tt.

End Service.

Arguments mkSt {W} _ _.
Arguments world {W} _.
Arguments log {W} _.

(** The entry of the log for a deletion that resolved. *)
Definition deleted (table : string) : Call * Outcome unit :=
  (Knex_del table, Return tt).

(** An example database: the names of the tables that hold rows, and of
    those that are locked, whose deletion fails; the seeds that ran. *)
Record Tables : Type := mkTables {
  filled : list string;
  locked : list string;
  seeded : list Call
}.

Definition is_in (table : string) (tables : list string) : bool :=
  existsb (String.eqb table) tables.

Definition sqlite (c : Call) : M Tables unit :=
  fun db =>
    match c with
    | Knex_del table =>
        if is_in table (locked db)
        then (Throw (Rejection (VStr "Error") (VStr "SQLITE_BUSY")), db)
        else (Return tt,
              mkTables (filter (fun t => negb (String.eqb t table)) (filled db))
                (locked db) (seeded db))
    | DefaultProfileService_seedDefaultProfile =>
        (Throw (Rejection (VStr "Error") (VStr "no wallet")), db)
    | _ => (Return tt, mkTables (filled db) (locked db) (seeded db ++ [c]))
    end.

Definition busy : St Tables :=
  mkSt (mkTables ["bids"; "orders"; "profiles"] ["orders"] []) [].

End Cleaning.

(* ================================================================== *)
(** * Reading the call log of the generators *)
(* ================================================================== *)

Module CallLog.
Import TestDataService.

(** The request and the outcome of a call of
    [listingItemTemplateService.create]. *)
Definition template_created (e : Event)
  : option (ListingItemTemplateCreateRequest.t * Outcome ListingItemTemplate.t) :=
  match e with
  | Ev op outcome =>
      match op in Op T
            return Outcome T ->
                   option (ListingItemTemplateCreateRequest.t
                           * Outcome ListingItemTemplate.t) with
      | ListingItemTemplateService_create r => fun o => Some (r, o)
      | _ => fun _ => None
      end outcome
  end.

Definition listing_created (e : Event)
  : option (ListingItemCreateRequest.t * Outcome ListingItem.t) :=
  match e with
  | Ev op outcome =>
      match op in Op T
            return Outcome T ->
                   option (ListingItemCreateRequest.t * Outcome ListingItem.t) with
      | ListingItemService_create r => fun o => Some (r, o)
      | _ => fun _ => None
      end outcome
  end.

Definition vote_created (e : Event) : option (VoteCreateRequest.t * Outcome value) :=
  match e with
  | Ev op outcome =>
      match op in Op T
            return Outcome T -> option (VoteCreateRequest.t * Outcome value) with
      | VoteService_create r => fun o => Some (r, o)
      | _ => fun _ => None
      end outcome
  end.

(** The hash that a call of [listingItemService.findOneByHash] asks for. *)
Definition listing_lookup (e : Event) : option string :=
  match e with
  | Ev op _ =>
      match op with
      | ListingItemService_findOneByHash hash => Some hash
      | _ => None
      end
  end.

Definition collect {A} (read : Event -> option A) (calls : list Event) : list A :=
  flat_map (fun e => match read e with
                     | Some call => [call]
                     | None => []
                     end) calls.

(** How many records a generator resolved with, items or ids. *)
Definition count {T} {withRelated : bool} : Generated T withRelated -> nat :=
  match withRelated as b return Generated T b -> nat with
  | true => fun items => List.length items
  | false => fun ids => List.length ids
  end.

Definition records {withRelated : bool} (result : GenerateResult withRelated)
  : option nat :=
  match result with
  | Templates _ items => Some (count items)
  | ListingItems _ items => Some (count items)
  | Bids _ items => Some (count items)
  | Orders _ items => Some (count items)
  | Proposals _ items => Some (count items)
  | Other _ _ => None
  end.

(** A vote that the vote loop can write to its log: the vote service
    resolved with an object that has a [ProposalOption], so that
    [vote.ProposalOption.optionId] and [vote.ProposalOption.description]
    can be read. *)
Definition with_option (vote : value) : Prop :=
  exists chosen optionId description,
    get vote "ProposalOption" = Some chosen /\
    get chosen "optionId" = Some optionId /\
    get chosen "description" = Some description.

(** The calls of completed rounds of the vote loop for [proposal], with
    the votes they created: a round draws a number, has Faker make the
    voter and the signature, picks the first option when the draw is at
    least one half and the second one otherwise, reads the clock three
    times and creates the vote, which comes with its option. *)
Inductive VoteRounds (proposal : Proposal.t) : list Event -> list value -> Prop :=
| votes_done : VoteRounds proposal [] []
| votes_next random voter proposalOption signature postedAt receivedAt expiredAt
    vote calls votes :
    nth_error (Proposal.ProposalOptions proposal)
      (if Qle_bool (1 # 2) random then 0%nat else 1%nat) = Some proposalOption ->
    with_option vote ->
    VoteRounds proposal calls votes ->
    VoteRounds proposal
      (Ev Math_random (Return random)
       :: Ev Faker_finance_bitcoinAddress (Return voter)
       :: Ev Faker_finance_bitcoinAddress (Return signature)
       :: Ev Date_getTime (Return postedAt)
       :: Ev Date_getTime (Return receivedAt)
       :: Ev Date_getTime (Return expiredAt)
       :: Ev (VoteService_create
                (VoteCreateRequest.mk (ProposalOption.id proposalOption)
                   ("signature" ++ signature) voter 1 postedAt receivedAt
                   (expiredAt + 100000000)))
            (Return vote)
       :: calls)
      (vote :: votes).

(** What a generator resolves with for the items it pushed. *)
Definition respond {T} `{HasId T} (withRelated : bool) (items : list T)
  : Generated T withRelated :=
  match withRelated as b return Generated T b with
  | true => items
  | false => map id_of items
  end.

(** A call that creates neither a template nor a listing item. *)
Definition creates_no_listing (e : Event) : Prop :=
  template_created e = None /\ listing_created e = None.

(** The call that reads the profile of a template, and the one that reads
    the market of its listing item: the default one unless an id is
    given. *)
Definition profile_call (profileId : option Z) : Op Profile.t :=
  match profileId with
  | None => ProfileService_getDefault
  | Some profileId => ProfileService_findOne profileId
  end.

Definition market_call (marketId : option Z) : Op Market.t :=
  match marketId with
  | None => MarketService_getDefault
  | Some marketId => MarketService_findOne marketId
  end.

(** The calls of one round of the template loop, which ends with the
    template it pushes. The data of the request is generated, for the
    profile that was read last, and the template is created. With
    [generateListingItem] the market and the clock are read, a listing
    item is created for the template, with the content of the request of
    the template, the address of its profile as seller and an expiry ten
    days after a reading of the clock, and the template is read back by
    its id. *)
Definition TemplateRound (generateParams : GenerateListingItemTemplateParams.t)
    (calls : list Event) (pushed : ListingItemTemplate.t) : Prop :=
  exists data profile request template,
    Forall creates_no_listing data /\
    ListingItemTemplateCreateRequest.profile_id request = Profile.id profile /\
    let create :=
      (data
         ++ [Ev (profile_call
                   (GenerateListingItemTemplateParams.profileId generateParams))
               (Return profile);
             Ev (ListingItemTemplateService_create request) (Return template)])%list in
    if GenerateListingItemTemplateParams.generateListingItem generateParams then
      exists market postedAt expiredAt receivedAt listingItem,
        calls
        = (create
             ++ [Ev (market_call
                       (GenerateListingItemTemplateParams.marketId generateParams))
                   (Return market);
                 Ev Date_getTime (Return postedAt);
                 Ev Date_getTime (Return expiredAt);
                 Ev Date_getTime (Return receivedAt);
                 Ev (ListingItemService_create
                       (ListingItemCreateRequest.mk
                          (Profile.address (ListingItemTemplate.Profile template))
                          (Market.id market)
                          (Some (ListingItemTemplate.id template))
                          (ListingItemTemplateCreateRequest.itemInformation request)
                          (ListingItemTemplateCreateRequest.paymentInformation
                             request)
                          (ListingItemTemplateCreateRequest.messagingInformation
                             request)
                          (ListingItemTemplateCreateRequest.listingItemObjects
                             request)
                          10 postedAt (expiredAt + 864000000) receivedAt))
                   (Return listingItem);
                 Ev (ListingItemTemplateService_findOne
                       (ListingItemTemplate.id template))
                   (Return pushed)])%list
    else calls = create /\ pushed = template.

(** Modelled from the spec: [ListingItemTemplateService.create] and
    [ListingItemService.create] are not among the sources. The spec has a
    hash utility that "canonicalizes a domain object into a deterministic
    content hash (listing, template, proposal) used as a natural key", and
    the integration test expects the "template hash created on the server"
    to be the one of [ObjectHash.getHash]: a service that creates a
    template or a listing item stores the hash of the create request with
    it. *)
Definition stores_hash (getHash : Hashable -> HashableObjectType.t -> string)
    (e : Event) : Prop :=
  match template_created e with
  | Some (request, Return template) =>
      ListingItemTemplate.hash template
      = getHash (HashListingItemTemplateCreateRequest request)
          HashableObjectType.LISTINGITEMTEMPLATE_CREATEREQUEST
  | _ => True
  end /\
  match listing_created e with
  | Some (request, Return listingItem) =>
      ListingItem.hash listingItem
      = getHash (HashListingItemCreateRequest request)
          HashableObjectType.LISTINGITEM_CREATEREQUEST
  | _ => True
  end.

(** Modelled from the spec: [ObjectHash] is not among the sources. Its
    hash is a content hash that a template and its listing item share as
    natural key: the request for a template and the request for a listing
    item with the same item information, payment information, messaging
    information and listing item objects have the same hash, whatever
    else the requests hold. *)
Definition content_hash (getHash : Hashable -> HashableObjectType.t -> string)
  : Prop :=
  forall template listingItem,
    ListingItemCreateRequest.itemInformation listingItem
    = ListingItemTemplateCreateRequest.itemInformation template ->
    ListingItemCreateRequest.paymentInformation listingItem
    = ListingItemTemplateCreateRequest.paymentInformation template ->
    ListingItemCreateRequest.messagingInformation listingItem
    = ListingItemTemplateCreateRequest.messagingInformation template ->
    ListingItemCreateRequest.listingItemObjects listingItem
    = ListingItemTemplateCreateRequest.listingItemObjects template ->
    getHash (HashListingItemCreateRequest listingItem)
      HashableObjectType.LISTINGITEM_CREATEREQUEST
    = getHash (HashListingItemTemplateCreateRequest template)
        HashableObjectType.LISTINGITEMTEMPLATE_CREATEREQUEST.

(** A listing item, with its request, that is generated with a template:
    it is created for the template, with the content of the request of the
    template. *)
Definition generated_with
    (template : ListingItemTemplateCreateRequest.t * ListingItemTemplate.t)
    (listingItem : ListingItemCreateRequest.t * ListingItem.t) : Prop :=
  ListingItemCreateRequest.listing_item_template_id (fst listingItem)
  = Some (ListingItemTemplate.id (snd template)) /\
  ListingItemCreateRequest.itemInformation (fst listingItem)
  = ListingItemTemplateCreateRequest.itemInformation (fst template) /\
  ListingItemCreateRequest.paymentInformation (fst listingItem)
  = ListingItemTemplateCreateRequest.paymentInformation (fst template) /\
  ListingItemCreateRequest.messagingInformation (fst listingItem)
  = ListingItemTemplateCreateRequest.messagingInformation (fst template) /\
  ListingItemCreateRequest.listingItemObjects (fst listingItem)
  = ListingItemTemplateCreateRequest.listingItemObjects (fst template).

(** The calls of one round of the listing item loop, which ends with the
    listing item it pushes: the data of the request is generated, the
    default market is read and the listing item is created. *)
Definition ListingItemRound (calls : list Event) (pushed : ListingItem.t) : Prop :=
  exists data market request,
    Forall creates_no_listing data /\
    calls
    = (data ++ [Ev MarketService_getDefault (Return market);
                Ev (ListingItemService_create request) (Return pushed)])%list.

(** A call of the bid loop when the bids are for the listing item with
    the hash [hash]: it creates no listing item and looks up no listing
    item but that one. *)
Definition bids_for (hash : string) (e : Event) : Prop :=
  listing_created e = None /\
  forall asked, listing_lookup e = Some asked -> asked = hash.

(** The proposal request as it is when [ObjectHash.getHash] is applied
    to it: the hash and the options are set afterwards. *)
Definition before_hashing (r : ProposalCreateRequest.t) : ProposalCreateRequest.t :=
  ProposalCreateRequest.mk
    (ProposalCreateRequest.submitter r) (ProposalCreateRequest.type r)
    (ProposalCreateRequest.item r) (ProposalCreateRequest.title r)
    (ProposalCreateRequest.description r) (ProposalCreateRequest.timeStart r)
    (ProposalCreateRequest.postedAt r) (ProposalCreateRequest.receivedAt r)
    (ProposalCreateRequest.expiredAt r) None [].

(** The bounds that [generateProposalData] gives lodash for the start and
    for the end of a proposal, by the clock reading [now]. *)
Definition start_bounds (past : bool) (now : Q) : Q * Q :=
  if past then (1, now / 2)%Q else (now + 100, now + 1000)%Q.

Definition end_bounds (past : bool) (now : Q) : Q * Q :=
  if past then (now / 2 + 100, now - 1000)%Q else (now + 1001, now + 2000)%Q.

(** The calls of one round of the proposal loop, which ends with the
    proposal it pushes: the proposal is created from the request of
    [generateProposalData], [voteCount] votes are generated for it, its
    result is created empty and then recalculated, and the proposal is
    read back by its id. *)
Definition ProposalRound (voteCount : Z) (calls : list Event) (pushed : Proposal.t)
  : Prop :=
  exists before request proposal voting votes emptyResult result,
    calls
    = (before
         ++ [Ev (ProposalService_create request) (Return proposal)]
         ++ voting
         ++ [Ev (ProposalService_createEmptyProposalResult proposal)
               (Return emptyResult);
             Ev (ProposalService_recalculateProposalResult proposal true)
               (Return result);
             Ev (ProposalService_findOne (Proposal.id proposal))
               (Return pushed)])%list /\
    ProposalCreateRequest.options request
    = [ProposalOptionCreateRequest.mk
         match ProposalCreateRequest.hash request with
         | Some hash => hash
         | None => ""
         end 0 KEEP;
       ProposalOptionCreateRequest.mk
         match ProposalCreateRequest.hash request with
         | Some hash => hash
         | None => ""
         end 1 REMOVE] /\
    VoteRounds proposal voting votes /\
    List.length votes = Z.to_nat voteCount.

(** The votes that a log shows created come with their option, but for a
    vote without one at the very end of a log, where the run [stopped]:
    the vote loop reads the option of a vote right after its creation. *)
Fixpoint votes_read (stopped : Prop) (calls : list Event) : Prop :=
  match calls with
  | [] => True
  | e :: rest =>
      match vote_created e with
      | Some (_, Return vote) => with_option vote \/ (rest = [] /\ stopped)
      | _ => True
      end /\
      votes_read stopped rest
  end.

Definition is_TypeError {A} (o : Outcome A) : Prop :=
  match o with
  | Throw TypeError => True
  | _ => False
  end.

(** [m] leaves no vote without its option in the log, but for one at the
    end of a run that throws a TypeError. *)
Definition reads_votes {W A} (m : M (TestDataService.St W) A) : Prop :=
  forall s o s',
    m s = (o, s') ->
    exists calls,
      log s' = (log s ++ calls)%list /\ votes_read (is_TypeError o) calls.

(** A vote request is one that the vote loop makes for [proposal]: of
    weight 1 and for the first or the second option. *)
Definition vote_for (proposal : Proposal.t) (e : Event) : Prop :=
  match vote_created e with
  | Some (request, _) =>
      VoteCreateRequest.weight request = 1 /\
      exists proposalOption,
        In proposalOption (firstn 2 (Proposal.ProposalOptions proposal)) /\
        VoteCreateRequest.proposal_option_id request
        = ProposalOption.id proposalOption
  | None => True
  end.

End CallLog.

(* ================================================================== *)
(** * TestDataService: the data of a profile *)
(* ================================================================== *)

(** The switches of [requests/params/GenerateProfileParams], which is not
    among the sources, as [generateProfileData] reads them. *)
Module GenerateProfileParams.
Record t : Type := mk {
  generateShippingAddresses : bool;
  generateCryptocurrencyAddresses : bool;
  generateSettings : bool
}.
End GenerateProfileParams.

Module CryptocurrencyAddressCreateRequest.
Record t : Type := mk { type : string; address : value }.
End CryptocurrencyAddressCreateRequest.

Module SettingCreateRequest.
Record t : Type := mk { key : string; value : string }.
End SettingCreateRequest.

Module ProfileCreateRequest.
Record t : Type := mk {
  name : string;
  address : value;
  shippingAddresses : list AddressCreateRequest.t;
  cryptocurrencyAddresses : list CryptocurrencyAddressCreateRequest.t;
  settings : list SettingCreateRequest.t
}.
End ProfileCreateRequest.

Module Profiles.
Import TestDataService.

(** The rounds of [for (let i = amount; i > 0; i--)] for an amount that
    lodash drew: the amount itself when it is an integer. *)
Definition rounds_of (amount : Q) : Z := Qceiling amount.

(** How a call of [coreRpcService.getNewAddress] ended. *)
Definition new_address (e : Event) : option (Outcome value) :=
  match e with
  | Ev op outcome =>
      match op in Op T return Outcome T -> option (Outcome value) with
      | CoreRpcService_getNewAddress => fun o => Some o
      | _ => fun _ => None
      end outcome
  end.

Section Service.

Variable W : Type.
Variable handler : forall T, Op T -> M W T.

(** The calls of Faker that the collaborators of the other generators do
    not include, and the names of the members of the enumeration
    [CryptocurrencyAddressType], which is not among the sources. *)
Variable Faker_name_firstName : M W string.
Variable Faker_random_arrayElement : list string -> M W string.
Variable Faker_random_word : M W string.
Variable CryptocurrencyAddressType_names : list string.

#[local] Abbreviation invoke := (TestDataService.invoke W handler).

(** A call that is not entered in the log. *)
Definition unlogged {A} (m : M W A) : M (St W) A :=
  fun s =>
    let '(outcome, w') := m (world s) in
    (outcome, mkSt w' (log s)).

Fixpoint generateCryptocurrencyAddressesData_loop (rounds : nat)
    (cryptoAddresses : list CryptocurrencyAddressCreateRequest.t)
  : M (St W) (list CryptocurrencyAddressCreateRequest.t) :=
  match rounds with
  | O => ret cryptoAddresses
  | S rounds' =>
      type <- unlogged (Faker_random_arrayElement CryptocurrencyAddressType_names) ;;
      address <- invoke CoreRpcService_getNewAddress ;;
      generateCryptocurrencyAddressesData_loop rounds'
        (cryptoAddresses ++ [CryptocurrencyAddressCreateRequest.mk type address])
  end.

Definition generateCryptocurrencyAddressesData (amount : Z)
  : M (St W) (list CryptocurrencyAddressCreateRequest.t) :=
  generateCryptocurrencyAddressesData_loop (Z.to_nat amount) [].

Fixpoint generateSettings_loop (rounds : nat) (settings : list SettingCreateRequest.t)
  : M (St W) (list SettingCreateRequest.t) :=
  match rounds with
  | O => ret settings
  | S rounds' =>
      key <- unlogged Faker_random_word ;;
      value <- unlogged Faker_random_word ;;
      generateSettings_loop rounds' (settings ++ [SettingCreateRequest.mk key value])
  end.

Definition generateSettings (amount : Z) : M (St W) (list SettingCreateRequest.t) :=
  generateSettings_loop (Z.to_nat amount) [].

Definition generateProfileData (generateParams : GenerateProfileParams.t)
  : M (St W) ProfileCreateRequest.t :=
  firstName <- unlogged Faker_name_firstName ;;
  let name := "TEST-" ++ firstName in
  address <- invoke CoreRpcService_getNewAddress ;;
  amount <- invoke (Lodash_random 1 5) ;;
  profile <- generateAddressesData W handler (rounds_of amount) ;;
  let shippingAddresses :=
    if GenerateProfileParams.generateShippingAddresses generateParams
    then profile else [] in
  cryptocurrencyAddresses <-
    (if GenerateProfileParams.generateCryptocurrencyAddresses generateParams
     then amount <- invoke (Lodash_random 1 5) ;;
          generateCryptocurrencyAddressesData (rounds_of amount)
     else ret []) ;;
  settings <-
    (if GenerateProfileParams.generateSettings generateParams
     then amount <- invoke (Lodash_random 1 5) ;;
          generateSettings (rounds_of amount)
     else ret []) ;;
  ret (ProfileCreateRequest.mk name address shippingAddresses
         cryptocurrencyAddresses settings).

End Service.

(** Example collaborators: Faker always makes the same name, type and
    word. *)
Definition always {W} (text : string) : M W string := ret text.

Definition everything : GenerateProfileParams.t :=
  GenerateProfileParams.mk true true true.

End Profiles.

(* ================================================================== *)
(** * TestDataService: the content of a listing item *)
(* ================================================================== *)

(** The bodies of [generateItemInformationData] and
    [generatePaymentInformationData], with the builders they call. The
    generators of listing items and templates above run them as the calls
    [GenerateItemInformationData] and [GeneratePaymentInformationData];
    here they are opened. *)

(** ** Create requests of the content *)

Module ShippingDestinationCreateRequest.
Record t : Type := mk { country : string; shippingAvailability : string }.
End ShippingDestinationCreateRequest.

Module ItemImageDataCreateRequest.
Record t : Type := mk {
  itemHash : string;
  dataId : string;
  protocol : string;
  imageVersion : string;
  encoding : string;
  data : string
}.
End ItemImageDataCreateRequest.

Module ItemImageCreateRequest.
Record t : Type := mk { hash : string; datas : list ItemImageDataCreateRequest.t }.
End ItemImageCreateRequest.

Module LocationMarkerCreateRequest.
Record t : Type := mk {
  markerTitle : string;
  markerText : string;
  lat : string;
  lng : string
}.
End LocationMarkerCreateRequest.

Module ItemLocationCreateRequest.
Record t : Type := mk {
  region : string;
  address : string;
  locationMarker : LocationMarkerCreateRequest.t
}.
End ItemLocationCreateRequest.

Module ItemCategoryUpdateRequest.
(** Either member may be missing; a [key] that is [undefined] is missing
    as well. *)
Record t : Type := mk { id : option Z; key : option string }.
End ItemCategoryUpdateRequest.

Module ItemInformationCreateRequest.
Record t : Type := mk {
  title : string;
  shortDescription : string;
  longDescription : string;
  itemCategory : ItemCategoryUpdateRequest.t;
  itemLocation : option ItemLocationCreateRequest.t;
  shippingDestinations : list ShippingDestinationCreateRequest.t;
  itemImages : list ItemImageCreateRequest.t
}.
End ItemInformationCreateRequest.

Module EscrowRatioCreateRequest.
Record t : Type := mk { buyer : Q; seller : Q }.
End EscrowRatioCreateRequest.

Module EscrowCreateRequest.
Record t : Type := mk { type : string; ratio : EscrowRatioCreateRequest.t }.
End EscrowCreateRequest.

Module ShippingPriceCreateRequest.
Record t : Type := mk { domestic : Q; international : Q }.
End ShippingPriceCreateRequest.

Module ItemPriceCreateRequest.
Record t : Type := mk {
  currency : string;
  basePrice : Q;
  shippingPrice : ShippingPriceCreateRequest.t;
  cryptocurrencyAddress : CryptocurrencyAddressCreateRequest.t
}.
End ItemPriceCreateRequest.

Module PaymentInformationCreateRequest.
Record t : Type := mk {
  type : string;
  escrow : option EscrowCreateRequest.t;
  itemPrice : option ItemPriceCreateRequest.t
}.
End PaymentInformationCreateRequest.

Module Content.
Import TestDataService Profiles.

(** What a call of [Math.random] drew. *)
Definition math_random (e : Event) : option Q :=
  match e with
  | Ev op outcome =>
      match op in Op T return Outcome T -> option Q with
      | Math_random => fun o => match o with
                                | Return u => Some u
                                | Throw _ => None
                                end
      | _ => fun _ => None
      end outcome
  end.

(** The contract of [Math.random]: a number from 0 up to, but not
    including, 1. *)
Definition unit_draw (e : Event) : Prop :=
  match math_random e with
  | Some u => (0 <= u /\ u < 1)%Q
  | None => True
  end.

(** Truthiness of an optional number: [undefined], [null] and 0 are
    falsy. *)
Definition truthy_number (n : option Z) : option Z :=
  match n with
  | Some x => if x =? 0 then None else Some x
  | None => None
  end.

Definition categoryKeys : list string :=
  ["cat_high_business_corporate"; "cat_high_vehicles_aircraft_yachts";
   "cat_high_real_estate"; "cat_high_luxyry_items"; "cat_high_services";
   "cat_housing_vacation_rentals"; "cat_housing_travel_services";
   "cat_housing_apartments_rental_housing"; "cat_apparel_adult";
   "cat_apparel_children"; "cat_apparel_bags_luggage"; "cat_apparel_other";
   "cat_app_android"; "cat_app_ios"; "cat_app_windows"; "cat_app_mac";
   "cat_app_web_development"; "cat_app_other"; "cat_auto_cars_truck_parts";
   "cat_auto_motorcycle"; "cat_auto_rv_boating"; "cat_auto_other";
   "cat_media_books_art_print"; "cat_media_music_physical";
   "cat_media_music_digital"; "cat_media_movies_entertainment";
   "cat_media_other"; "cat_mobile_accessories"; "cat_mobile_cell_phones";
   "cat_mobile_tablets"; "cat_mobile_other"; "cat_electronics_home_audio";
   "cat_electronics_music_instruments"; "cat_electronics_automation_security";
   "cat_electronics_video_camera"; "cat_electronics_television_monitors";
   "cat_electronics_computers_parts"; "cat_electronics_gaming_esports";
   "cat_electronics_other"; "cat_health_diet_nutrition";
   "cat_health_personal_care"; "cat_health_household_supplies";
   "cat_health_beauty_products_jewelry"; "cat_health_baby_infant_care";
   "cat_health_other"; "cat_home_furniture";
   "cat_home_appliances_kitchenware"; "cat_home_textiles_rugs_bedding";
   "cat_home_hardware_tools"; "cat_home_pet_supplies"; "cat_home_home_office";
   "cat_home_sporting_outdoors"; "cat_home_specialty_items"; "cat_home_other";
   "cat_services_commercial"; "cat_services_freelance";
   "cat_services_labor_talent"; "cat_services_transport_logistics";
   "cat_services_escrow"; "cat_services_endoflife_estate_inheritance";
   "cat_services_legal_admin"; "cat_services_other";
   "cat_wholesale_consumer_goods"; "cat_wholesale_commercial_industrial";
   "cat_wholesale_scientific_equipment_supplies";
   "cat_wholesale_scientific_lab_services"; "cat_wholesale_other"].

Section Service.

Variable W : Type.
Variable handler : forall T, Op T -> M W T.

(** Faker: [Faker path] is the call of the generator [Faker.<path>()];
    the members of the enumerations and the constants are those of files
    that are not among the sources. *)
Variable Faker : string -> M W string.
Variable Faker_random_arrayElement : list string -> M W string.
Variable ShippingCountries_countryCodes : list string.
Variable CryptocurrencyAddressType_names : list string.
Variable ShippingAvailability_SHIPS : string.
Variable ImageDataProtocolType_LOCAL : string.
Variable ImageProcessing_milkcatSmall : string.
Variable EscrowType_MAD : string.
Variable Currency_PARTICL : string.
Variable PaymentType_SALE : string.

#[local] Abbreviation invoke := (TestDataService.invoke W handler).
#[local] Abbreviation unlogged := (Profiles.unlogged W).

(** [categoryKeys[Math.floor(Math.random() * categoryKeys.length)]];
    [None] is the [undefined] of an index outside the array. *)
Definition randomCategoryKey : M (St W) (option string) :=
  random <- invoke Math_random ;;
  let rand :=
    Qfloor (random * inject_Z (Z.of_nat (List.length categoryKeys)))%Q in
  ret (if rand <? 0 then None else nth_error categoryKeys (Z.to_nat rand)).

Fixpoint generateShippingDestinationsData_loop (rounds : nat)
    (items : list ShippingDestinationCreateRequest.t)
  : M (St W) (list ShippingDestinationCreateRequest.t) :=
  match rounds with
  | O => ret items
  | S rounds' =>
      country <- unlogged (Faker_random_arrayElement ShippingCountries_countryCodes) ;;
      generateShippingDestinationsData_loop rounds'
        (items ++ [ShippingDestinationCreateRequest.mk country
                     ShippingAvailability_SHIPS])
  end.

Definition generateShippingDestinationsData (amount : Z)
  : M (St W) (list ShippingDestinationCreateRequest.t) :=
  generateShippingDestinationsData_loop (Z.to_nat amount) [].

Definition generateItemLocationData : M (St W) ItemLocationCreateRequest.t :=
  region <- unlogged (Faker_random_arrayElement ShippingCountries_countryCodes) ;;
  address <- unlogged (Faker "address.streetAddress") ;;
  markerTitle <- unlogged (Faker "lorem.word") ;;
  markerText <- unlogged (Faker "lorem.sentence") ;;
  lat <- unlogged (Faker "address.latitude") ;;
  lng <- unlogged (Faker "address.longitude") ;;
  ret (ItemLocationCreateRequest.mk region address
         (LocationMarkerCreateRequest.mk markerTitle markerText lat lng)).

Fixpoint generateItemImagesData_loop (rounds : nat)
    (items : list ItemImageCreateRequest.t)
  : M (St W) (list ItemImageCreateRequest.t) :=
  match rounds with
  | O => ret items
  | S rounds' =>
      fakeHash <- unlogged (Faker "random.uuid") ;;
      dataId <- unlogged (Faker "internet.url") ;;
      let item :=
        ItemImageCreateRequest.mk fakeHash
          [ItemImageDataCreateRequest.mk fakeHash dataId
             ImageDataProtocolType_LOCAL "ORIGINAL" "BASE64"
             ImageProcessing_milkcatSmall] in
      generateItemImagesData_loop rounds' (items ++ [item])
  end.

Definition generateItemImagesData (amount : Z)
  : M (St W) (list ItemImageCreateRequest.t) :=
  generateItemImagesData_loop (Z.to_nat amount) [].

Definition generateItemInformationData (generateParams : ContentParams)
  : M (St W) ItemInformationCreateRequest.t :=
  shippingDestinations <-
    (if generateShippingDestinations generateParams
     then amount <- invoke (Lodash_random 1 5) ;;
          generateShippingDestinationsData (rounds_of amount)
     else ret []) ;;
  itemImages <-
    (if generateItemImages generateParams
     then amount <- invoke (Lodash_random 1 2) ;;
          generateItemImagesData (rounds_of amount)
     else ret []) ;;
  itemLocation <-
    (if generateItemLocation generateParams
     then location <- generateItemLocationData ;; ret (Some location)
     else ret None) ;;
  itemCategory <-
    match truthy_number (categoryId generateParams) with
    | Some categoryId => ret (ItemCategoryUpdateRequest.mk (Some categoryId) None)
    | None =>
        key <- randomCategoryKey ;;
        ret (ItemCategoryUpdateRequest.mk None key)
    end ;;
  title <- unlogged (Faker "commerce.productName") ;;
  productAdjective <- unlogged (Faker "commerce.productAdjective") ;;
  product <- unlogged (Faker "commerce.product") ;;
  longDescription <- unlogged (Faker "lorem.paragraph") ;;
  ret (ItemInformationCreateRequest.mk title
         (productAdjective ++ " " ++ product) longDescription
         itemCategory itemLocation shippingDestinations itemImages).

Definition generatePaymentInformationData (generateParams : ContentParams)
  : M (St W) PaymentInformationCreateRequest.t :=
  escrow <-
    (if generateEscrow generateParams
     then buyer <- invoke (Lodash_random 1 100) ;;
          seller <- invoke (Lodash_random 1 100) ;;
          ret (Some (EscrowCreateRequest.mk EscrowType_MAD
                       (EscrowRatioCreateRequest.mk buyer seller)))
     else ret None) ;;
  itemPrice <-
    (if generateItemPrice generateParams
     then basePrice <- invoke (Lodash_random (1 # 10) 1) ;;
          domestic <- invoke (Lodash_random (1 # 100) (1 # 10)) ;;
          international <- invoke (Lodash_random (1 # 10) (2 # 10)) ;;
          type <- unlogged (Faker_random_arrayElement
                              CryptocurrencyAddressType_names) ;;
          address <- invoke CoreRpcService_getNewAddress ;;
          ret (Some (ItemPriceCreateRequest.mk Currency_PARTICL basePrice
                       (ShippingPriceCreateRequest.mk domestic international)
                       (CryptocurrencyAddressCreateRequest.mk type address)))
     else ret None) ;;
  ret (PaymentInformationCreateRequest.mk PaymentType_SALE escrow itemPrice).

End Service.

(** An image with its one data, which carries the hash of the image. *)
Definition image_with_data (image : ItemImageCreateRequest.t) : Prop :=
  exists data,
    ItemImageCreateRequest.datas image = [data] /\
    ItemImageDataCreateRequest.itemHash data = ItemImageCreateRequest.hash image.

(** Example collaborators and switches. *)
Definition faker {W} (path : string) : M W string := ret path.

Definition all_content : ContentParams :=
  mkContentParams true true true None true true true.

End Content.

(* ================================================================== *)
(** * Example requests for the services in memory *)
(* ================================================================== *)

Module Examples.
Import InMemory.

(** Two bids for a listing item that is generated with them, by id. *)
Definition two_bids : TestDataGenerateRequest.t :=
  TestDataGenerateRequest.mk BID 2 false (VArr [VBool false; VBool true]).

Definition bids_with_listing : GenerateBidParams.t :=
  GenerateBidParams.mk false true (Some "f08f3d6e") None None None.

(** Proposals that ask for a template, and proposals with two votes. *)
Definition proposal_with_template : GenerateProposalParams.t :=
  GenerateProposalParams.mk true false None None 0 false.

Definition voted_proposal : GenerateProposalParams.t :=
  GenerateProposalParams.mk false false (Some "f08f3d6e") (Some "psubmitter") 2
    false.

(** A proposal with its two options. *)
Definition keep_or_remove : Proposal.t :=
  Proposal.mk 5 "a5c1f9" [ProposalOption.mk 6 0 "KEEP";
                          ProposalOption.mk 7 1 "REMOVE"].

(** The seeded database with this proposal in it, and one with a proposal
    that has lost its second option, where the first draw is for the first
    option and the second draw for the second one. *)
Definition with_proposal : TestDataService.St Db :=
  TestDataService.mkSt
    (mk (profiles seeded) (markets seeded) [] [] [] [] [keep_or_remove] 8
        1541116800000 [(1 # 4)%Q; (3 # 4)%Q]) [].

Definition keep_only : Proposal.t :=
  Proposal.mk 5 "a5c1f9" [ProposalOption.mk 6 0 "KEEP"].

Definition with_keep_only : TestDataService.St Db :=
  TestDataService.mkSt
    (mk (profiles seeded) (markets seeded) [] [] [] [] [keep_only] 7
        1541116800000 [(3 # 4)%Q; (1 # 4)%Q]) [].

(** The services in memory with a vote service that resolves with the
    bare row of the vote, without the relation to its option. *)
Definition bare_votes (T : Type) (op : Op T) : M Db T :=
  match op in Op T return M Db T with
  | VoteService_create _ => fresh_value "id"
  | op => services _ op
  end.

(** A listing item for the template with the hash given. *)
Definition listing_of_template : GenerateListingItemParams.t :=
  GenerateListingItemParams.mk true true true true no_content (Some "a5c1f9")
    (Some "pseller").

(** A bid made by hand, and orders for a bid that is not there. *)
Definition bid_by_hand : TestDataCreateRequest.t :=
  TestDataCreateRequest.mk BID (VObj [("action", VStr "MPA_BID")]) (Some true).

Definition orders_without_bid : GenerateOrderParams.t :=
  GenerateOrderParams.mk false false false true None (Some 41).

End Examples.

(* ================================================================== *)
(** * Properties of CoreRpcService *)
(* ================================================================== *)

Module CoreRpcFacts.
Import CoreRpcService.

(** ** The order of [sort()] *)

Lemma string_compare_trans_not_gt (a b c : string) :
  String.compare a b <> Gt -> String.compare b c <> Gt ->
  String.compare a c <> Gt.
Proof.
  revert b c; induction a as [|x a IH]; intros [|y b] [|z c]; simpl;
    try congruence.
  unfold Ascii.compare.
  destruct (N.compare_spec (N_of_ascii x) (N_of_ascii y)) as [Exy|Lxy|Gxy];
    destruct (N.compare_spec (N_of_ascii y) (N_of_ascii z)) as [Eyz|Lyz|Gyz];
    destruct (N.compare_spec (N_of_ascii x) (N_of_ascii z)) as [Exz|Lxz|Gxz];
    try congruence; try lia.
  apply IH.
Qed.

Lemma string_leb_trans : Relations_1.Transitive (fun a b => is_true (String.leb a b)).
Proof.
  intros a b c Hab Hbc. unfold is_true, String.leb in *.
  pose proof (string_compare_trans_not_gt a b c) as H.
  destruct (String.compare a b); destruct (String.compare b c);
    destruct (String.compare a c); try reflexivity; try discriminate;
    exfalso; apply H; congruence.
Qed.

Lemma strongly_sorted_sort (xs : list string) :
  StronglySorted (fun a b => is_true (String.leb a b)) (sort xs).
Proof.
  apply Sorted_StronglySorted.
  - exact string_leb_trans.
  - apply StringSort.Sorted_sort.
Qed.

(** Two sorted arrangements of the same characters are the same array. *)
Lemma strongly_sorted_permutation_eq (l1 l2 : list string) :
  StronglySorted (fun a b => is_true (String.leb a b)) l1 ->
  StronglySorted (fun a b => is_true (String.leb a b)) l2 ->
  Permutation l1 l2 -> l1 = l2.
Proof.
  revert l2; induction l1 as [|a l1 IH]; intros l2 S1 S2 P.
  - apply Permutation_nil in P. now subst.
  - destruct l2 as [|b l2].
    + apply Permutation_sym, Permutation_nil in P. discriminate.
    + apply StronglySorted_inv in S1 as [S1 F1].
      apply StronglySorted_inv in S2 as [S2 F2].
      assert (a = b) as ->.
      { assert (In a (b :: l2)) as Ia
          by (eapply Permutation_in; [exact P | now left]).
        assert (In b (a :: l1)) as Ib
          by (eapply Permutation_in; [apply Permutation_sym; exact P | now left]).
        destruct Ia as [->|Ia]; [reflexivity|].
        destruct Ib as [->|Ib]; [reflexivity|].
        rewrite Forall_forall in F1, F2.
        apply String.leb_antisym; [apply F1, Ib | apply F2, Ia]. }
      f_equal. apply IH; auto. eapply Permutation_cons_inv; exact P.
Qed.

Lemma sort_permutation (l1 l2 : list string) :
  Permutation l1 l2 -> sort l1 = sort l2.
Proof.
  intros P. apply strongly_sorted_permutation_eq; try apply strongly_sorted_sort.
  unfold sort.
  eapply Permutation_trans; [apply Permutation_sym, StringSort.Permuted_sort|].
  eapply Permutation_trans; [exact P | apply StringSort.Permuted_sort].
Qed.

Section Daemon.

Variable Net : Type.
Variable post : string -> Net -> post_result * Net.

#[local] Abbreviation call := (call Net post).
#[local] Abbreviation signMessage := (signMessage Net post).
#[local] Abbreviation verifyMessage := (verifyMessage Net post).
#[local] Abbreviation keeps_word := (keeps_word Net post).

(** Both methods reduce to [call] on the same canonical string. *)
Lemma signMessage_unfold address message :
  signMessage address message =
  match stringify message with
  | None => throw TypeError
  | Some text => call "signmessage" [VStr address; VStr (signable text)] true
  end.
Proof. reflexivity. Qed.

Lemma verifyMessage_unfold address signature message :
  verifyMessage address signature message =
  match stringify message with
  | None => throw TypeError
  | Some text =>
      call "verifymessage" [VStr address; VStr signature; VStr (signable text)] true
  end.
Proof. reflexivity. Qed.

Lemma permutation_of_sort_eq (l1 l2 : list string) :
  sort l1 = sort l2 -> Permutation l1 l2.
Proof.
  intros E. eapply Permutation_trans; [apply StringSort.Permuted_sort|].
  fold (sort l1). rewrite E. apply Permutation_sym, StringSort.Permuted_sort.
Qed.

Lemma verify_after_sign address signature m1 m2 text st st' st1 st2 :
  stringify m1 = Some text ->
  (exists text2, stringify m2 = Some text2 /\ signable text2 = signable text) ->
  signMessage address m1 st = (Return (VStr signature), st') ->
  keeps_word address signature st st' st1 st2 ->
  verifyMessage address signature m2 st1 = (Return (VBool true), st2).
Proof.
  intros E1 (text2 & E2 & Es) Hsign Hword.
  rewrite signMessage_unfold, E1 in Hsign.
  rewrite verifyMessage_unfold, E2, Es.
  now apply Hword.
Qed.

(** C7. [signMessage] and [verifyMessage] canonicalize the message in the
    same way (serialize, split into characters, sort, join with commas):
    for every message the string submitted with [verifymessage] is the one
    submitted with [signmessage], so that [verifyMessage] accepts the
    signature that [signMessage] obtained for the same message and address
    from a daemon that verifies what it signed. *)
Theorem signMessage_verifyMessage_same_signable address signature message :
  (exists submitted : option string,
      submitted = option_map
                    (fun text => toString (sort (split_chars text)))
                    (stringify message) /\
      signMessage address message =
        match submitted with
        | Some text => call "signmessage" [VStr address; VStr text] true
        | None => throw TypeError
        end /\
      verifyMessage address signature message =
        match submitted with
        | Some text =>
            call "verifymessage" [VStr address; VStr signature; VStr text] true
        | None => throw TypeError
        end) /\
  (forall st st' st1 st2,
      signMessage address message st = (Return (VStr signature), st') ->
      keeps_word address signature st st' st1 st2 ->
      verifyMessage address signature message st1 = (Return (VBool true), st2)).
Proof.
  split.
  - eexists; split; [reflexivity|].
    rewrite signMessage_unfold, verifyMessage_unfold.
    destruct (stringify message); split; reflexivity.
  - intros st st' st1 st2 Hsign Hword.
    destruct (stringify message) as [text|] eqn:E.
    + eapply verify_after_sign; [exact E | | exact Hsign | exact Hword].
      exists text. now split.
    + rewrite signMessage_unfold, E in Hsign. discriminate.
Qed.

(** C9. The canonical form keeps only the multiset of characters of the
    serialized message: two messages whose serializations are character
    permutations of each other are signed through the same request, and a
    signature obtained for the first verifies for the second. *)
Theorem signMessage_identifies_character_permutations
    address m1 m2 text1 text2 :
  stringify m1 = Some text1 ->
  stringify m2 = Some text2 ->
  Permutation (split_chars text1) (split_chars text2) ->
  signMessage address m1 = signMessage address m2 /\
  (forall signature,
      verifyMessage address signature m1 = verifyMessage address signature m2) /\
  (forall signature st st' st1 st2,
      signMessage address m1 st = (Return (VStr signature), st') ->
      keeps_word address signature st st' st1 st2 ->
      verifyMessage address signature m2 st1 = (Return (VBool true), st2)).
Proof.
  intros E1 E2 P.
  assert (signable text2 = signable text1) as Es.
  { unfold signable. f_equal. symmetry. now apply sort_permutation. }
  repeat split.
  - now rewrite !signMessage_unfold, E1, E2, Es.
  - intros signature. now rewrite !verifyMessage_unfold, E1, E2, Es.
  - intros signature st st' st1 st2 Hsign Hword.
    eapply verify_after_sign; [exact E1 | | exact Hsign | exact Hword].
    exists text2. now split.
Qed.

(** [call] counts the request and settles in one of three ways. *)
Lemma call_state method params logCall st :
  RPC_REQUEST_ID (snd (call method params logCall st)) = RPC_REQUEST_ID st + 1.
Proof.
  unfold CoreRpcService.call.
  destruct (post _ _) as [[response|name message] net'].
  - destruct (on_response response); reflexivity.
  - reflexivity.
Qed.

Lemma on_response_returns response result :
  on_response response = Return result <->
  statusCode response = 200 /\
  exists jsonRpcResponse error,
    parse (content response) = Some jsonRpcResponse /\
    get jsonRpcResponse "error" = Some error /\
    truthy error = false /\
    get jsonRpcResponse "result" = Some result.
Proof.
  unfold on_response.
  destruct (Z.eqb_spec (statusCode response) 200) as [E|E]; simpl.
  - destruct (parse (content response)) as [j|] eqn:Ej.
    + destruct (get j "error") as [error|] eqn:Ee.
      * destruct (truthy error) eqn:T.
        -- split.
           ++ destruct (get error "code"), (get error "message"); discriminate.
           ++ intros (_ & j' & e' & Hj & He & Ht & _).
              injection Hj as <-. congruence.
        -- destruct (get j "result") as [r|] eqn:Er.
           ++ split.
              ** intros [= <-]. split; [exact E|]. now exists j, error.
              ** intros (_ & j' & e' & Hj & He & _ & Hr).
                 injection Hj as <-. congruence.
           ++ split; [discriminate|].
              intros (_ & j' & e' & Hj & _ & _ & Hr).
              injection Hj as <-. congruence.
      * split; [discriminate|].
        intros (_ & j' & e' & Hj & He & _). injection Hj as <-. congruence.
    + split; [discriminate|]. intros (_ & j' & e' & Hj & _). discriminate.
  - split.
    + destruct (negb _); [destruct (parse _)|]; discriminate.
    + intros [E' _]. contradiction.
Qed.

Lemma on_response_http response status message :
  on_response response = Throw (HttpException status message) <->
  statusCode response = status /\ status <> 200 /\
  (if (content response =? "")%string
   then message = VStr (statusMessage response)
   else parse (content response) = Some message).
Proof.
  unfold on_response.
  destruct (Z.eqb_spec (statusCode response) 200) as [E|E]; simpl.
  - split.
    + destruct (parse (content response)) as [j|]; [|discriminate].
      destruct (get j "error") as [error|]; [|discriminate].
      destruct (truthy error).
      * destruct (get error "code"), (get error "message"); discriminate.
      * destruct (get j "result"); discriminate.
    + intros (E1 & E2 & _). congruence.
  - destruct (content response =? "")%string; simpl.
    + split.
      * intros [= <- <-]. auto.
      * intros (<- & _ & ->). reflexivity.
    + destruct (parse (content response)) as [m|].
      * split.
        -- intros [= <- <-]. auto.
        -- intros (<- & _ & [= ->]). reflexivity.
      * split; [discriminate|]. intros (_ & _ & H). discriminate.
Qed.

Lemma on_response_throws response e :
  on_response response = Throw e ->
  (exists status message, e = HttpException status message) \/
  (exists args, e = InternalServerException args) \/
  e = SyntaxError \/ e = TypeError.
Proof.
  unfold on_response.
  destruct (negb (statusCode response =? 200)).
  - destruct (if negb _ then _ else _); intros [= <-]; eauto.
  - destruct (parse (content response)) as [j|]; [|intros [= <-]; auto].
    destruct (get j "error") as [error|]; [|intros [= <-]; auto].
    destruct (truthy error).
    + destruct (get error "code"), (get error "message"); intros [= <-]; eauto.
    + destruct (get j "result"); [discriminate | intros [= <-]; auto].
Qed.

Lemma get_of_truthy v k : truthy v = true -> exists x, get v k = Some x.
Proof. destruct v; simpl; intros T; try discriminate; eauto. Qed.

Lemma get_again v k x k' : get v k = Some x -> exists y, get v k' = Some y.
Proof. destruct v; simpl; intros G; try discriminate; eauto. Qed.

Lemma settled_200 response args :
  statusCode response = 200 ->
  match on_response response with
  | Return result => Return result
  | Throw error => on_error error
  end = Throw (InternalServerException args) <->
  (parse (content response) = None /\ args = Caught SyntaxError) \/
  (exists jsonRpcResponse,
      parse (content response) = Some jsonRpcResponse /\
      get jsonRpcResponse "error" = None /\ args = Caught TypeError) \/
  (exists jsonRpcResponse error code message,
      parse (content response) = Some jsonRpcResponse /\
      get jsonRpcResponse "error" = Some error /\ truthy error = true /\
      get error "code" = Some code /\ get error "message" = Some message /\
      args = RpcError code message).
Proof.
  intros E. unfold on_response. rewrite E. simpl.
  destruct (parse (content response)) as [j|] eqn:Ej.
  - destruct (get j "error") as [error|] eqn:Ee.
    + destruct (truthy error) eqn:T.
      * destruct (get_of_truthy error "code" T) as [c Ec].
        destruct (get_of_truthy error "message" T) as [m Em].
        rewrite Ec, Em. simpl. split.
        -- intros [= <-]. right. right. exists j, error, c, m. tauto.
        -- intros [[H _]|[(j' & Hj & He & _)|(j' & e' & c' & m' & Hj & He & _ & Hc & Hm & ->)]];
             congruence.
      * destruct (get_again j "error" error "result" Ee) as [r Er]. rewrite Er.
        split; [discriminate|].
        intros [[H _]|[(j' & Hj & He & _)|(j' & e' & c' & m' & Hj & He & T' & _)]];
          congruence.
    + simpl. split.
      * intros [= <-]. right. left. exists j. tauto.
      * intros [[H _]|[(j' & Hj & He & ->)|(j' & e' & c' & m' & Hj & He & _)]];
          congruence.
  - simpl. split.
    + intros [= <-]. left. tauto.
    + intros [[_ ->]|[(j' & Hj & _)|(j' & e' & c' & m' & Hj & _)]];
        congruence.
Qed.


End Daemon.



Lemma signMessage_verifyMessage_same_signable_witness :
  signMessage _ scripted_post example_address example_message signing
    = (Return (VStr "H7sGk3w="), signed) /\
  verifyMessage _ scripted_post example_address "H7sGk3w=" example_message
    verifying = (Return (VBool true), verified).
Proof.
  split; [reflexivity|].
  apply (proj2 (signMessage_verifyMessage_same_signable
                  _ scripted_post example_address "H7sGk3w=" example_message)
           signing signed verifying verified).
  - reflexivity.
  - intros text _. reflexivity.
Defined.

Lemma signMessage_identifies_character_permutations_witness :
  message_ab <> message_ba /\
  signMessage _ scripted_post example_address message_ab signing
    = (Return (VStr "H7sGk3w="), signed) /\
  verifyMessage _ scripted_post example_address "H7sGk3w=" message_ba
    verifying = (Return (VBool true), verified).
Proof.
  split; [discriminate|]. split; [reflexivity|].
  apply (proj2 (proj2 (signMessage_identifies_character_permutations
                         _ scripted_post example_address message_ab message_ba
                         (dq "{'a':'b'}") (dq "{'b':'a'}")
                         eq_refl eq_refl
                         (permutation_of_sort_eq
                            (split_chars (dq "{'a':'b'}"))
                            (split_chars (dq "{'b':'a'}")) eq_refl)))
           "H7sGk3w=" signing signed verifying verified).
  - reflexivity.
  - intros text _. reflexivity.
Defined.

End CoreRpcFacts.

(* ================================================================== *)
(** * Properties of TestDataService *)
(* ================================================================== *)

Module TestDataFacts.
Import TestDataService.

Section Facts.

Variable W : Type.
Variable handler : forall T, Op T -> M W T.
Variable ObjectHash_getHash : Hashable -> HashableObjectType.t -> string.
Variable new_GenerateListingItemTemplateParams :
  option value -> GenerateListingItemTemplateParams.t.
Variable new_GenerateListingItemParams : option value -> GenerateListingItemParams.t.
Variable new_GenerateBidParams : option value -> GenerateBidParams.t.
Variable new_GenerateOrderParams : option value -> GenerateOrderParams.t.
Variable new_GenerateProposalParams : option value -> GenerateProposalParams.t.
Variable bidDatas_literal : value.

#[local] Abbreviation St := (St W).
#[local] Abbreviation invoke := (TestDataService.invoke W handler).

(** ** Stepping through a run *)

Lemma bind_return {A B} (m : M St A) (k : A -> M St B) s b s' :
  (x <- m ;; k x) s = (Return b, s') ->
  exists a s1, m s = (Return a, s1) /\ k a s1 = (Return b, s').
Proof.
  unfold bind. destruct (m s) as [[a|e] s1]; [eauto | discriminate].
Qed.

Lemma invoke_return {T} (op : Op T) s x s' :
  invoke op s = (Return x, s') ->
  exists w', handler T op (world s) = (Return x, w') /\
             s' = mkSt w' (log s ++ [Ev op (Return x)]).
Proof.
  unfold TestDataService.invoke.
  destruct (handler T op (world s)) as [[y|e] w']; intros [= <- <-]; eauto.
Qed.

Lemma ret_return {A} (a b : A) (s s' : St) :
  ret a s = (Return b, s') -> a = b /\ s = s'.
Proof. intros [= -> ->]. auto. Qed.

Lemma bind_invoke {T B} (op : Op T) (k : T -> M St B) s b s' :
  (x <- invoke op ;; k x) s = (Return b, s') ->
  exists x w',
    handler T op (world s) = (Return x, w') /\
    k x (mkSt w' (log s ++ [Ev op (Return x)])) = (Return b, s').
Proof.
  intros H. apply bind_return in H as (x & s1 & Hm & Hk).
  apply invoke_return in Hm as (w' & Hh & ->). eauto.
Qed.

#[local] Abbreviation create := (TestDataService.create W handler).
#[local] Abbreviation generate :=
  (TestDataService.generate W handler ObjectHash_getHash
     new_GenerateListingItemTemplateParams new_GenerateListingItemParams
     new_GenerateBidParams new_GenerateOrderParams new_GenerateProposalParams
     bidDatas_literal).
#[local] Abbreviation generateBidData :=
  (TestDataService.generateBidData W handler bidDatas_literal).
#[local] Abbreviation generateProposalData :=
  (TestDataService.generateProposalData W handler ObjectHash_getHash).

(** C8. A request whose model the switch does not name makes [create], and
    likewise [generate], throw the MessageException 'Not implemented', whose
    code is 404, once the request has passed the validation of the
    decorator; no other call has been made by then, so no service was
    invoked and nothing was created. *)
Theorem unsupported_model_not_implemented :
  (forall body s w1,
      create_supports (TestDataCreateRequest.model body) = false ->
      handler unit (Validate_TestDataCreateRequest body) (world s)
        = (Return tt, w1) ->
      create body s =
        (Throw (MessageException (Some "Not implemented")),
         mkSt w1 (log s ++ [Ev (Validate_TestDataCreateRequest body) (Return tt)])))
  /\
  (forall body s w1,
      generate_supports (TestDataGenerateRequest.model body) = false ->
      handler unit (Validate_TestDataGenerateRequest body) (world s)
        = (Return tt, w1) ->
      generate body s =
        (Throw (MessageException (Some "Not implemented")),
         mkSt w1 (log s ++ [Ev (Validate_TestDataGenerateRequest body) (Return tt)])))
  /\
  Exceptions.code (MessageException (Some "Not implemented")) = Some 404 /\
  Exceptions.message (MessageException (Some "Not implemented"))
    = Some "Not implemented".
Proof.
  repeat split.
  - intros body s w1 Hmodel Hvalid.
    unfold TestDataService.create, bind, TestDataService.invoke.
    rewrite Hvalid.
    destruct (TestDataCreateRequest.model body); try discriminate Hmodel;
      reflexivity.
  - intros body s w1 Hmodel Hvalid.
    unfold TestDataService.generate, bind, TestDataService.invoke.
    rewrite Hvalid.
    destruct (TestDataGenerateRequest.model body); try discriminate Hmodel;
      reflexivity.
Qed.

(** C3. The request that [generateBidData] returns names the listing item
    found by [generateParams.listingItemHash]: when the hash is set, the
    last call of the run is the lookup by that hash, and [listing_item_id]
    is the id of the listing item the lookup found (it stays unset when
    the lookup found none); when the hash is unset, [listing_item_id] is
    left unset. *)
Theorem generateBidData_listing_item_id generateParams s request s' :
  generateBidData generateParams s = (Return request, s') ->
  match truthy_string (GenerateBidParams.listingItemHash generateParams) with
  | Some hash =>
      exists calls found,
        log s' = (log s ++ calls
                    ++ [Ev (ListingItemService_findOneByHash hash) (Return found)])%list /\
        BidCreateRequest.listing_item_id request = option_map ListingItem.id found /\
        forall listingItem,
          found = Some listingItem ->
          BidCreateRequest.listing_item_id request
            = Some (ListingItem.id listingItem)
  | None => BidCreateRequest.listing_item_id request = None
  end.
Proof.
  intros H. unfold TestDataService.generateBidData in H.
  apply bind_return in H as (addresses & s1 & Haddr & H).
  unfold generateAddressesData in Haddr. simpl in Haddr.
  apply bind_invoke in Haddr as (generated & w1 & _ & Haddr).
  apply ret_return in Haddr as [<- <-].
  apply bind_invoke in H as (defaultProfile & w2 & _ & H).
  apply bind_return in H as (address & s2 & Hfirst & H).
  apply ret_return in Hfirst as [<- <-].
  apply bind_return in H as (bidder & s3 & Hbidder & H).
  assert (exists calls3, log s3 = (log s ++ calls3)%list) as [calls3 Hlog3].
  { destruct (truthy_string (GenerateBidParams.bidder generateParams)).
    - apply ret_return in Hbidder as [_ <-]. simpl.
      rewrite <- app_assoc. eauto.
    - apply invoke_return in Hbidder as (w3 & _ & ->). simpl.
      rewrite <- !app_assoc. eauto. }
  destruct (truthy_string (GenerateBidParams.listingItemHash generateParams))
    as [hash|].
  - apply bind_invoke in H as (found & w4 & _ & H).
    exists calls3, found.
    destruct found as [listingItem|];
      apply ret_return in H as [<- <-]; simpl; rewrite Hlog3, <- app_assoc;
      repeat split; try reflexivity; intros ? [= <-]; reflexivity.
  - apply ret_return in H as [<- _]. reflexivity.
Qed.

(** What the contract of lodash gives for a draw between ordered bounds. *)
Lemma draw_between (lower upper r : Q) calls :
  Forall draw_in_range calls ->
  In (Ev (Lodash_random lower upper) (Return r)) calls ->
  (lower <= upper -> lower <= r /\ r <= upper)%Q.
Proof.
  intros Hall Hin Hle. rewrite Forall_forall in Hall.
  specialize (Hall _ Hin). unfold draw_in_range in Hall. simpl in Hall.
  destruct Hall as [Hlo Hhi].
  rewrite (Q.min_l _ _ Hle) in Hlo. rewrite (Q.max_r _ _ Hle) in Hhi. auto.
Qed.

Lemma clock_read (t : Z) calls :
  Forall (clock_at_least 2200) calls ->
  In (Ev Date_getTime (Return t)) calls ->
  (2200 <= inject_Z t)%Q.
Proof.
  intros Hall Hin. rewrite Forall_forall in Hall.
  specialize (Hall _ Hin). unfold clock_at_least in Hall. simpl in Hall.
  rewrite Zle_Qle in Hall. exact Hall.
Qed.

(** C10. A request produced by [generateProposalData] starts strictly
    before it expires, for a past proposal as for a future one, when the
    clock of the run reads at least 2200 milliseconds and lodash draws
    its numbers between the bounds it is given. *)
Theorem generateProposalData_starts_before_it_expires
    generateParams s request s' calls :
  generateProposalData generateParams s = (Return request, s') ->
  log s' = (log s ++ calls)%list ->
  Forall (clock_at_least 2200) calls ->
  Forall draw_in_range calls ->
  (ProposalCreateRequest.timeStart request
   < ProposalCreateRequest.expiredAt request)%Q.
Proof.
  intros H Hlog Hclock Hdraws.
  unfold TestDataService.generateProposalData in H.
  apply bind_return in H as (submitter & s1 & Hsubmitter & H).
  assert (exists c1, log s1 = (log s ++ c1)%list) as [c1 Hlog1].
  { destruct (truthy_string (GenerateProposalParams.submitter generateParams)).
    - apply ret_return in Hsubmitter as [_ <-]. exists []. now rewrite app_nil_r.
    - apply bind_invoke in Hsubmitter as (p & w & _ & Hs).
      apply ret_return in Hs as [_ <-]. simpl. eauto. }
  clear Hsubmitter.
  apply bind_return in H as (title & s2 & Htitle & H).
  assert (exists c2, log s2 = (log s ++ c2)%list) as [c2 Hlog2].
  { destruct (truthy_string (GenerateProposalParams.listingItemHash generateParams)).
    - apply ret_return in Htitle as [_ <-]. eauto.
    - apply invoke_return in Htitle as (w & _ & ->). simpl.
      rewrite Hlog1, <- app_assoc. eauto. }
  clear Htitle.
  apply bind_return in H as (description & s3 & Hdescription & H).
  assert (exists c3, log s3 = (log s ++ c3)%list) as [c3 Hlog3].
  { destruct (truthy_string (GenerateProposalParams.listingItemHash generateParams)).
    - apply ret_return in Hdescription as [_ <-]. eauto.
    - apply invoke_return in Hdescription as (w & _ & ->). simpl.
      rewrite Hlog2, <- app_assoc. eauto. }
  clear Hdescription.
  apply bind_invoke in H as (currentTime & w4 & _ & H).
  apply bind_return in H as (timeStart & s5 & HtimeStart & H).
  apply bind_return in H as (timeEnd & s6 & HtimeEnd & H).
  apply ret_return in H as [<- <-]. simpl.
  assert (2200 <= inject_Z currentTime)%Q as Hnow.
  { destruct (GenerateProposalParams.generatePastProposal generateParams);
      apply invoke_return in HtimeStart as (w5 & _ & ->);
      apply invoke_return in HtimeEnd as (w6 & _ & ->);
      simpl in Hlog; rewrite Hlog3, <- !app_assoc in Hlog;
      apply app_inv_head in Hlog; subst calls;
      apply (clock_read currentTime _ Hclock);
      apply in_or_app; right; simpl; auto. }
  remember (inject_Z currentTime) as now eqn:Enow. clear Enow.
  destruct (GenerateProposalParams.generatePastProposal generateParams);
    apply invoke_return in HtimeStart as (w5 & _ & ->);
    apply invoke_return in HtimeEnd as (w6 & _ & ->);
    simpl in Hlog; rewrite Hlog3, <- !app_assoc in Hlog;
    apply app_inv_head in Hlog; subst calls;
    unfold Qdiv in *; change (/ 2)%Q with (1 # 2)%Q in *.
  - assert (1 <= timeStart /\ timeStart <= now * (1 # 2))%Q as [_ H1].
    { eapply draw_between; [exact Hdraws | | lra].
      apply in_or_app; right; simpl; auto. }
    assert (now * (1 # 2) + 100 <= timeEnd /\ timeEnd <= now - 1000)%Q
      as [H2 _].
    { eapply draw_between; [exact Hdraws | | lra].
      apply in_or_app; right; simpl; auto. }
    lra.
  - assert (now + 100 <= timeStart /\ timeStart <= now + 1000)%Q as [_ H1].
    { eapply draw_between; [exact Hdraws | | lra].
      apply in_or_app; right; simpl; auto. }
    assert (now + 1001 <= timeEnd /\ timeEnd <= now + 2000)%Q as [H2 _].
    { eapply draw_between; [exact Hdraws | | lra].
      apply in_or_app; right; simpl; auto. }
    lra.
Qed.

(** ** What a run adds to the log *)

#[local] Abbreviation emits := (TestDataService.emits W).

Lemma emits_ret P {A} (a : A) : emits P (ret a).
Proof.
  intros s o s' [= <- <-]. exists []. now rewrite app_nil_r.
Qed.

Lemma emits_throw P {A} e : emits P (throw e : M St A).
Proof.
  intros s o s' [= <- <-]. exists []. now rewrite app_nil_r.
Qed.

Lemma emits_invoke (P : Event -> Prop) {T} (op : Op T) :
  (forall o, P (Ev op o)) -> emits P (invoke op).
Proof.
  intros HP s o s'. unfold TestDataService.invoke.
  destruct (handler T op (world s)) as [o' w']. intros [= <- <-].
  exists [Ev op o']. simpl. auto.
Qed.

Lemma emits_bind P {A B} (m : M St A) (k : A -> M St B) :
  emits P m -> (forall a, emits P (k a)) -> emits P (x <- m ;; k x).
Proof.
  intros Hm Hk s o s'. unfold bind.
  destruct (m s) as [[a|e] s1] eqn:E.
  - intros H. apply Hm in E as (c1 & L1 & F1). apply Hk in H as (c2 & L2 & F2).
    exists (c1 ++ c2)%list. rewrite L2, L1, app_assoc. split; [reflexivity|].
    apply Forall_app; auto.
  - intros [= <- <-]. now apply Hm in E.
Qed.

Lemma emits_push_each P {A} (body : M St A) rounds items :
  emits P body -> emits P (push_each W rounds body items).
Proof.
  intros Hbody. revert items.
  induction rounds as [|n IH]; intros items; simpl.
  - apply emits_ret.
  - apply emits_bind; auto.
Qed.

Lemma emits_first P {A} (xs : list A) : emits P (first W xs).
Proof. destruct xs; [apply emits_throw | apply emits_ret]. Qed.

Lemma emits_generateResponse P {T} `{HasId T} (items : list T) withRelated :
  emits P (generateResponse W items withRelated).
Proof. destruct withRelated; apply emits_ret. Qed.

Lemma emits_generateAddressesData_loop P rounds addresses :
  (forall o, P (Ev GenerateAddressData o)) ->
  emits P (generateAddressesData_loop W handler rounds addresses).
Proof.
  intros HP. revert addresses.
  induction rounds as [|n IH]; intros addresses; simpl.
  - apply emits_ret.
  - apply emits_bind; [now apply emits_invoke | auto].
Qed.

Ltac emits_quiet :=
  repeat first
    [ apply emits_ret
    | apply emits_throw
    | apply emits_first
    | apply emits_generateResponse
    | apply emits_push_each
    | apply emits_generateAddressesData_loop; intros; split; reflexivity
    | apply emits_invoke; intros; split; reflexivity
    | apply emits_bind; [|intros]
    | match goal with
      | |- TestDataService.emits _ _ (if ?b then _ else _) => destruct b
      | |- TestDataService.emits _ _ (match ?x with _ => _ end) => destruct x
      end ].

#[local] Abbreviation generateListingItemTemplates :=
  (TestDataService.generateListingItemTemplates W handler).
#[local] Abbreviation generateListingItems :=
  (TestDataService.generateListingItems W handler).
#[local] Abbreviation generateBids :=
  (TestDataService.generateBids W handler new_GenerateListingItemTemplateParams
     new_GenerateListingItemParams bidDatas_literal).
#[local] Abbreviation generateOrders :=
  (TestDataService.generateOrders W handler new_GenerateListingItemTemplateParams
     new_GenerateListingItemParams new_GenerateBidParams bidDatas_literal).
#[local] Abbreviation generateOrderData :=
  (TestDataService.generateOrderData W handler).

Lemma generateListingItemTemplates_quiet amount withRelated generateParams :
  emits quiet (generateListingItemTemplates amount withRelated generateParams).
Proof.
  unfold TestDataService.generateListingItemTemplates, for_amount,
    generateListingItemTemplateData.
  emits_quiet.
Qed.

Lemma generateListingItems_quiet amount withRelated generateParams :
  emits quiet (generateListingItems amount withRelated generateParams).
Proof.
  unfold TestDataService.generateListingItems, for_amount, generateListingItemData.
  emits_quiet.
Qed.

Lemma generateBidData_quiet generateParams :
  emits quiet (generateBidData generateParams).
Proof.
  unfold TestDataService.generateBidData, generateAddressesData.
  emits_quiet.
Qed.

Lemma generateBidData_action generateParams s request s' :
  generateBidData generateParams s = (Return request, s') ->
  BidCreateRequest.action request =
    match GenerateBidParams.action generateParams with
    | Some action => action
    | None => MPA_BID
    end.
Proof.
  intros H. unfold TestDataService.generateBidData in H.
  apply bind_return in H as (addresses & s1 & _ & H).
  apply bind_invoke in H as (defaultProfile & w2 & _ & H).
  apply bind_return in H as (address & s2 & _ & H).
  apply bind_return in H as (bidder & s3 & _ & H).
  destruct (truthy_string (GenerateBidParams.listingItemHash generateParams)).
  - apply bind_invoke in H as ([listingItem|] & w4 & _ & H);
      apply ret_return in H as [<- _]; reflexivity.
  - apply ret_return in H as [<- _]. reflexivity.
Qed.

(** One round of [generateBids]: whatever templates and listing items are
    generated first, the run ends with the one call that creates the bid. *)
Lemma generateBids_once generateParams s items generateParams' s' :
  generateBids 1 true generateParams s = (Return (items, generateParams'), s') ->
  exists earlier request bid,
    items = [bid] /\
    log s' = (log s ++ earlier ++ [Ev (BidService_create request) (Return bid)])%list /\
    Forall quiet earlier /\
    BidCreateRequest.action request =
      match GenerateBidParams.action generateParams with
      | Some action => action
      | None => MPA_BID
      end.
Proof.
  intros H. unfold TestDataService.generateBids in H.
  apply bind_return in H as (itemParams & s1 & H1 & H).
  assert (exists c1, log s1 = (log s ++ c1)%list /\ Forall quiet c1)
    as (c1 & L1 & Q1).
  { revert H1. generalize s, (Return itemParams), s1.
    change (emits quiet
      (if GenerateBidParams.generateListingItemTemplate generateParams
       then
         listingItemTemplates <-
           generateListingItemTemplates 1 true
             (new_GenerateListingItemTemplateParams None) ;;
         listingItemTemplate <- first W (listingItemTemplates : list _) ;;
         ret (GenerateListingItemParams.mk
                (GenerateListingItemParams.generateItemInformation
                   (new_GenerateListingItemParams None))
                (GenerateListingItemParams.generatePaymentInformation
                   (new_GenerateListingItemParams None))
                (GenerateListingItemParams.generateMessagingInformation
                   (new_GenerateListingItemParams None))
                (GenerateListingItemParams.generateListingItemObjects
                   (new_GenerateListingItemParams None))
                (GenerateListingItemParams.content
                   (new_GenerateListingItemParams None))
                (Some (ListingItemTemplate.hash listingItemTemplate))
                (GenerateListingItemParams.seller
                   (new_GenerateListingItemParams None)))
       else ret (new_GenerateListingItemParams None))).
    destruct (GenerateBidParams.generateListingItemTemplate generateParams).
    - apply emits_bind; [apply generateListingItemTemplates_quiet|].
      intros. emits_quiet.
    - apply emits_ret. }
  clear H1.
  apply bind_return in H as (bidParams & s2 & H2 & H).
  assert ((exists c2, log s2 = (log s1 ++ c2)%list /\ Forall quiet c2) /\
          GenerateBidParams.action bidParams
            = GenerateBidParams.action generateParams)
    as [(c2 & L2 & Q2) Haction].
  { destruct (GenerateBidParams.generateListingItem generateParams).
    - apply bind_return in H2 as (listingItems & s1' & Hgen & H2).
      apply generateListingItems_quiet in Hgen as (c & L & Q).
      apply bind_return in H2 as (listingItem & s1'' & Hfirst & H2).
      apply ret_return in H2 as [<- <-].
      destruct (listingItems : list _); [discriminate|].
      apply ret_return in Hfirst as [_ <-]. split; [eauto | reflexivity].
    - apply ret_return in H2 as [<- <-]. split; [|reflexivity].
      exists []. now rewrite app_nil_r. }
  clear H2.
  apply bind_return in H as (created & s3 & Hloop & H).
  apply bind_return in H as (result & s4 & Hresult & H).
  apply ret_return in Hresult as [<- <-].
  apply ret_return in H as [[= <- <-] <-].
  unfold for_amount in Hloop. simpl in Hloop.
  apply bind_return in Hloop as (bid & s5 & Hbody & Hloop).
  apply ret_return in Hloop as [<- <-].
  apply bind_return in Hbody as (request & s6 & Hdata & Hcreate).
  pose proof (generateBidData_action _ _ _ _ Hdata) as Hrequest.
  apply generateBidData_quiet in Hdata as (c3 & L3 & Q3).
  apply invoke_return in Hcreate as (w & _ & ->). simpl.
  exists (c1 ++ c2 ++ c3)%list, request, bid.
  split; [reflexivity|]. split.
  - rewrite L3, L2, L1, <- !app_assoc. reflexivity.
  - split; [repeat (apply Forall_app; split); assumption|].
    now rewrite Hrequest, Haction.
Qed.

(** The order loop: every round reads the bid by the id it was given,
    builds the model from what it read and creates the order. *)
Lemma order_rounds generateParams bidId rounds items0 s items s' :
  GenerateOrderParams.bidId generateParams = Some bidId ->
  push_each W rounds
    (orderCreateRequest <- generateOrderData generateParams ;;
     invoke (OrderService_create orderCreateRequest)) items0 s
    = (Return items, s') ->
  exists calls orders,
    log s' = (log s ++ calls)%list /\
    items = (items0 ++ orders)%list /\
    List.length orders = rounds /\
    OrderRounds bidId (GenerateOrderParams.generateOrderItem generateParams)
      calls orders.
Proof.
  intros HbidId. revert items0 s.
  induction rounds as [|n IH]; intros items0 s H; simpl in H.
  - apply ret_return in H as [<- <-]. exists [], [].
    rewrite !app_nil_r. repeat split. constructor.
  - apply bind_return in H as (order & s1 & Hbody & H).
    apply IH in H as (calls & orders & L & -> & Hlen & Hrounds).
    apply bind_return in Hbody as (request & s2 & Hdata & Hcreate).
    unfold TestDataService.generateOrderData in Hdata.
    rewrite HbidId in Hdata.
    apply bind_invoke in Hdata as (bid & w1 & _ & Hdata).
    apply bind_invoke in Hdata as (model & w2 & _ & Hdata).
    assert (request = order_request
                        (GenerateOrderParams.generateOrderItem generateParams)
                        model /\
            s2 = mkSt w2 ((log s ++ [Ev (BidService_findOne (Some bidId)) (Return bid)])
                            ++ [Ev (OrderFactory_getModelFromBid bid)
                                  (Return model)])) as [-> ->].
    { unfold order_request.
      destruct (negb (GenerateOrderParams.generateOrderItem generateParams));
        apply ret_return in Hdata as [<- <-]; auto. }
    apply invoke_return in Hcreate as (w3 & _ & ->). simpl in L.
    eexists (_ :: _ :: _ :: calls), (order :: orders).
    split; [|split; [|split]].
    + rewrite L, <- !app_assoc. reflexivity.
    + now rewrite <- app_assoc.
    + simpl. now rewrite Hlen.
    + now constructor.
Qed.

Lemma quiet_creates_nothing calls :
  Forall quiet calls -> bids_created calls = [] /\ orders_created calls = [].
Proof.
  induction 1 as [|e calls [Hb Ho] _ [IHb IHo]]; [split; reflexivity|].
  unfold bids_created, orders_created in *. simpl.
  rewrite Hb, Ho, IHb, IHo. split; reflexivity.
Qed.

Lemma rounds_create_orders bidId generateOrderItem calls orders :
  OrderRounds bidId generateOrderItem calls orders ->
  bids_created calls = [] /\
  map snd (orders_created calls) = map Return orders.
Proof.
  induction 1 as [|bid model order calls orders _ [IHb IHo]];
    [split; reflexivity|].
  unfold bids_created, orders_created in *. simpl.
  rewrite IHb, IHo. split; reflexivity.
Qed.

(** C4. [generateOrders] creates its records in steps. With
    [generateBid] set, the calls before the order loop end with the one
    call of [bidService.create] of the run, whose request has the action
    MPA_ACCEPT; otherwise the one call before the loop reads the bid by
    [generateParams.bidId] and no bid is created. Either way
    [generateParams.bidId] ends up as the id of that bid, no order is
    created before the loop, and every order of the call is created in a
    round of the loop from the model that [OrderFactory.getModelFromBid]
    built from the bid read by that id. *)
Theorem generateOrders_builds_orders_from_one_bid
    amount withRelated generateParams s result generateParams' s' :
  generateOrders amount withRelated generateParams s
    = (Return (result, generateParams'), s') ->
  exists bid before rounds orders,
    log s' = (log s ++ before ++ rounds)%list /\
    GenerateOrderParams.bidId generateParams' = Some (Bid.id bid) /\
    (if GenerateOrderParams.generateBid generateParams
     then exists earlier request,
         before = (earlier ++ [Ev (BidService_create request) (Return bid)])%list /\
         Forall quiet earlier /\
         BidCreateRequest.action request = MPA_ACCEPT /\
         bids_created (before ++ rounds) = [(request, Return bid)]
     else before = [Ev (BidService_findOne
                          (GenerateOrderParams.bidId generateParams))
                      (Return bid)] /\
          bids_created (before ++ rounds) = []) /\
    orders_created before = [] /\
    map snd (orders_created rounds) = map Return orders /\
    OrderRounds (Bid.id bid)
      (GenerateOrderParams.generateOrderItem generateParams) rounds orders /\
    List.length orders = Z.to_nat amount.
Proof.
  intros H. unfold TestDataService.generateOrders in H.
  apply bind_return in H as (bid & s1 & Hbid & H).
  apply bind_return in H as (items & s2 & Hloop & H).
  apply bind_return in H as (response & s3 & Hresponse & H).
  apply ret_return in H as [[= <- <-] <-].
  assert (s3 = s2) as ->.
  { destruct withRelated; apply ret_return in Hresponse as [_ <-]; reflexivity. }
  clear Hresponse.
  unfold for_amount in Hloop.
  eapply order_rounds in Hloop as (rounds & orders & L & _ & Hlen & Hrounds);
    [|reflexivity].
  simpl in Hrounds.
  destruct (GenerateOrderParams.generateBid generateParams).
  - apply bind_return in Hbid as ([bids bidParams] & s0 & Hbids & Hfirst).
    apply generateBids_once in Hbids
      as (earlier & request & bid' & -> & L0 & Hquiet & Haction).
    apply ret_return in Hfirst as [<- <-]. simpl in Haction.
    destruct (quiet_creates_nothing _ Hquiet) as [Qb Qo].
    destruct (rounds_create_orders _ _ _ _ Hrounds) as [Rb Ro].
    exists bid', (earlier ++ [Ev (BidService_create request) (Return bid')])%list,
      rounds, orders.
    split; [now rewrite L, L0, <- !app_assoc|].
    split; [reflexivity|]. split; [|split; [|split; [|split]]]; auto.
    + exists earlier, request. repeat split; auto.
      unfold bids_created in *. rewrite !flat_map_app, Qb, Rb. reflexivity.
    + unfold orders_created in *. rewrite flat_map_app, Qo. reflexivity.
  - apply invoke_return in Hbid as (w & _ & ->). simpl in L.
    destruct (rounds_create_orders _ _ _ _ Hrounds) as [Rb Ro].
    exists bid, [Ev (BidService_findOne (GenerateOrderParams.bidId generateParams))
                   (Return bid)], rounds, orders.
    split; [now rewrite L, <- app_assoc|].
    split; [reflexivity|]. split; [|split; [|split; [|split]]]; auto.
Qed.

End Facts.

End TestDataFacts.

(* ================================================================== *)
(** * The services in memory: runs of the generators *)
(* ================================================================== *)

Module InMemoryFacts.
Import TestDataService InMemory TestDataFacts.

(** ** Properties that rest on the services in memory *)

Lemma unsupported_model_not_implemented_witness :
  create Db services unsupported_create start =
    (Throw (MessageException (Some "Not implemented")),
     mkSt seeded
       [Ev (Validate_TestDataCreateRequest unsupported_create) (Return tt)]) /\
  generate Db services (ObjectHash.getHash plain)
    new_GenerateListingItemTemplateParams new_GenerateListingItemParams
    new_GenerateBidParams new_GenerateOrderParams new_GenerateProposalParams
    example_bidDatas unsupported_generate start =
    (Throw (MessageException (Some "Not implemented")),
     mkSt seeded
       [Ev (Validate_TestDataGenerateRequest unsupported_generate) (Return tt)]).
Proof.
  split.
  - apply (proj1 (unsupported_model_not_implemented Db services
                    (ObjectHash.getHash plain)
                    new_GenerateListingItemTemplateParams
                    new_GenerateListingItemParams new_GenerateBidParams
                    new_GenerateOrderParams new_GenerateProposalParams
                    example_bidDatas)); reflexivity.
  - apply (proj1 (proj2 (unsupported_model_not_implemented Db services
                    (ObjectHash.getHash plain)
                    new_GenerateListingItemTemplateParams
                    new_GenerateListingItemParams new_GenerateBidParams
                    new_GenerateOrderParams new_GenerateProposalParams
                    example_bidDatas))); reflexivity.
Defined.

Lemma generateBidData_listing_item_id_witness :
  exists request s',
    generateBidData Db services example_bidDatas bid_for_listing
      (mkSt with_listing []) = (Return request, s') /\
    exists calls found,
      log s' = ([] ++ calls
                ++ [Ev (ListingItemService_findOneByHash "f08f3d6e")
                      (Return found)])%list /\
      BidCreateRequest.listing_item_id request = option_map ListingItem.id found /\
      forall listingItem,
        found = Some listingItem ->
        BidCreateRequest.listing_item_id request
          = Some (ListingItem.id listingItem).
Proof.
  eexists. eexists. split; [vm_compute; reflexivity|].
  exact (generateBidData_listing_item_id Db services example_bidDatas
           bid_for_listing (mkSt with_listing []) _ _ eq_refl).
Defined.

Lemma generateOrders_builds_orders_from_one_bid_witness :
  exists result generateParams' s',
    generateOrders Db services new_GenerateListingItemTemplateParams
      new_GenerateListingItemParams new_GenerateBidParams example_bidDatas
      2 true orders_with_bid start = (Return (result, generateParams'), s') /\
    exists bid before rounds orders,
      log s' = ([] ++ before ++ rounds)%list /\
      GenerateOrderParams.bidId generateParams' = Some (Bid.id bid) /\
      (exists earlier request,
          before = (earlier ++ [Ev (BidService_create request) (Return bid)])%list /\
          Forall quiet earlier /\
          BidCreateRequest.action request = MPA_ACCEPT /\
          bids_created (before ++ rounds) = [(request, Return bid)]) /\
      orders_created before = [] /\
      map snd (orders_created rounds) = map Return orders /\
      OrderRounds (Bid.id bid) true rounds orders /\
      List.length orders = 2%nat.
Proof.
  eexists. eexists. eexists. split; [vm_compute; reflexivity|].
  refine (generateOrders_builds_orders_from_one_bid Db services
            new_GenerateListingItemTemplateParams new_GenerateListingItemParams
            new_GenerateBidParams example_bidDatas 2 true orders_with_bid start
            _ _ _ _).
  vm_compute. reflexivity.
Defined.

Lemma generateProposalData_starts_before_it_expires_witness :
  exists request s',
    generateProposalData Db services (ObjectHash.getHash plain) past_proposal
      (mkSt at_odd_time []) = (Return request, s') /\
    (ProposalCreateRequest.timeStart request
     < ProposalCreateRequest.expiredAt request)%Q.
Proof.
  eexists. eexists. split; [vm_compute; reflexivity|].
  eapply (generateProposalData_starts_before_it_expires Db services
            (ObjectHash.getHash plain) past_proposal (mkSt at_odd_time [])
            _ _ _ eq_refl eq_refl).
  - repeat constructor; vm_compute; discriminate.
  - repeat constructor; vm_compute; discriminate.
Defined.

End InMemoryFacts.

(* ================================================================== *)
(** * Properties of BidActionService *)
(* ================================================================== *)

Module BidActionFacts.
Import TestDataService BidActionService.

Section Facts.

Variable W : Type.
Variable handler : forall T, Op T -> M W T.
Variable valid : MarketplaceEvent -> ListingItem.t -> bool.
Variable BidFactory_getModel : BidMessage -> Z -> string -> BidCreateRequest.t.

#[local] Abbreviation processBidReceivedEvent :=
  (BidActionService.processBidReceivedEvent W handler valid BidFactory_getModel).


End Facts.


End BidActionFacts.

(* ================================================================== *)
(** * Properties of the methods around [call] *)
(* ================================================================== *)

Module CoreRpcMethodFacts.
Import CoreRpcService CoreRpcMethods.

(** ** The canonical form of a message *)

(** [JSON.stringify] yields [undefined] for [undefined] only. *)
Lemma stringify_undefined (v : value) : stringify v = None <-> v = VUndefined.
Proof.
  split.
  - destruct v as [| |[|]| | | | | | |]; simpl; congruence.
  - intros ->. reflexivity.
Qed.

Lemma split_chars_single (text : string) : Forall single (split_chars text).
Proof.
  induction text as [|c text IH]; simpl; constructor; [now exists c | exact IH].
Qed.

Lemma sorted_chars_single (text : string) :
  Forall single (sort (split_chars text)).
Proof.
  eapply Permutation_Forall; [apply StringSort.Permuted_sort|].
  apply split_chars_single.
Qed.

(** Joining single characters with commas loses nothing. *)
Lemma toString_injective (l1 l2 : list string) :
  Forall single l1 -> Forall single l2 -> toString l1 = toString l2 -> l1 = l2.
Proof.
  unfold toString. revert l2.
  induction l1 as [|a l1 IH]; intros [|b l2] F1 F2 E.
  - reflexivity.
  - inversion F2 as [|? ? [c ->] F2']; subst.
    destruct l2; simpl in E; discriminate.
  - inversion F1 as [|? ? [c ->] F1']; subst.
    destruct l1; simpl in E; discriminate.
  - inversion F1 as [|? ? [c ->] F1']; subst.
    inversion F2 as [|? ? [d ->] F2']; subst.
    destruct l1 as [|a' l1], l2 as [|b' l2]; simpl in E.
    + congruence.
    + discriminate.
    + discriminate.
    + injection E as -> E. f_equal. apply IH; assumption.
Qed.

Lemma toString_length (l : list string) :
  Forall single l ->
  String.length (toString l) = Nat.pred (2 * List.length l).
Proof.
  unfold toString.
  induction l as [|a l IH]; intros F; [reflexivity|].
  inversion F as [|? ? [c ->] F']; subst.
  destruct l as [|b l]; [reflexivity|].
  specialize (IH F').
  change (String.concat "," (String c "" :: b :: l))
    with (String c ("," ++ String.concat "," (b :: l))).
  cbn [String.append String.length]. rewrite IH. simpl. lia.
Qed.

Lemma split_chars_length (text : string) :
  List.length (split_chars text) = String.length text.
Proof. induction text; simpl; congruence. Qed.

(** X5. The canonical form that [signMessage] and [verifyMessage] submit
    keeps exactly the multiset of the characters of the serialized
    message: two serializations have the same canonical form if and only
    if they are character permutations of each other. The canonical form
    of a serialization of [n] characters has [2n - 1] characters. *)
Theorem signable_iff_permutation (text1 text2 : string) :
  (signable text1 = signable text2 <->
   Permutation (split_chars text1) (split_chars text2)) /\
  String.length (signable text1) = Nat.pred (2 * String.length text1).
Proof.
  split; [split|].
  - intros E. apply CoreRpcFacts.permutation_of_sort_eq.
    apply toString_injective; auto using sorted_chars_single.
  - intros P. unfold signable. f_equal.
    now apply CoreRpcFacts.sort_permutation.
  - unfold signable. rewrite toString_length by apply sorted_chars_single.
    rewrite <- (split_chars_length text1).
    f_equal. f_equal. symmetry. apply Permutation_length.
    apply StringSort.Permuted_sort.
Qed.

Section Daemon.

Variable Net : Type.
Variable post : string -> Net -> post_result * Net.

#[local] Abbreviation call := (CoreRpcService.call Net post).
#[local] Abbreviation signMessage := (CoreRpcService.signMessage Net post).
#[local] Abbreviation verifyMessage := (CoreRpcService.verifyMessage Net post).
#[local] Abbreviation getNewAddress := (CoreRpcService.getNewAddress Net post).
#[local] Abbreviation getNetworkInfo := (CoreRpcMethods.getNetworkInfo Net post).
#[local] Abbreviation getWalletInfo := (CoreRpcMethods.getWalletInfo Net post).
#[local] Abbreviation isConnected := (CoreRpcMethods.isConnected Net post).
#[local] Abbreviation hasWallet := (CoreRpcMethods.hasWallet Net post).
#[local] Abbreviation getVersion := (CoreRpcMethods.getVersion Net post).

#[local] Abbreviation one_request := (CoreRpcMethods.one_request Net).

(** What [call] throws is an HttpException or an
    InternalServerException. *)
Lemma call_throws method params logCall st e st' :
  call method params logCall st = (Throw e, st') -> of_call e.
Proof.
  unfold CoreRpcService.call, of_call.
  destruct (post _ _) as [[response|name msg] net'].
  - destruct (on_response response) as [r|e'] eqn:R; [discriminate|].
    apply CoreRpcFacts.on_response_throws in R.
    destruct R as [(s & m & ->)|[(a & ->)|[->| ->]]]; simpl;
      intros [= <- _]; eauto.
  - simpl. intros [= <- _]. eauto.
Qed.

Lemma call_counts method params logCall st o st' :
  call method params logCall st = (o, st') ->
  RPC_REQUEST_ID st' = RPC_REQUEST_ID st + 1.
Proof.
  intros E. pose proof (CoreRpcFacts.call_state Net post method params logCall st) as H.
  rewrite E in H. exact H.
Qed.

Lemma not_TypeError e : of_call e -> e <> TypeError.
Proof. intros [(s & m & ->)|(a & ->)]; discriminate. Qed.

(** X1. [getNewAddress] with [smsgAddress] makes two requests: it asks
    for the address and then registers the address it was given with
    [smsgaddlocaladdress]. It returns the address of the first request,
    and only when both requests returned; it throws what the first request
    throws without making the second one, and it throws what the second
    request throws although the address has been handed out by then.
    Without [smsgAddress] it is the first request alone. *)
Theorem getNewAddress_two_requests params st :
  (forall response st',
      getNewAddress params true st = (Return response, st') <->
      exists st1 reply,
        call "getnewaddress" params true st = (Return response, st1) /\
        call "smsgaddlocaladdress" [response] true st1 = (Return reply, st') /\
        RPC_REQUEST_ID st1 = RPC_REQUEST_ID st + 1 /\
        RPC_REQUEST_ID st' = RPC_REQUEST_ID st + 2) /\
  (forall e st',
      getNewAddress params true st = (Throw e, st') <->
      (call "getnewaddress" params true st = (Throw e, st') /\
       RPC_REQUEST_ID st' = RPC_REQUEST_ID st + 1) \/
      (exists response st1,
          call "getnewaddress" params true st = (Return response, st1) /\
          call "smsgaddlocaladdress" [response] true st1 = (Throw e, st') /\
          RPC_REQUEST_ID st' = RPC_REQUEST_ID st + 2)) /\
  getNewAddress params false st = call "getnewaddress" params true st.
Proof.
  unfold CoreRpcService.getNewAddress, bind.
  destruct (call "getnewaddress" params true st) as [[response|e1] st1] eqn:E1.
  - pose proof (call_counts _ _ _ _ _ _ E1) as C1.
    destruct (call "smsgaddlocaladdress" [response] true st1)
      as [[reply|e2] st2] eqn:E2;
      pose proof (call_counts _ _ _ _ _ _ E2) as C2.
    + split; [|split]; [| |reflexivity].
      * intros r st'. unfold ret. split.
        -- intros [= <- <-]. exists st1, reply. repeat split; auto; lia.
        -- intros (st1' & reply' & [= -> <-] & H2 & _).
           rewrite E2 in H2. congruence.
      * intros e st'. unfold ret. split; [discriminate|].
        intros [[H _]|(r & st1' & [= <- <-] & H2 & _)]; [discriminate|].
        rewrite E2 in H2. discriminate.
    + split; [|split]; [| |reflexivity].
      * intros r st'. split; [discriminate|].
        intros (st1' & reply' & [= -> <-] & H2 & _).
        rewrite E2 in H2. discriminate.
      * intros e st'. split.
        -- intros [= <- <-]. right. exists response, st1.
           repeat split; auto; lia.
        -- intros [[H _]|(r & st1' & [= <- <-] & H2 & _)]; [discriminate|].
           rewrite E2 in H2. congruence.
  - pose proof (call_counts _ _ _ _ _ _ E1) as C1.
    split; [|split]; [| |reflexivity].
    + intros r st'. split; [discriminate|].
      intros (st1' & reply' & H & _). discriminate.
    + intros e st'. split.
      * intros [= <- <-]. left. split; [reflexivity | exact C1].
      * intros [[[= -> ->] _]|(r & st1' & H & _)]; [reflexivity | discriminate].
Qed.

(** X2. [isConnected] and [hasWallet] never throw. [isConnected] resolves
    with [true] when the request for the network information returned and
    with [false] when it threw. [hasWallet] resolves with a truthy value
    exactly when the request for the wallet information returned a truthy
    value whose [hdseedid] is truthy: it resolves with that [hdseedid], with
    the value that was returned when that is falsy, and with [false] when
    the request threw. Each makes the one request. *)
Theorem isConnected_hasWallet_never_throw st :
  (exists connected,
      fst (isConnected st) = Return (VBool connected) /\
      (connected = true <-> exists info, fst (getNetworkInfo st) = Return info)) /\
  (exists wallet,
      fst (hasWallet st) = Return wallet /\
      (truthy wallet = true <->
       exists info hdseedid,
         fst (getWalletInfo st) = Return info /\ truthy info = true /\
         get info "hdseedid" = Some hdseedid /\ truthy hdseedid = true) /\
      (forall error, fst (getWalletInfo st) = Throw error -> wallet = VBool false) /\
      (forall info,
          fst (getWalletInfo st) = Return info ->
          wallet = if truthy info
                   then match get info "hdseedid" with
                        | Some hdseedid => hdseedid
                        | None => VUndefined
                        end
                   else info)) /\
  RPC_REQUEST_ID (snd (isConnected st)) = RPC_REQUEST_ID st + 1 /\
  RPC_REQUEST_ID (snd (hasWallet st)) = RPC_REQUEST_ID st + 1.
Proof.
  unfold CoreRpcMethods.isConnected, CoreRpcMethods.hasWallet, catch_, then_.
  split; [|split; [|split]].
  - destruct (getNetworkInfo st) as [[info|e] st1]; simpl.
    + exists true. split; [reflexivity|]. split; eauto.
    + exists false. split; [reflexivity|]. split; [discriminate|].
      intros [info H]. discriminate.
  - destruct (getWalletInfo st) as [[info|e] st1]; simpl.
    + destruct (truthy info) eqn:T.
      * destruct (CoreRpcFacts.get_of_truthy info "hdseedid" T) as [seed G].
        rewrite G. exists seed. split; [reflexivity|].
        split; [split|split; [discriminate|]].
        -- intros Ts. exists info, seed. auto.
        -- intros (info' & seed' & [= <-] & _ & G' & Ts). congruence.
        -- intros info' [= <-]. now rewrite T, G.
      * exists info. split; [reflexivity|].
        split; [split; [congruence|]|split; [discriminate|]].
        -- intros (info' & seed' & [= <-] & T' & _). congruence.
        -- intros info' [= <-]. now rewrite T.
    + exists (VBool false). split; [reflexivity|].
      split; [split; [discriminate|]|split; [reflexivity|discriminate]].
      intros (info' & seed' & H & _). discriminate.
  - unfold CoreRpcMethods.getNetworkInfo.
    destruct (call "getnetworkinfo" [] false st) as [[info|e] st1] eqn:E;
      simpl; eapply call_counts; exact E.
  - unfold CoreRpcMethods.getWalletInfo.
    destruct (call "getwalletinfo" [] true st) as [[info|e] st1] eqn:E; simpl.
    + destruct (truthy info); [destruct (get info "hdseedid")|]; simpl;
        eapply call_counts; exact E.
    + eapply call_counts; exact E.
Qed.

(** X3. [getVersion] returns the [version] member of the network
    information. Unlike [call], it can throw an error that is neither an
    HttpException nor an InternalServerException: it throws a bare
    TypeError exactly when the request returned [null] or [undefined], as
    it does for a response without a [result] member. Whatever else it
    throws, the request threw. *)
Theorem getVersion_outcome st :
  (forall version,
      fst (getVersion st) = Return version <->
      exists info,
        fst (getNetworkInfo st) = Return info /\
        get info "version" = Some version) /\
  (fst (getVersion st) = Throw TypeError <->
   fst (getNetworkInfo st) = Return VNull \/
   fst (getNetworkInfo st) = Return VUndefined) /\
  (forall e,
      fst (getVersion st) = Throw e -> e <> TypeError ->
      fst (getNetworkInfo st) = Throw e /\ of_call e).
Proof.
  unfold CoreRpcMethods.getVersion, then_, CoreRpcMethods.getNetworkInfo.
  destruct (call "getnetworkinfo" [] false st) as [[info|e] st1] eqn:E; simpl.
  - split; [|split].
    + intros version. destruct (get info "version") as [v|] eqn:G.
      * split.
        -- intros [= <-]. eauto.
        -- intros (info' & [= <-] & G'). congruence.
      * split; [discriminate|]. intros (info' & [= <-] & G'). congruence.
    + destruct info; simpl; split; auto; try discriminate;
        intros [H|H]; discriminate.
    + intros e. destruct (get info "version"); [discriminate|].
      intros [= <-] H. contradiction.
  - apply call_throws in E as Hcall. split; [|split].
    + intros version. split; [discriminate|]. intros (info & H & _). discriminate.
    + split.
      * intros [= ->]. now apply not_TypeError in Hcall.
      * intros [H|H]; discriminate.
    + intros e' [= <-] _. auto.
Qed.

(** X4. [signMessage] and [verifyMessage] throw a bare TypeError exactly
    when the message is [undefined], and then they make no request: the
    state of the client and of the network is left as it was. For every
    other message they make exactly one request. *)
Theorem signMessage_of_undefined address signature message st :
  (fst (signMessage address message st) = Throw TypeError <->
   message = VUndefined) /\
  (fst (verifyMessage address signature message st) = Throw TypeError <->
   message = VUndefined) /\
  match stringify message with
  | Some text =>
      RPC_REQUEST_ID (snd (signMessage address message st))
        = RPC_REQUEST_ID st + 1 /\
      RPC_REQUEST_ID (snd (verifyMessage address signature message st))
        = RPC_REQUEST_ID st + 1
  | None =>
      snd (signMessage address message st) = st /\
      snd (verifyMessage address signature message st) = st
  end.
Proof.
  unfold CoreRpcService.signMessage, CoreRpcService.verifyMessage.
  destruct (stringify message) as [text|] eqn:S.
  - assert (message <> VUndefined) as Hm.
    { intros ->. discriminate. }
    split; [|split; [|split]].
    + split; [|contradiction].
      destruct (call _ _ _ st) as [[r|e] st1] eqn:E; simpl; [discriminate|].
      intros [= ->]. apply call_throws, not_TypeError in E. contradiction.
    + split; [|contradiction].
      destruct (call _ _ _ st) as [[r|e] st1] eqn:E; simpl; [discriminate|].
      intros [= ->]. apply call_throws, not_TypeError in E. contradiction.
    + apply CoreRpcFacts.call_state.
    + apply CoreRpcFacts.call_state.
  - apply stringify_undefined in S. subst message.
    repeat split; reflexivity.
Qed.

(** X6. An optional argument that is falsy is not sent: the request is
    the one made when the argument is left out. This holds for the account
    of [addMultiSigAddress], the outputs of [signRawTransactionWithWallet]
    and of [signRawTransaction], the previous outputs and the signature
    hash type of [signRawTransactionWithKey] and the address filter of
    [listReceivedByAddress]. *)
Theorem falsy_optional_arguments_are_left_out (optional : value) :
  truthy optional = false ->
  (forall nrequired keys,
      CoreRpcMethods.addMultiSigAddress Net post nrequired keys optional
      = CoreRpcMethods.addMultiSigAddress Net post nrequired keys VUndefined) /\
  (forall hexstring,
      CoreRpcMethods.signRawTransactionWithWallet Net post hexstring optional
      = CoreRpcMethods.signRawTransactionWithWallet Net post hexstring VUndefined) /\
  (forall hexstring,
      CoreRpcMethods.signRawTransaction Net post hexstring optional
      = CoreRpcMethods.signRawTransaction Net post hexstring VUndefined) /\
  (forall hexstring privkeys sighashtype,
      CoreRpcMethods.signRawTransactionWithKey Net post hexstring privkeys
        optional sighashtype
      = CoreRpcMethods.signRawTransactionWithKey Net post hexstring privkeys
          VUndefined sighashtype) /\
  (forall hexstring privkeys prevtxs,
      CoreRpcMethods.signRawTransactionWithKey Net post hexstring privkeys
        prevtxs optional
      = CoreRpcMethods.signRawTransactionWithKey Net post hexstring privkeys
          prevtxs VUndefined) /\
  (forall minconf includeEmpty includeWatchOnly,
      CoreRpcMethods.listReceivedByAddress Net post minconf includeEmpty
        includeWatchOnly optional
      = CoreRpcMethods.listReceivedByAddress Net post minconf includeEmpty
          includeWatchOnly VUndefined).
Proof.
  intros T.
  unfold CoreRpcMethods.addMultiSigAddress,
    CoreRpcMethods.signRawTransactionWithWallet,
    CoreRpcMethods.signRawTransaction,
    CoreRpcMethods.signRawTransactionWithKey,
    CoreRpcMethods.listReceivedByAddress.
  rewrite T. simpl. repeat split; reflexivity.
Qed.

(** X7. The optional arguments are sent by position in the list that is
    built, not by name. With the previous outputs left out,
    [signRawTransactionWithKey] sends the signature hash type in the third
    place, where the previous outputs belong; with [verbose] left out,
    [getRawTransaction] sends the block hash in the second place. *)
Theorem optional_arguments_shift (given : value) :
  (truthy given = true ->
   forall hexstring privkeys falsy,
     truthy falsy = false ->
     CoreRpcMethods.signRawTransactionWithKey Net post hexstring privkeys
       falsy given
     = CoreRpcMethods.signRawTransactionWithKey Net post hexstring privkeys
         given falsy) /\
  (forall txid,
      CoreRpcMethods.getRawTransaction Net post txid VUndefined given
      = CoreRpcMethods.getRawTransaction Net post txid given VUndefined).
Proof.
  unfold CoreRpcMethods.signRawTransactionWithKey,
    CoreRpcMethods.getRawTransaction.
  split.
  - intros T hexstring privkeys falsy F. rewrite T, F. reflexivity.
  - intros txid. destruct given; reflexivity.
Qed.

Lemma call_one_request method params logCall :
  one_request (call method params logCall).
Proof.
  intros st. split; [apply CoreRpcFacts.call_state|].
  intros e H. destruct (call method params logCall st) as [o st'] eqn:E.
  simpl in H. subst o. eapply call_throws; exact E.
Qed.

(** X8. Each of the methods that wrap one daemon command makes exactly one
    request, whatever arguments it is given and however the request
    ends, and throws nothing but the HttpException or the
    InternalServerException of [call]. *)
Theorem wrappers_make_one_request :
  one_request getNetworkInfo /\
  one_request getWalletInfo /\
  one_request (CoreRpcMethods.getBlockchainInfo Net post) /\
  (forall addresses logCall,
      one_request (CoreRpcMethods.getAddressBalance Net post addresses logCall)) /\
  (forall minconf includeEmpty includeWatchOnly addressFilter,
      one_request (CoreRpcMethods.listReceivedByAddress Net post minconf
                     includeEmpty includeWatchOnly addressFilter)) /\
  (forall address, one_request (CoreRpcMethods.getAddressInfo Net post address)) /\
  (forall nrequired keys account,
      one_request (CoreRpcMethods.addMultiSigAddress Net post nrequired keys
                     account)) /\
  (forall inputs outputs,
      one_request (CoreRpcMethods.createRawTransaction Net post inputs outputs)) /\
  (forall hexstring outputs,
      one_request (CoreRpcMethods.signRawTransactionWithWallet Net post
                     hexstring outputs)) /\
  (forall hexstrings,
      one_request (CoreRpcMethods.combineRawTransaction Net post hexstrings)) /\
  (forall hexstring privkeys prevtxs sighashtype,
      one_request (CoreRpcMethods.signRawTransactionWithKey Net post hexstring
                     privkeys prevtxs sighashtype)) /\
  (forall hexstring outputs,
      one_request (CoreRpcMethods.signRawTransaction Net post hexstring outputs)) /\
  (forall hexstring allowHighFees,
      one_request (CoreRpcMethods.sendRawTransaction Net post hexstring
                     allowHighFees)) /\
  (forall hexstring isWitness,
      one_request (CoreRpcMethods.decodeRawTransaction Net post hexstring
                     isWitness)) /\
  (forall txid verbose blockhash,
      one_request (CoreRpcMethods.getRawTransaction Net post txid verbose
                     blockhash)) /\
  (forall minconf maxconf addresses includeUnsafe queryOptions,
      one_request (CoreRpcMethods.listUnspent Net post minconf maxconf addresses
                     includeUnsafe queryOptions)) /\
  (forall unlock outputs,
      one_request (CoreRpcMethods.lockUnspent Net post unlock outputs)) /\
  (forall account, one_request (CoreRpcMethods.getAccountAddress Net post account)) /\
  one_request (CoreRpcMethods.getBlockCount Net post) /\
  (forall address, one_request (CoreRpcMethods.dumpPrivKey Net post address)).
Proof.
  repeat apply conj; intros;
    unfold CoreRpcMethods.getNetworkInfo, CoreRpcMethods.getWalletInfo,
      CoreRpcMethods.getBlockchainInfo, CoreRpcMethods.getAddressBalance,
      CoreRpcMethods.listReceivedByAddress, CoreRpcMethods.getAddressInfo,
      CoreRpcMethods.addMultiSigAddress, CoreRpcMethods.createRawTransaction,
      CoreRpcMethods.signRawTransactionWithWallet,
      CoreRpcMethods.combineRawTransaction,
      CoreRpcMethods.signRawTransactionWithKey,
      CoreRpcMethods.signRawTransaction, CoreRpcMethods.sendRawTransaction,
      CoreRpcMethods.decodeRawTransaction, CoreRpcMethods.getRawTransaction,
      CoreRpcMethods.listUnspent, CoreRpcMethods.lockUnspent,
      CoreRpcMethods.getAccountAddress, CoreRpcMethods.getBlockCount,
      CoreRpcMethods.dumpPrivKey;
    cbv zeta;
    repeat match goal with
           | |- context [if ?b then _ else _] => destruct b
           end;
    apply call_one_request.
Qed.

End Daemon.

(** ** The url *)

(** X9. The url that [getUrl] builds depends on the host, the wallet and
    one port variable only: [RPC_PORT] when it is set, whatever the
    network; otherwise the port variable of the network, where the
    regression-test network is asked for before the test network. A
    variable that holds the empty string counts as unset. *)
Theorem getUrl_reads_one_port (env env' : ProcessEnv) :
  truthy_string (RPCHOSTNAME env) = truthy_string (RPCHOSTNAME env') ->
  truthy_string (WALLET env) = truthy_string (WALLET env') ->
  (exists port,
      truthy_string (RPC_PORT env) = Some port /\
      truthy_string (RPC_PORT env') = Some port) \/
  (truthy_string (RPC_PORT env) = None /\
   truthy_string (RPC_PORT env') = None /\
   ((Environment_isRegtest env = true /\ Environment_isRegtest env' = true /\
     truthy_string (REGTEST_PORT env) = truthy_string (REGTEST_PORT env')) \/
    (Environment_isRegtest env = false /\ Environment_isRegtest env' = false /\
     Environment_isTestnet env = true /\ Environment_isTestnet env' = true /\
     truthy_string (TESTNET_PORT env) = truthy_string (TESTNET_PORT env')) \/
    (Environment_isRegtest env = false /\ Environment_isRegtest env' = false /\
     Environment_isTestnet env = false /\ Environment_isTestnet env' = false /\
     truthy_string (MAINNET_PORT env) = truthy_string (MAINNET_PORT env')))) ->
  getUrl env = getUrl env'.
Proof.
  intros Hhost Hwallet Hport. unfold getUrl, or_else.
  rewrite Hhost, Hwallet. f_equal. f_equal. f_equal. f_equal.
  destruct Hport as [(port & -> & ->)|(-> & -> & Hnet)]; [reflexivity|].
  destruct Hnet as [(-> & -> & ->)|[(-> & -> & -> & -> & ->)|(-> & -> & -> & -> & ->)]];
    reflexivity.
Qed.

Lemma getUrl_reads_one_port_witness :
  getUrl on_testnet = getUrl on_mainnet /\
  getUrl on_testnet = "http://localhost:51936/wallet/market".
Proof.
  split; [|reflexivity].
  apply getUrl_reads_one_port; [reflexivity | reflexivity|].
  left. exists "51936". split; reflexivity.
Defined.

Lemma getNewAddress_two_requests_witness :
  getNewAddress _ scripted_post [] true hands_out_address
  = (Return (VStr "pXvYNzP4UAWnzRkGhZTpKDQbjEUhW8UHqC"), mkState 9 []) /\
  getNewAddress _ scripted_post [] true fails_to_register
  = (Throw (InternalServerException
              (RpcError (VNum (-1)) (VStr "Invalid address."))),
     mkState 9 []).
Proof.
  split.
  - apply (proj1 (getNewAddress_two_requests _ scripted_post [] hands_out_address)).
    exists (mkState 8 [ok "{'result':'Receiving messages enabled for address.','error':null,'id':8}"]),
      (VStr "Receiving messages enabled for address.").
    repeat split; reflexivity.
  - apply (proj1 (proj2 (getNewAddress_two_requests _ scripted_post []
                           fails_to_register))).
    right.
    exists (VStr "pXvYNzP4UAWnzRkGhZTpKDQbjEUhW8UHqC"),
      (mkState 8 [ok "{'result':null,'error':{'code':-1,'message':'Invalid address.'},'id':8}"]).
    repeat split; reflexivity.
Defined.

Lemma isConnected_hasWallet_never_throw_witness :
  (exists connected,
      fst (isConnected _ scripted_post unreachable) = Return (VBool connected) /\
      (connected = true <->
       exists info, fst (getNetworkInfo _ scripted_post unreachable) = Return info)) /\
  (exists wallet,
      fst (hasWallet _ scripted_post has_seed) = Return wallet /\
      (truthy wallet = true <->
       exists info hdseedid,
         fst (getWalletInfo _ scripted_post has_seed) = Return info /\
         truthy info = true /\
         get info "hdseedid" = Some hdseedid /\ truthy hdseedid = true) /\
      (forall error,
          fst (getWalletInfo _ scripted_post has_seed) = Throw error ->
          wallet = VBool false) /\
      (forall info,
          fst (getWalletInfo _ scripted_post has_seed) = Return info ->
          wallet = if truthy info
                   then match get info "hdseedid" with
                        | Some hdseedid => hdseedid
                        | None => VUndefined
                        end
                   else info)).
Proof.
  split.
  - exact (proj1 (isConnected_hasWallet_never_throw _ scripted_post unreachable)).
  - exact (proj1 (proj2 (isConnected_hasWallet_never_throw _ scripted_post
                           has_seed))).
Defined.

Lemma getVersion_outcome_witness :
  fst (getVersion _ scripted_post answers_null) = Throw TypeError.
Proof.
  apply (proj1 (proj2 (getVersion_outcome _ scripted_post answers_null))).
  left. reflexivity.
Defined.

Lemma signMessage_of_undefined_witness :
  fst (signMessage _ scripted_post example_address VUndefined signing)
  = Throw TypeError /\
  fst (verifyMessage _ scripted_post example_address "H7sGk3w=" VUndefined
         verifying)
  = Throw TypeError.
Proof.
  split.
  - now apply (proj1 (signMessage_of_undefined _ scripted_post example_address
                        "H7sGk3w=" VUndefined signing)).
  - now apply (proj1 (proj2 (signMessage_of_undefined _ scripted_post
                               example_address "H7sGk3w=" VUndefined verifying))).
Defined.

Lemma signable_iff_permutation_witness :
  Permutation (split_chars (dq "{'a':'b'}")) (split_chars (dq "{'b':'a'}")) /\
  String.length (signable (dq "{'a':'b'}")) = 17%nat.
Proof.
  split.
  - now apply (proj1 (signable_iff_permutation (dq "{'a':'b'}") (dq "{'b':'a'}"))).
  - exact (proj2 (signable_iff_permutation (dq "{'a':'b'}") (dq "{'b':'a'}"))).
Defined.

Lemma optional_arguments_shift_witness :
  signRawTransactionWithKey _ scripted_post
    (VStr "0200") (VArr [VStr "key"]) VNull (VStr "ALL")
  = signRawTransactionWithKey _ scripted_post
      (VStr "0200") (VArr [VStr "key"]) (VStr "ALL") VNull.
Proof.
  now apply (proj1 (optional_arguments_shift (list post_result) scripted_post
                      (VStr "ALL"))).
Defined.

Lemma wrappers_make_one_request_witness :
  RPC_REQUEST_ID (snd (getBlockCount _ scripted_post unreachable)) = 2 /\
  forall e,
    fst (getBlockCount _ scripted_post unreachable) = Throw e -> of_call e.
Proof.
  exact (proj1 (proj2 (proj2 (proj2 (proj2 (proj2 (proj2 (proj2 (proj2 (proj2
           (proj2 (proj2 (proj2 (proj2 (proj2 (proj2 (proj2 (proj2 (proj2
              (wrappers_make_one_request (list post_result) scripted_post)))))))))))))))))))
           unreachable).
Defined.

Lemma falsy_optional_arguments_are_left_out_witness :
  CoreRpcMethods.listReceivedByAddress _ scripted_post
    (VNum 1) (VBool false) (VBool false) (VStr "")
  = CoreRpcMethods.listReceivedByAddress _ scripted_post
      (VNum 1) (VBool false) (VBool false) VUndefined.
Proof.
  apply (falsy_optional_arguments_are_left_out (list post_result) scripted_post
           (VStr "")).
  reflexivity.
Defined.

End CoreRpcMethodFacts.

(* ================================================================== *)
(** * Properties of the generators of TestDataService *)
(* ================================================================== *)

Module GeneratorFacts.
Import TestDataService CallLog TestDataFacts.

(** ** Reading a log in pieces *)

Lemma collect_app {A} (read : Event -> option A) (l1 l2 : list Event) :
  collect read (l1 ++ l2) = (collect read l1 ++ collect read l2)%list.
Proof. unfold collect. apply flat_map_app. Qed.

Lemma collect_none {A} (read : Event -> option A) (calls : list Event) :
  Forall (fun e => read e = None) calls -> collect read calls = [].
Proof.
  induction 1 as [|e calls He _ IH]; [reflexivity|].
  unfold collect in *. simpl. now rewrite He, IH.
Qed.

Section Facts.

Variable W : Type.
Variable handler : forall T, Op T -> M W T.
Variable ObjectHash_getHash : Hashable -> HashableObjectType.t -> string.
Variable new_GenerateListingItemTemplateParams :
  option value -> GenerateListingItemTemplateParams.t.
Variable new_GenerateListingItemParams : option value -> GenerateListingItemParams.t.
Variable new_GenerateBidParams : option value -> GenerateBidParams.t.
Variable new_GenerateOrderParams : option value -> GenerateOrderParams.t.
Variable new_GenerateProposalParams : option value -> GenerateProposalParams.t.
Variable bidDatas_literal : value.

#[local] Abbreviation St := (TestDataService.St W).
#[local] Abbreviation invoke := (TestDataService.invoke W handler).
#[local] Abbreviation emits := (TestDataService.emits W).
#[local] Abbreviation create := (TestDataService.create W handler).
#[local] Abbreviation generate :=
  (TestDataService.generate W handler ObjectHash_getHash
     new_GenerateListingItemTemplateParams new_GenerateListingItemParams
     new_GenerateBidParams new_GenerateOrderParams new_GenerateProposalParams
     bidDatas_literal).
#[local] Abbreviation generateListingItemTemplates :=
  (TestDataService.generateListingItemTemplates W handler).
#[local] Abbreviation generateListingItemData :=
  (TestDataService.generateListingItemData W handler).
#[local] Abbreviation generateListingItems :=
  (TestDataService.generateListingItems W handler).
#[local] Abbreviation generateBidData :=
  (TestDataService.generateBidData W handler bidDatas_literal).
#[local] Abbreviation generateBids :=
  (TestDataService.generateBids W handler new_GenerateListingItemTemplateParams
     new_GenerateListingItemParams bidDatas_literal).
#[local] Abbreviation generateOrders :=
  (TestDataService.generateOrders W handler new_GenerateListingItemTemplateParams
     new_GenerateListingItemParams new_GenerateBidParams bidDatas_literal).
#[local] Abbreviation generateProposalData :=
  (TestDataService.generateProposalData W handler ObjectHash_getHash).
#[local] Abbreviation generateVotesForProposal :=
  (TestDataService.generateVotesForProposal W handler).
#[local] Abbreviation generateProposals :=
  (TestDataService.generateProposals W handler ObjectHash_getHash).

(** ** How many records a generator resolves with *)

Lemma push_each_length {A} (body : M St A) rounds items0 s items s' :
  push_each W rounds body items0 s = (Return items, s') ->
  List.length items = (List.length items0 + rounds)%nat.
Proof.
  revert items0 s. induction rounds as [|n IH]; intros items0 s H; simpl in H.
  - apply ret_return in H as [<- _]. lia.
  - apply bind_return in H as (x & s1 & _ & H).
    apply IH in H. rewrite H, length_app. simpl. lia.
Qed.

Lemma generateResponse_count {T} `{HasId T} (items : list T) withRelated s result s' :
  generateResponse W items withRelated s = (Return result, s') ->
  count result = List.length items /\ s' = s.
Proof.
  destruct withRelated; simpl; intros E; apply ret_return in E as [<- <-];
    simpl; auto using length_map.
Qed.

Lemma generateResponse_respond {T} `{HasId T} (items : list T) withRelated s
    result s' :
  generateResponse W items withRelated s = (Return result, s') ->
  result = respond withRelated items /\ s' = s.
Proof.
  destruct withRelated; simpl; intros E; apply ret_return in E as [<- <-]; auto.
Qed.

Lemma for_amount_response_count {T A} `{HasId T} amount (body : M St T)
    withRelated (k : Generated T withRelated -> M St A) s a s' :
  (items <- for_amount W amount body ;;
   result <- generateResponse W items withRelated ;; k result) s = (Return a, s') ->
  exists result s1,
    count result = Z.to_nat amount /\ k result s1 = (Return a, s').
Proof.
  intros E. apply bind_return in E as (items & s1 & Hloop & E).
  apply bind_return in E as (result & s2 & Hresponse & E).
  apply push_each_length in Hloop.
  apply generateResponse_count in Hresponse as [Hcount ->].
  exists result, s1. split; [simpl in Hloop; lia | exact E].
Qed.

Lemma generateListingItemTemplates_count amount withRelated generateParams s
    result s' :
  generateListingItemTemplates amount withRelated generateParams s
    = (Return result, s') ->
  count result = Z.to_nat amount.
Proof.
  intros E. unfold TestDataService.generateListingItemTemplates in E.
  apply bind_return in E as (items & s1 & Hloop & E).
  apply push_each_length in Hloop.
  apply generateResponse_count in E as [-> _]. simpl in Hloop. lia.
Qed.

Lemma generateListingItems_count amount withRelated generateParams s result s' :
  generateListingItems amount withRelated generateParams s = (Return result, s') ->
  count result = Z.to_nat amount.
Proof.
  intros E. unfold TestDataService.generateListingItems in E.
  apply bind_return in E as (items & s1 & Hloop & E).
  apply push_each_length in Hloop.
  apply generateResponse_count in E as [-> _]. simpl in Hloop. lia.
Qed.

Lemma generateBids_count amount withRelated generateParams s result params' s' :
  generateBids amount withRelated generateParams s
    = (Return (result, params'), s') ->
  count result = Z.to_nat amount.
Proof.
  intros E. unfold TestDataService.generateBids in E.
  apply bind_return in E as (itemParams & s1 & _ & E).
  apply bind_return in E as (bidParams & s2 & _ & E).
  apply for_amount_response_count in E as (r & s3 & Hcount & E).
  apply ret_return in E as [[= <- _] _]. exact Hcount.
Qed.

Lemma generateOrders_count amount withRelated generateParams s result params' s' :
  generateOrders amount withRelated generateParams s
    = (Return (result, params'), s') ->
  count result = Z.to_nat amount.
Proof.
  intros E. unfold TestDataService.generateOrders in E.
  apply bind_return in E as (bid & s1 & _ & E).
  apply for_amount_response_count in E as (r & s3 & Hcount & E).
  apply ret_return in E as [[= <- _] _]. exact Hcount.
Qed.

Lemma generateProposals_count amount withRelated generateParams s result s' :
  generateProposals amount withRelated generateParams s = (Return result, s') ->
  count result = Z.to_nat amount.
Proof.
  intros E. unfold TestDataService.generateProposals in E.
  destruct (GenerateProposalParams.generateListingItemTemplate generateParams);
    [discriminate|].
  destruct (GenerateProposalParams.generateListingItem generateParams);
    [discriminate|].
  apply bind_return in E as (items & s1 & Hloop & E).
  apply push_each_length in Hloop.
  apply generateResponse_count in E as [-> _]. simpl in Hloop. lia.
Qed.

(** X10. A call of [generate] that returns for the model of listing item
    templates, listing items, bids, orders or proposals resolves with
    exactly [amount] records, or ids of records when [withRelated] is
    unset; with none when the amount is zero or negative. Only for action
    messages and profiles is the result that of a generator which is not
    opened here. *)
Theorem generate_amount body s result s' :
  generate body s = (Return result, s') ->
  match records result with
  | Some n => n = Z.to_nat (TestDataGenerateRequest.amount body)
  | None =>
      TestDataGenerateRequest.model body = ACTIONMESSAGE \/
      TestDataGenerateRequest.model body = PROFILE
  end.
Proof.
  intros E. unfold TestDataService.generate in E.
  apply bind_return in E as ([] & s1 & _ & E).
  destruct (TestDataGenerateRequest.model body); try discriminate E;
    apply bind_return in E as (r & s2 & Hgen & E);
    apply ret_return in E as [<- _]; simpl; auto.
  - eapply generateListingItemTemplates_count; exact Hgen.
  - eapply generateListingItems_count; exact Hgen.
  - destruct r as [items params']. eapply generateBids_count; exact Hgen.
  - destruct r as [items params']. eapply generateOrders_count; exact Hgen.
  - eapply generateProposals_count; exact Hgen.
Qed.

(** ** Proposals *)

(** X11. [generateProposals] does not generate templates or listing
    items: with either switch set it throws the NotImplementedException,
    whose message is 'Not implemented.' and whose code is 404, before any
    call is made, so that [generate] has then made the call of the
    validation only and has created nothing. *)
Theorem generateProposals_not_implemented amount withRelated generateParams :
  GenerateProposalParams.generateListingItemTemplate generateParams = true \/
  GenerateProposalParams.generateListingItem generateParams = true ->
  (forall s,
      generateProposals amount withRelated generateParams s
        = (Throw NotImplementedException, s)) /\
  (forall body s w1,
      TestDataGenerateRequest.model body = PROPOSAL ->
      TestDataGenerateRequest.amount body = amount ->
      new_GenerateProposalParams (Some (TestDataGenerateRequest.generateParams body))
        = generateParams ->
      handler unit (Validate_TestDataGenerateRequest body) (world s)
        = (Return tt, w1) ->
      generate body s =
        (Throw NotImplementedException,
         mkSt w1 (log s ++ [Ev (Validate_TestDataGenerateRequest body) (Return tt)]))) /\
  Exceptions.code NotImplementedException = Some 404 /\
  Exceptions.message NotImplementedException = Some "Not implemented." /\
  Exceptions.instanceof_MessageException NotImplementedException = true.
Proof.
  intros Hswitch.
  assert (forall b s,
             TestDataService.generateProposals W handler ObjectHash_getHash
               amount b generateParams s = (Throw NotImplementedException, s))
    as Hthrows.
  { intros b s. unfold TestDataService.generateProposals.
    destruct Hswitch as [-> | ->]; [reflexivity|].
    destruct (GenerateProposalParams.generateListingItemTemplate generateParams);
      reflexivity. }
  repeat split.
  - apply Hthrows.
  - intros body s w1 Hmodel Hamount Hparams Hvalid.
    unfold TestDataService.generate, bind, TestDataService.invoke.
    rewrite Hvalid, Hmodel, Hparams, Hamount, Hthrows. reflexivity.
Qed.

(** The calls and the result of a run of [generateProposalData]. *)
Lemma generateProposalData_run generateParams s request s' :
  generateProposalData generateParams s = (Return request, s') ->
  let past := GenerateProposalParams.generatePastProposal generateParams in
  let item := truthy_string (GenerateProposalParams.listingItemHash generateParams) in
  exists before submitter title description currentTime timeStart timeEnd,
    log s'
    = (log s ++ before
         ++ [Ev Date_getTime (Return currentTime);
             Ev (Lodash_random (fst (start_bounds past (inject_Z currentTime)))
                   (snd (start_bounds past (inject_Z currentTime))))
               (Return timeStart);
             Ev (Lodash_random (fst (end_bounds past (inject_Z currentTime)))
                   (snd (end_bounds past (inject_Z currentTime))))
               (Return timeEnd)])%list /\
    (let type := match item with Some _ => ITEM_VOTE | None => PUBLIC_VOTE end in
     let hash :=
       ObjectHash_getHash
         (HashProposalCreateRequest
            (ProposalCreateRequest.mk submitter type item title description
               timeStart timeStart timeStart timeEnd None []))
         HashableObjectType.PROPOSAL_CREATEREQUEST in
     request
     = ProposalCreateRequest.mk submitter type item title description
         timeStart timeStart timeStart timeEnd (Some hash)
         [ProposalOptionCreateRequest.mk hash 0 KEEP;
          ProposalOptionCreateRequest.mk hash 1 REMOVE]) /\
    (forall hash, item = Some hash -> title = hash /\ description = "ILLEGAL ITEM") /\
    match truthy_string (GenerateProposalParams.submitter generateParams) with
    | Some given => submitter = VStr given
    | None =>
        exists defaultProfile,
          In (Ev ProfileService_getDefault (Return defaultProfile)) before /\
          submitter = Profile.address defaultProfile
    end.
Proof.
  intros H past item. unfold TestDataService.generateProposalData in H.
  fold item in H. fold past in H.
  apply bind_return in H as (submitter & s1 & Hsubmitter & H).
  assert (exists c1,
             log s1 = (log s ++ c1)%list /\
             match truthy_string (GenerateProposalParams.submitter generateParams) with
             | Some given => submitter = VStr given
             | None =>
                 exists defaultProfile,
                   In (Ev ProfileService_getDefault (Return defaultProfile)) c1 /\
                   submitter = Profile.address defaultProfile
             end) as (c1 & Hlog1 & Hsub).
  { destruct (truthy_string (GenerateProposalParams.submitter generateParams)).
    - apply ret_return in Hsubmitter as [<- <-]. exists [].
      now rewrite app_nil_r.
    - apply bind_invoke in Hsubmitter as (p & w & _ & Hs).
      apply ret_return in Hs as [<- <-]. simpl. eexists. split; [reflexivity|].
      exists p. simpl. auto. }
  clear Hsubmitter.
  apply bind_return in H as (title & s2 & Htitle & H).
  assert (exists c2, log s2 = (log s1 ++ c2)%list /\
                     forall hash, item = Some hash -> title = hash)
    as (c2 & Hlog2 & Ht).
  { destruct item as [hash|].
    - apply ret_return in Htitle as [<- <-]. exists [].
      rewrite app_nil_r. split; [reflexivity|]. now intros ? [= <-].
    - apply invoke_return in Htitle as (w & _ & ->). simpl.
      eexists. split; [reflexivity | discriminate]. }
  clear Htitle.
  apply bind_return in H as (description & s3 & Hdescription & H).
  assert (exists c3, log s3 = (log s2 ++ c3)%list /\
                     forall hash, item = Some hash -> description = "ILLEGAL ITEM")
    as (c3 & Hlog3 & Hd).
  { destruct item as [hash|].
    - apply ret_return in Hdescription as [<- <-]. exists [].
      rewrite app_nil_r. split; [reflexivity|]. reflexivity.
    - apply invoke_return in Hdescription as (w & _ & ->). simpl.
      eexists. split; [reflexivity | discriminate]. }
  clear Hdescription.
  apply bind_invoke in H as (currentTime & w4 & _ & H).
  apply bind_return in H as (timeStart & s5 & HtimeStart & H).
  apply bind_return in H as (timeEnd & s6 & HtimeEnd & H).
  apply ret_return in H as [<- <-].
  exists (c1 ++ c2 ++ c3)%list, submitter, title, description, currentTime,
    timeStart, timeEnd.
  split; [|split; [reflexivity|split]].
  - unfold start_bounds, end_bounds. destruct past;
      apply invoke_return in HtimeStart as (w5 & _ & ->);
      apply invoke_return in HtimeEnd as (w6 & _ & ->);
      simpl; rewrite Hlog3, Hlog2, Hlog1, <- !app_assoc; reflexivity.
  - intros hash E. split; eauto.
  - destruct (truthy_string (GenerateProposalParams.submitter generateParams));
      [exact Hsub|].
    destruct Hsub as (p & Hin & Hp). exists p. split; [|exact Hp].
    apply in_or_app. now left.
Qed.

(** X12. A past proposal has expired by the time it is generated, and a
    future one has not started: for the clock reading [now] of the run,
    the request of a future proposal starts between [now + 100] and
    [now + 1000] and expires between [now + 1001] and [now + 2000]; the
    request of a past proposal starts between 1 and [now / 2] and expires
    between [now / 2 + 100] and [now - 1000], when the clock reads at
    least 2200. Lodash is taken to draw between the bounds it is given. *)
Theorem generateProposalData_window generateParams s request s' calls :
  generateProposalData generateParams s = (Return request, s') ->
  log s' = (log s ++ calls)%list ->
  Forall draw_in_range calls ->
  exists currentTime,
    In (Ev Date_getTime (Return currentTime)) calls /\
    let now := inject_Z currentTime in
    let timeStart := ProposalCreateRequest.timeStart request in
    let expiredAt := ProposalCreateRequest.expiredAt request in
    if GenerateProposalParams.generatePastProposal generateParams
    then 2200 <= currentTime ->
         (1 <= timeStart /\ timeStart <= now / 2 /\
          now / 2 + 100 <= expiredAt /\ expiredAt <= now - 1000 /\
          expiredAt < now)%Q
    else (now + 100 <= timeStart /\ timeStart <= now + 1000 /\
          now + 1001 <= expiredAt /\ expiredAt <= now + 2000 /\
          now < timeStart)%Q.
Proof.
  intros H Hlog Hdraws.
  apply generateProposalData_run in H
    as (before & submitter & title & description & currentTime & timeStart
        & timeEnd & L & -> & _).
  rewrite L in Hlog. apply app_inv_head in Hlog. subst calls.
  exists currentTime. split; [apply in_or_app; right; simpl; auto|].
  cbn [ProposalCreateRequest.timeStart ProposalCreateRequest.expiredAt].
  cbv zeta.
  remember (inject_Z currentTime) as now eqn:Enow.
  destruct (GenerateProposalParams.generatePastProposal generateParams);
    unfold start_bounds, end_bounds in Hdraws; cbn [fst snd] in Hdraws.
  - intros Hclock.
    assert (2200 <= now)%Q as Hnow.
    { subst now. rewrite Zle_Qle in Hclock. exact Hclock. }
    clear Enow. unfold Qdiv in *. change (/ 2)%Q with (1 # 2)%Q in *.
    assert (1 <= timeStart /\ timeStart <= now * (1 # 2))%Q as [H1 H2].
    { eapply draw_between; [exact Hdraws | | lra].
      apply in_or_app; right; simpl; auto. }
    assert (now * (1 # 2) + 100 <= timeEnd /\ timeEnd <= now - 1000)%Q
      as [H3 H4].
    { eapply draw_between; [exact Hdraws | | lra].
      apply in_or_app; right; simpl; auto. }
    repeat split; try assumption. lra.
  - clear Enow.
    assert (now + 100 <= timeStart /\ timeStart <= now + 1000)%Q as [H1 H2].
    { eapply draw_between; [exact Hdraws | | lra].
      apply in_or_app; right; simpl; auto. }
    assert (now + 1001 <= timeEnd /\ timeEnd <= now + 2000)%Q as [H3 H4].
    { eapply draw_between; [exact Hdraws | | lra].
      apply in_or_app; right; simpl; auto. }
    repeat split; try assumption. lra.
Qed.

(** X13. Every request that [generateProposalData] returns offers the two
    options KEEP, numbered 0, and REMOVE, numbered 1, both under the hash
    that the request carries, which is the hash of the request as it was
    before the hash and the options were set. It is posted and received
    when it starts. It is an item vote exactly when a listing item hash
    was given, which is then its item and its title; without one it is a
    public vote on no item. A submitter that is given is the submitter of
    the request. *)
Theorem generateProposalData_request generateParams s request s' :
  generateProposalData generateParams s = (Return request, s') ->
  (exists hash,
      ProposalCreateRequest.hash request = Some hash /\
      hash = ObjectHash_getHash (HashProposalCreateRequest (before_hashing request))
               HashableObjectType.PROPOSAL_CREATEREQUEST /\
      ProposalCreateRequest.options request
      = [ProposalOptionCreateRequest.mk hash 0 KEEP;
         ProposalOptionCreateRequest.mk hash 1 REMOVE]) /\
  ProposalCreateRequest.postedAt request = ProposalCreateRequest.timeStart request /\
  ProposalCreateRequest.receivedAt request = ProposalCreateRequest.timeStart request /\
  ProposalCreateRequest.item request
  = truthy_string (GenerateProposalParams.listingItemHash generateParams) /\
  match ProposalCreateRequest.item request with
  | Some hash =>
      ProposalCreateRequest.type request = ITEM_VOTE /\
      ProposalCreateRequest.title request = hash /\
      ProposalCreateRequest.description request = "ILLEGAL ITEM"
  | None => ProposalCreateRequest.type request = PUBLIC_VOTE
  end /\
  (forall given,
      truthy_string (GenerateProposalParams.submitter generateParams) = Some given ->
      ProposalCreateRequest.submitter request = VStr given).
Proof.
  intros H.
  apply generateProposalData_run in H
    as (before & submitter & title & description & currentTime & timeStart
        & timeEnd & _ & -> & Hitem & Hsub).
  split; [eexists; split; [reflexivity|]; split; reflexivity|].
  split; [reflexivity|]. split; [reflexivity|]. split; [reflexivity|].
  cbn [ProposalCreateRequest.item ProposalCreateRequest.type
       ProposalCreateRequest.title ProposalCreateRequest.description
       ProposalCreateRequest.submitter].
  split.
  - destruct (truthy_string (GenerateProposalParams.listingItemHash generateParams))
      as [hash|]; [|reflexivity].
    destruct (Hitem hash eq_refl) as [-> ->]. auto.
  - intros given E. rewrite E in Hsub. exact Hsub.
Qed.

(** The vote loop: every completed round is one vote for the option that
    the draw picked. *)
Lemma bind_property {A} (v : value) (k : string) (rest : value -> M St A)
    s a s' :
  (x <- TestDataService.property W v k ;; rest x) s = (Return a, s') ->
  exists x, get v k = Some x /\ rest x s = (Return a, s').
Proof.
  unfold TestDataService.property, bind.
  destruct (get v k) as [x|]; simpl; [eauto | discriminate].
Qed.

Lemma emits_property (P : Event -> Prop) (v : value) (k : string) :
  emits P (TestDataService.property W v k).
Proof.
  unfold TestDataService.property.
  destruct (get v k); [apply emits_ret | apply emits_throw].
Qed.

Lemma vote_rounds proposal rounds items0 s items s' :
  generateVotesForProposal_loop W handler rounds proposal items0 s
    = (Return items, s') ->
  exists calls votes,
    log s' = (log s ++ calls)%list /\
    items = (items0 ++ votes)%list /\
    List.length votes = rounds /\
    VoteRounds proposal calls votes.
Proof.
  revert items0 s. induction rounds as [|n IH]; intros items0 s H; simpl in H.
  - apply ret_return in H as [<- <-]. exists [], [].
    rewrite !app_nil_r. repeat split. constructor.
  - apply bind_invoke in H as (random & w1 & _ & H).
    apply bind_invoke in H as (voter & w2 & _ & H).
    apply bind_return in H as (proposalOption & s3 & Hoption & H).
    destruct (nth_error (Proposal.ProposalOptions proposal)
                (if Qle_bool (1 # 2) random then 0%nat else 1%nat))
      as [picked|] eqn:Hpick; [|discriminate].
    apply ret_return in Hoption as [<- <-].
    apply bind_invoke in H as (signature & w4 & _ & H).
    apply bind_invoke in H as (postedAt & w5 & _ & H).
    apply bind_invoke in H as (receivedAt & w6 & _ & H).
    apply bind_invoke in H as (expiredAt & w7 & _ & H).
    apply bind_invoke in H as (vote & w8 & _ & H).
    apply bind_property in H as (read & _ & H).
    apply bind_property in H as (chosen & Hchosen & H).
    apply bind_property in H as (optionId & HoptionId & H).
    apply bind_property in H as (chosen' & Hchosen' & H).
    assert (chosen' = chosen) as -> by congruence.
    apply bind_property in H as (description & Hdescription & H).
    apply IH in H as (calls & votes & L & -> & Hlen & Hrounds).
    simpl in L.
    eexists (_ :: _ :: _ :: _ :: _ :: _ :: _ :: calls), (vote :: votes).
    split; [|split; [|split]].
    + rewrite L, <- !app_assoc. reflexivity.
    + now rewrite <- app_assoc.
    + simpl. now rewrite Hlen.
    + econstructor; [eassumption| |eassumption].
      exists chosen, optionId, description. auto.
Qed.

(** X14. A run of [generateVotesForProposal] that returns has made
    [amount] rounds and returns the vote of each: a round draws a number
    and creates one vote of weight 1, for the first option of the
    proposal when the draw is at least one half and for the second option
    otherwise, with a signature that starts with 'signature' and an
    expiry 100000000 milliseconds after a reading of the clock. Every
    vote that the vote service resolved with has a [ProposalOption]: the
    loop reads [vote.ProposalOption.optionId] for its log and throws a
    TypeError on a vote without one. *)
Theorem generateVotesForProposal_rounds amount proposal s votes s' :
  generateVotesForProposal amount proposal s = (Return votes, s') ->
  exists calls,
    log s' = (log s ++ calls)%list /\
    VoteRounds proposal calls votes /\
    List.length votes = Z.to_nat amount /\
    map snd (collect vote_created calls) = map Return votes /\
    Forall with_option votes.
Proof.
  intros H. unfold TestDataService.generateVotesForProposal in H.
  apply vote_rounds in H as (calls & votes' & L & -> & Hlen & Hrounds).
  exists calls. simpl. split; [exact L|]. split; [exact Hrounds|].
  split; [exact Hlen|]. clear L Hlen.
  induction Hrounds as [|? ? ? ? ? ? ? ? ? ? _ Hvote _ [IH1 IH2]];
    [split; [reflexivity | constructor]|].
  split.
  - unfold collect in *. simpl. now rewrite IH1.
  - constructor; assumption.
Qed.

(** ** Runs that end either way *)

Ltac emits_by solve_event :=
  repeat first
    [ apply emits_ret
    | apply emits_throw
    | apply emits_first
    | apply emits_generateResponse
    | apply emits_push_each
    | apply emits_generateAddressesData_loop; intros; solve_event
    | apply emits_invoke; intros; solve_event
    | apply emits_bind; [|intros]
    | match goal with
      | |- TestDataService.emits _ _ (if ?b then _ else _) => destruct b
      | |- TestDataService.emits _ _ (match ?x with _ => _ end) => destruct x
      end ].

Lemma emits_bind_ret P {A B} (a : A) (k : A -> M St B) :
  emits P (k a) -> emits P (x <- ret a ;; k x).
Proof. intros Hk s o s' H. exact (Hk s o s' H). Qed.

Lemma emits_bind_throw P {A B} e (k : A -> M St B) :
  emits P (x <- throw e ;; k x).
Proof.
  intros s o s' [= <- <-]. exists []. now rewrite app_nil_r.
Qed.

Lemma bind_throw {A B} (m : M St A) (k : A -> M St B) s e s' :
  (x <- m ;; k x) s = (Throw e, s') ->
  m s = (Throw e, s') \/
  exists a s1, m s = (Return a, s1) /\ k a s1 = (Throw e, s').
Proof.
  unfold bind. destruct (m s) as [[a|e'] s1]; [eauto|].
  intros [= <- <-]. auto.
Qed.

(** ** Reading the vote that was created *)

#[local] Abbreviation reads_votes := (CallLog.reads_votes (W:=W)).

Lemma votes_read_all (stopped : Prop) calls :
  (stopped -> False) ->
  votes_read stopped calls -> votes_read False calls.
Proof.
  intros Hnot. induction calls as [|e calls IH]; simpl; [auto|].
  intros [He Hrest]. split; [|auto].
  destruct (vote_created e) as [[request [vote|error]]|]; auto.
  destruct He as [Hvote|[_ Hstopped]]; [now left | contradiction].
Qed.

Lemma votes_read_app (stopped : Prop) calls1 calls2 :
  votes_read False calls1 -> votes_read stopped calls2 ->
  votes_read stopped (calls1 ++ calls2).
Proof.
  intros H1 H2. induction calls1 as [|e calls1 IH]; simpl; [exact H2|].
  destruct H1 as [He Hrest]. split; [|auto].
  destruct (vote_created e) as [[request [vote|error]]|]; auto.
  destruct He as [Hvote|[_ []]]. now left.
Qed.

Lemma reads_ret {A} (a : A) : reads_votes (ret a).
Proof. intros s o s' [= <- <-]. exists []. now rewrite app_nil_r. Qed.

Lemma reads_throw {A} e : reads_votes (throw e : M St A).
Proof. intros s o s' [= <- <-]. exists []. now rewrite app_nil_r. Qed.

Lemma reads_property v k : reads_votes (TestDataService.property W v k).
Proof.
  unfold TestDataService.property.
  destruct (get v k); [apply reads_ret | apply reads_throw].
Qed.

Lemma reads_invoke {T} (op : Op T) :
  (forall o, vote_created (Ev op o) = None) -> reads_votes (invoke op).
Proof.
  intros Hop s o s'. unfold TestDataService.invoke.
  destruct (handler T op (world s)) as [o' w']. intros [= <- <-].
  exists [Ev op o']. split; [reflexivity|].
  cbn [votes_read]. rewrite Hop. auto.
Qed.

Lemma reads_bind {A B} (m : M St A) (k : A -> M St B) :
  reads_votes m -> (forall a, reads_votes (k a)) -> reads_votes (x <- m ;; k x).
Proof.
  intros Hm Hk s o s'. unfold bind.
  destruct (m s) as [[a|e] s1] eqn:E.
  - intros H. apply Hm in E as (c1 & L1 & R1). apply Hk in H as (c2 & L2 & R2).
    exists (c1 ++ c2)%list. rewrite L2, L1, app_assoc. split; [reflexivity|].
    apply votes_read_app; [|exact R2].
    eapply votes_read_all; [|exact R1]. auto.
  - intros [= <- <-]. now apply Hm in E.
Qed.

(** The creation of a vote with the reads that follow it. *)
Lemma reads_created {A} request (rest : value -> M St A) :
  (forall vote, reads_votes (rest vote)) ->
  reads_votes
    (vote <- invoke (VoteService_create request) ;;
     TestDataService.property W vote "voter" ;;;
     chosen <- TestDataService.property W vote "ProposalOption" ;;
     TestDataService.property W chosen "optionId" ;;;
     chosen <- TestDataService.property W vote "ProposalOption" ;;
     TestDataService.property W chosen "description" ;;;
     rest vote).
Proof.
  intros Hrest s o s'.
  unfold bind at 1. unfold TestDataService.invoke.
  destruct (handler _ (VoteService_create request) (world s)) as [[vote|e] w1].
  - unfold TestDataService.property, bind, throw, ret.
    destruct (get vote "voter") as [voter|];
      [|intros [= <- <-]; eexists; split; [reflexivity|];
        simpl; split; [right|]; auto].
    destruct (get vote "ProposalOption") as [chosen|] eqn:Hchosen;
      [|intros [= <- <-]; eexists; split; [reflexivity|];
        simpl; split; [right|]; auto].
    destruct (get chosen "optionId") as [optionId|] eqn:HoptionId;
      [|intros [= <- <-]; eexists; split; [reflexivity|];
        simpl; split; [right|]; auto].
    destruct (get chosen "description") as [description|] eqn:Hdescription;
      [|intros [= <- <-]; eexists; split; [reflexivity|];
        simpl; split; [right|]; auto].
    intros H. apply Hrest in H as (calls & L & R). simpl in L.
    exists (Ev (VoteService_create request) (Return vote) :: calls).
    rewrite L, <- app_assoc. split; [reflexivity|].
    simpl. split; [left|exact R].
    exists chosen, optionId, description. auto.
  - intros [= <- <-]. eexists. split; [reflexivity|]. simpl. auto.
Qed.

Lemma vote_loop_reads proposal rounds items :
  reads_votes (generateVotesForProposal_loop W handler rounds proposal items).
Proof.
  revert items. induction rounds as [|n IH]; intros items; simpl.
  - apply reads_ret.
  - apply reads_bind; [apply reads_invoke; reflexivity|]. intros random.
    apply reads_bind; [apply reads_invoke; reflexivity|]. intros voter.
    apply reads_bind.
    { destruct (nth_error _ _); [apply reads_ret | apply reads_throw]. }
    intros proposalOption.
    apply reads_bind; [apply reads_invoke; reflexivity|]. intros signature.
    apply reads_bind; [apply reads_invoke; reflexivity|]. intros postedAt.
    apply reads_bind; [apply reads_invoke; reflexivity|]. intros receivedAt.
    apply reads_bind; [apply reads_invoke; reflexivity|]. intros expiredAt.
    apply reads_created. intros vote. apply IH.
Qed.

(** X15. However a run of [generateVotesForProposal] ends, every vote it
    has asked the vote service to create has weight 1 and is a vote for
    the first or for the second option of the proposal. Every vote that
    the vote service resolved with has a [ProposalOption], but for a vote
    without one that was created last: there the run has thrown a
    TypeError, on reading [vote.ProposalOption.optionId] for the log, and
    has made no further call. *)
Theorem generateVotesForProposal_votes_for_two_options amount proposal s o s' :
  generateVotesForProposal amount proposal s = (o, s') ->
  exists calls,
    log s' = (log s ++ calls)%list /\
    Forall (vote_for proposal) calls /\
    votes_read (is_TypeError o) calls.
Proof.
  intros Hrun.
  destruct (vote_loop_reads proposal (Z.to_nat amount) [] s o s' Hrun)
    as (calls' & L' & Hread).
  revert s o s' Hrun L' Hread.
  enough (emits (vote_for proposal) (generateVotesForProposal amount proposal))
    as Hemits.
  { intros s o s' Hrun L' Hread.
    destruct (Hemits s o s' Hrun) as (calls & L & Hfor).
    exists calls. split; [exact L|]. split; [exact Hfor|].
    rewrite L in L'. apply app_inv_head in L'. now subst calls'. }
  unfold TestDataService.generateVotesForProposal.
  generalize (Z.to_nat amount) as rounds, (@nil value) as items.
  induction rounds as [|n IH]; intros items; simpl.
  - apply emits_ret.
  - apply emits_bind; [apply emits_invoke; intros; exact I|]. intros random.
    apply emits_bind; [apply emits_invoke; intros; exact I|]. intros voter.
    destruct (nth_error (Proposal.ProposalOptions proposal)
                (if Qle_bool (1 # 2) random then 0%nat else 1%nat))
      as [proposalOption|] eqn:Hpick.
    + apply emits_bind_ret.
      apply emits_bind; [apply emits_invoke; intros; exact I|]. intros signature.
      apply emits_bind; [apply emits_invoke; intros; exact I|]. intros postedAt.
      apply emits_bind; [apply emits_invoke; intros; exact I|]. intros receivedAt.
      apply emits_bind; [apply emits_invoke; intros; exact I|]. intros expiredAt.
      apply emits_bind.
      * apply emits_invoke. intros outcome. unfold vote_for. simpl.
        split; [reflexivity|]. exists proposalOption. split; [|reflexivity].
        destruct (Proposal.ProposalOptions proposal) as [|o1 [|o2 rest]];
          destruct (Qle_bool (1 # 2) random); simpl in *;
          try discriminate; injection Hpick as <-; auto.
      * intros vote.
        do 5 (apply emits_bind; [apply emits_property|intros ?]).
        apply IH.
    + apply emits_bind_throw.
Qed.

(** ** The rounds of a loop *)

(** A loop whose rounds each add calls in the relation [R] to what they
    push adds the calls of its rounds, one after the other. *)
Lemma push_each_rounds {A} (R : list Event -> A -> Prop) (body : M St A) :
  (forall s x s1,
      body s = (Return x, s1) ->
      exists calls, log s1 = (log s ++ calls)%list /\ R calls x) ->
  forall rounds items0 s items s',
    push_each W rounds body items0 s = (Return items, s') ->
    exists done : list (list Event * A),
      log s' = (log s ++ List.concat (map fst done))%list /\
      items = (items0 ++ map snd done)%list /\
      List.length done = rounds /\
      Forall (fun round => R (fst round) (snd round)) done.
Proof.
  intros Hbody.
  induction rounds as [|n IH]; intros items0 s items s' H; simpl in H.
  - apply ret_return in H as [<- <-]. exists []. simpl.
    rewrite !app_nil_r. auto.
  - apply bind_return in H as (x & s1 & Hx & H).
    apply Hbody in Hx as (calls & L1 & HR).
    apply IH in H as (done & L & -> & Hlen & Hall).
    exists ((calls, x) :: done). simpl. split; [|split; [|split]].
    + now rewrite L, L1, <- app_assoc.
    + now rewrite <- app_assoc.
    + now rewrite Hlen.
    + constructor; auto.
Qed.

(** X16. A run of [generateProposals] that returns has made [amount]
    rounds and returns the proposal of each as it was read back at the
    end of the round. In a round the proposal is created from a request
    with the options KEEP and REMOVE, [voteCount] votes are generated for
    the proposal that was created, the result of the proposal is created
    empty and then recalculated, in this order, and the proposal is read
    back by its id. *)
Theorem generateProposals_rounds amount withRelated generateParams s result s' :
  generateProposals amount withRelated generateParams s = (Return result, s') ->
  exists done : list (list Event * Proposal.t),
    log s' = (log s ++ List.concat (map fst done))%list /\
    result = respond withRelated (map snd done) /\
    List.length done = Z.to_nat amount /\
    Forall (fun round =>
              ProposalRound (GenerateProposalParams.voteCount generateParams)
                (fst round) (snd round)) done.
Proof.
  intros H. unfold TestDataService.generateProposals in H.
  destruct (GenerateProposalParams.generateListingItemTemplate generateParams);
    [discriminate|].
  destruct (GenerateProposalParams.generateListingItem generateParams);
    [discriminate|].
  apply bind_return in H as (pushed & s1 & Hloop & H).
  apply generateResponse_respond in H as [-> ->].
  unfold for_amount in Hloop.
  eapply push_each_rounds in Hloop as (done & L & E & Hlen & Hall).
  - exists done. simpl in E. subst pushed. eauto.
  - clear. intros s p' s1 H. simpl in H.
    apply bind_return in H as (request & sa & Hdata & H).
    apply generateProposalData_run in Hdata
      as (before0 & submitter & title & description & currentTime & timeStart
          & timeEnd & La0 & Hrequest & _).
    assert (exists before, log sa = (log s ++ before)%list) as [before La]
      by eauto.
    clear La0.
    apply bind_invoke in H as (proposal & wb & _ & H).
    apply bind_return in H as ([] & sc & Hvotes & H).
    assert (exists voting votes,
               log sc = ((log sa ++ [Ev (ProposalService_create request)
                                       (Return proposal)])
                           ++ voting)%list /\
               VoteRounds proposal voting votes /\
               List.length votes
               = Z.to_nat (GenerateProposalParams.voteCount generateParams))
      as (voting & votes & Lc & Hrounds & Hcount).
    { destruct (Z.ltb_spec 0 (GenerateProposalParams.voteCount generateParams)).
      - apply bind_return in Hvotes as (votes & sv & Hvotes & Hret).
        apply ret_return in Hret as [_ <-].
        unfold TestDataService.generateVotesForProposal in Hvotes.
        apply vote_rounds in Hvotes as (voting & votes' & Lv & -> & Hlen' & Hr).
        exists voting, votes'. simpl in Lv. auto.
      - apply ret_return in Hvotes as [_ <-]. exists [], []. simpl.
        rewrite app_nil_r. split; [reflexivity|]. split; [constructor|].
        simpl. lia. }
    clear Hvotes.
    apply bind_invoke in H as (emptyResult & wd & _ & H).
    apply bind_invoke in H as (result & we & _ & H).
    apply invoke_return in H as (wf & _ & ->). simpl.
    eexists. split.
    + rewrite Lc, La, <- !app_assoc. reflexivity.
    + exists before, request, proposal, voting, votes, emptyResult, result.
      split; [reflexivity|]. split; [|split; assumption].
      cbv zeta in Hrequest. rewrite Hrequest. reflexivity.
Qed.

(** ** Listing items *)

(** X17. The request that [generateListingItemData] returns is for the
    default market and expires 100000000 milliseconds after a reading of
    the clock, with an expiry time of 4. Its seller is the one given, or
    else an address just obtained from the coin daemon. When a template
    hash is given, the last call of the run is the lookup of the template
    by that hash, and the request names the template it found, if any;
    without a hash the request names no template. *)
Theorem generateListingItemData_request generateParams s request s' :
  generateListingItemData generateParams s = (Return request, s') ->
  exists calls defaultMarket expiredAt,
    log s' = (log s ++ calls)%list /\
    In (Ev MarketService_getDefault (Return defaultMarket)) calls /\
    ListingItemCreateRequest.market_id request = Market.id defaultMarket /\
    In (Ev Date_getTime (Return expiredAt)) calls /\
    ListingItemCreateRequest.expiredAt request = expiredAt + 100000000 /\
    ListingItemCreateRequest.expiryTime request = 4 /\
    match truthy_string (GenerateListingItemParams.seller generateParams) with
    | Some seller => ListingItemCreateRequest.seller request = VStr seller
    | None =>
        In (Ev CoreRpcService_getNewAddress
              (Return (ListingItemCreateRequest.seller request))) calls
    end /\
    match truthy_string
            (GenerateListingItemParams.listingItemTemplateHash generateParams) with
    | Some hash =>
        exists earlier found,
          calls = (earlier
                     ++ [Ev (ListingItemTemplateService_findOneByHash hash)
                           (Return found)])%list /\
          ListingItemCreateRequest.listing_item_template_id request
          = option_map ListingItemTemplate.id found
    | None => ListingItemCreateRequest.listing_item_template_id request = None
    end.
Proof.
  intros H. unfold TestDataService.generateListingItemData in H.
  apply bind_invoke in H as (defaultProfile & w1 & _ & H).
  apply bind_invoke in H as (defaultMarket & w2 & _ & H).
  apply bind_return in H as (seller & s3 & Hseller & H).
  assert (exists c3,
             log s3 = (log s ++ [Ev ProfileService_getDefault (Return defaultProfile);
                                 Ev MarketService_getDefault (Return defaultMarket)]
                         ++ c3)%list /\
             match truthy_string (GenerateListingItemParams.seller generateParams) with
             | Some given => seller = VStr given
             | None => In (Ev CoreRpcService_getNewAddress (Return seller)) c3
             end) as (c3 & L3 & Hs).
  { destruct (truthy_string (GenerateListingItemParams.seller generateParams)).
    - apply ret_return in Hseller as [<- <-]. exists []. simpl.
      rewrite <- app_assoc. auto.
    - apply invoke_return in Hseller as (w & _ & ->). simpl.
      eexists. rewrite <- !app_assoc. split; [reflexivity|]. simpl. auto. }
  clear Hseller.
  assert (forall (b : bool) T (op : Op T) (v : T),
             emits (fun _ => True) (if b then invoke op else ret v)) as Hcontent.
  { intros. emits_by ltac:(exact I). }
  apply bind_return in H as (itemInformation & s4 & H4 & H).
  apply Hcontent in H4 as (c4 & L4 & _).
  apply bind_return in H as (paymentInformation & s5 & H5 & H).
  apply Hcontent in H5 as (c5 & L5 & _).
  apply bind_return in H as (messagingInformation & s6 & H6 & H).
  apply Hcontent in H6 as (c6 & L6 & _).
  apply bind_return in H as (listingItemObjects & s7 & H7 & H).
  apply Hcontent in H7 as (c7 & L7 & _).
  apply bind_invoke in H as (postedAt & w8 & _ & H).
  apply bind_invoke in H as (expiredAt & w9 & _ & H).
  apply bind_invoke in H as (receivedAt & w10 & _ & H).
  set (clocks := [Ev Date_getTime (Return postedAt);
                  Ev Date_getTime (Return expiredAt);
                  Ev Date_getTime (Return receivedAt)]).
  set (upto := ([Ev ProfileService_getDefault (Return defaultProfile);
                 Ev MarketService_getDefault (Return defaultMarket)]
                  ++ c3 ++ c4 ++ c5 ++ c6 ++ c7 ++ clocks)%list).
  assert (((((log s7 ++ [Ev Date_getTime (Return postedAt)])
               ++ [Ev Date_getTime (Return expiredAt)])
              ++ [Ev Date_getTime (Return receivedAt)])
           = log s ++ upto)%list) as Lupto.
  { unfold upto, clocks. rewrite L7, L6, L5, L4, L3, <- !app_assoc. reflexivity. }
  assert (In (Ev MarketService_getDefault (Return defaultMarket)) upto) as Imarket.
  { unfold upto. simpl. auto. }
  assert (In (Ev Date_getTime (Return expiredAt)) upto) as Iclock.
  { unfold upto, clocks. do 6 (apply in_or_app; right). simpl. auto. }
  assert (match truthy_string (GenerateListingItemParams.seller generateParams) with
          | Some given => seller = VStr given
          | None => In (Ev CoreRpcService_getNewAddress (Return seller)) upto
          end) as Iseller.
  { destruct (truthy_string (GenerateListingItemParams.seller generateParams));
      [exact Hs|].
    unfold upto. apply in_or_app; right. apply in_or_app; left. exact Hs. }
  clearbody upto. clear Hs L3 L4 L5 L6 L7.
  destruct (truthy_string
              (GenerateListingItemParams.listingItemTemplateHash generateParams))
    as [hash|].
  - apply bind_invoke in H as (found & w11 & _ & H).
    exists (upto ++ [Ev (ListingItemTemplateService_findOneByHash hash)
                       (Return found)])%list, defaultMarket, expiredAt.
    assert (s' = mkSt w11 ((log s ++ upto)
                             ++ [Ev (ListingItemTemplateService_findOneByHash hash)
                                   (Return found)]) /\
            request
            = ListingItemCreateRequest.mk seller (Market.id defaultMarket)
                (option_map ListingItemTemplate.id found)
                itemInformation paymentInformation messagingInformation
                listingItemObjects 4 postedAt (expiredAt + 100000000) receivedAt)
      as [-> ->].
    { simpl in H. rewrite Lupto in H.
      destruct found; apply ret_return in H as [<- <-]; auto. }
    simpl. rewrite <- app_assoc.
    repeat split; auto using in_or_app.
    + destruct (truthy_string (GenerateListingItemParams.seller generateParams));
        auto using in_or_app.
    + exists upto, found. auto.
  - apply ret_return in H as [<- <-]. simpl in *.
    exists upto, defaultMarket, expiredAt. rewrite Lupto.
    repeat split; auto.
Qed.

(** ** Listing item templates *)

Lemma generateListingItemTemplateData_run generateParams s request s' :
  TestDataService.generateListingItemTemplateData W handler generateParams s
    = (Return request, s') ->
  exists data profile,
    log s'
    = (log s ++ data
         ++ [Ev (profile_call
                   (GenerateListingItemTemplateParams.profileId generateParams))
               (Return profile)])%list /\
    Forall creates_no_listing data /\
    ListingItemTemplateCreateRequest.profile_id request = Profile.id profile.
Proof.
  intros H. unfold TestDataService.generateListingItemTemplateData in H.
  assert (forall (b : bool) T (op : Op T) (v : T),
             template_created (Ev op (Throw TypeError)) = None ->
             listing_created (Ev op (Throw TypeError)) = None ->
             emits creates_no_listing (if b then invoke op else ret v))
    as Hcontent.
  { intros b T op v Ht Hl. destruct b; [|apply emits_ret].
    apply emits_invoke. intros o. split; destruct op; try reflexivity;
      discriminate. }
  apply bind_return in H as (itemInformation & s1 & H1 & H).
  apply Hcontent in H1 as (c1 & L1 & F1); [|reflexivity..].
  apply bind_return in H as (paymentInformation & s2 & H2 & H).
  apply Hcontent in H2 as (c2 & L2 & F2); [|reflexivity..].
  apply bind_return in H as (messagingInformation & s3 & H3 & H).
  apply Hcontent in H3 as (c3 & L3 & F3); [|reflexivity..].
  apply bind_return in H as (listingItemObjects & s4 & H4 & H).
  apply Hcontent in H4 as (c4 & L4 & F4); [|reflexivity..].
  apply bind_return in H as (profile & s5 & H5 & H).
  apply ret_return in H as [<- <-].
  exists (c1 ++ c2 ++ c3 ++ c4)%list, profile.
  split; [|split; [|reflexivity]].
  - unfold profile_call.
    destruct (GenerateListingItemTemplateParams.profileId generateParams);
      apply invoke_return in H5 as (w & _ & ->); simpl;
      rewrite L4, L3, L2, L1, <- !app_assoc; reflexivity.
  - repeat (apply Forall_app; split); assumption.
Qed.

(** The rounds of the template loop, read off a run that resolves with the
    templates themselves. *)
Lemma template_rounds amount generateParams s items s' :
  generateListingItemTemplates amount true generateParams s = (Return items, s') ->
  exists done : list (list Event * ListingItemTemplate.t),
    log s' = (log s ++ List.concat (map fst done))%list /\
    items = map snd done /\
    List.length done = Z.to_nat amount /\
    Forall (fun round => TemplateRound generateParams (fst round) (snd round)) done.
Proof.
  intros H. unfold TestDataService.generateListingItemTemplates in H.
  apply bind_return in H as (pushed & s1 & Hloop & H).
  apply ret_return in H as [<- <-].
  unfold for_amount in Hloop.
  eapply push_each_rounds in Hloop as (done & L & E & Hlen & Hall).
  - exists done. simpl in E. subst pushed. eauto.
  - clear. intros s pushed s1 H. simpl in H.
    apply bind_return in H as (request & sa & Hdata & H).
    apply generateListingItemTemplateData_run in Hdata
      as (data & profile & La & Fdata & Hprofile).
    apply bind_invoke in H as (template & wb & _ & H).
    unfold TemplateRound.
    destruct (GenerateListingItemTemplateParams.generateListingItem generateParams).
    + apply bind_return in H as (market & sc & Hmarket & H).
      assert (exists wc,
                 sc = mkSt wc
                        ((log sa ++ [Ev (ListingItemTemplateService_create request)
                                       (Return template)])
                           ++ [Ev (market_call
                                     (GenerateListingItemTemplateParams.marketId
                                        generateParams))
                                 (Return market)])) as [wc ->].
      { unfold market_call.
        destruct (GenerateListingItemTemplateParams.marketId generateParams);
          apply invoke_return in Hmarket as (w & _ & ->); eauto. }
      clear Hmarket.
      apply bind_invoke in H as (postedAt & w1 & _ & H).
      apply bind_invoke in H as (expiredAt & w2 & _ & H).
      apply bind_invoke in H as (receivedAt & w3 & _ & H).
      apply bind_invoke in H as (listingItem & w4 & _ & H).
      apply invoke_return in H as (w5 & _ & ->). simpl.
      eexists. split; [rewrite La, <- !app_assoc; reflexivity|].
      exists data, profile, request, template.
      split; [exact Fdata|]. split; [exact Hprofile|].
      exists market, postedAt, expiredAt, receivedAt, listingItem.
      rewrite <- !app_assoc. reflexivity.
    + apply ret_return in H as [<- <-]. simpl.
      eexists. split; [rewrite La, <- !app_assoc; reflexivity|].
      exists data, profile, request, template.
      split; [exact Fdata|]. split; [exact Hprofile|].
      rewrite <- ?app_assoc. auto.
Qed.

(** A run resolves with the templates, or with their ids, of the same
    rounds. *)
Lemma templates_or_ids amount withRelated generateParams s result s' :
  generateListingItemTemplates amount withRelated generateParams s
    = (Return result, s') ->
  exists items,
    generateListingItemTemplates amount true generateParams s = (Return items, s') /\
    result = respond withRelated items.
Proof.
  intros H. unfold TestDataService.generateListingItemTemplates in *.
  apply bind_return in H as (pushed & s1 & Hloop & H).
  apply generateResponse_respond in H as [-> ->].
  exists pushed. split; [|reflexivity].
  unfold bind at 1. rewrite Hloop. reflexivity.
Qed.

(** X18. A run of [generateListingItemTemplates] that returns has made
    [amount] rounds and resolves with the template of each, or with its
    id. In a round the template is created from generated data for the
    profile read last, the default one unless a profile id is given. With
    [generateListingItem], one listing item is then created for the
    template: with the id of the template, the content of the request of
    the template, the address of the profile of the template as seller,
    the id of the market that was read, an expiry time of 10 and an expiry
    864000000 milliseconds after a reading of the clock; what the round
    pushes is the template as read back by its id afterwards. No other
    template or listing item is created. *)
Theorem generateListingItemTemplates_rounds amount withRelated generateParams s
    result s' :
  generateListingItemTemplates amount withRelated generateParams s
    = (Return result, s') ->
  exists done : list (list Event * ListingItemTemplate.t),
    log s' = (log s ++ List.concat (map fst done))%list /\
    result = respond withRelated (map snd done) /\
    List.length done = Z.to_nat amount /\
    Forall (fun round => TemplateRound generateParams (fst round) (snd round)) done.
Proof.
  intros H.
  apply templates_or_ids in H as (items & H & ->).
  apply template_rounds in H as (done & L & -> & Hlen & Hall).
  exists done. auto.
Qed.

(** What one round with [generateListingItem] creates: the template and
    the listing item generated with it, which carries the hash of the
    template when the services store a content hash. *)
Lemma template_round_created getHash generateParams calls pushed :
  content_hash getHash ->
  GenerateListingItemTemplateParams.generateListingItem generateParams = true ->
  TemplateRound generateParams calls pushed ->
  Forall (stores_hash getHash) calls ->
  exists template listingItem,
    collect template_created calls = [(fst template, Return (snd template))] /\
    collect listing_created calls
    = [(fst listingItem, Return (snd listingItem))] /\
    generated_with template listingItem /\
    ListingItem.hash (snd listingItem) = ListingItemTemplate.hash (snd template).
Proof.
  intros Hcontent Hgen (data & profile & request & template & Fdata & _ & Hround)
    Hstores.
  cbv zeta in Hround. rewrite Hgen in Hround.
  destruct Hround as (market & postedAt & expiredAt & receivedAt & listingItem
                      & ->).
  assert (collect template_created data = [] /\ collect listing_created data = [])
    as [Dt Dl].
  { split; apply collect_none; eapply Forall_impl; try exact Fdata;
      intros e [Ht Hl]; assumption. }
  exists (request, template).
  eexists (_, listingItem).
  rewrite !collect_app, Dt, Dl.
  unfold profile_call, market_call.
  destruct (GenerateListingItemTemplateParams.profileId generateParams),
    (GenerateListingItemTemplateParams.marketId generateParams);
    (split; [reflexivity|]; split; [reflexivity|];
     split; [repeat split|]);
    apply Forall_app in Hstores as [Hstores Hlisting];
    apply Forall_app in Hstores as [_ Hstores];
    inversion Hstores as [|? ? _ Hcreate]; subst;
    inversion Hcreate as [|? ? [Htemplate _] _]; subst;
    do 4 (inversion Hlisting as [|? ? _ Hlisting']; subst; clear Hlisting;
          rename Hlisting' into Hlisting);
    inversion Hlisting as [|? ? [_ Hitem] _]; subst;
    simpl in Htemplate, Hitem; cbn [fst snd];
    rewrite Htemplate, Hitem; apply Hcontent; reflexivity.
Qed.


(** X19. A run of [generateListingItems] that returns has made [amount]
    rounds and resolves with the listing item of each, or with its id. A
    round generates the data of the request, reads the default market and
    creates the listing item, which is what it pushes; it creates no
    template and no other listing item. *)
Theorem generateListingItems_rounds amount withRelated generateParams s result s' :
  generateListingItems amount withRelated generateParams s = (Return result, s') ->
  exists done : list (list Event * ListingItem.t),
    log s' = (log s ++ List.concat (map fst done))%list /\
    result = respond withRelated (map snd done) /\
    List.length done = Z.to_nat amount /\
    Forall (fun round => ListingItemRound (fst round) (snd round)) done.
Proof.
  intros H. unfold TestDataService.generateListingItems in H.
  apply bind_return in H as (pushed & s1 & Hloop & H).
  apply generateResponse_respond in H as [-> ->].
  unfold for_amount in Hloop.
  eapply push_each_rounds in Hloop as (done & L & E & Hlen & Hall).
  - exists done. simpl in E. subst pushed. eauto.
  - clear. intros s pushed s1 H. simpl in H.
    apply bind_return in H as (request & sa & Hdata & H).
    assert (emits creates_no_listing (generateListingItemData generateParams))
      as Hquiet.
    { unfold TestDataService.generateListingItemData.
      emits_by ltac:(split; reflexivity). }
    apply Hquiet in Hdata as (data & La & Fdata).
    apply bind_invoke in H as (market & w1 & _ & H).
    apply invoke_return in H as (w2 & _ & ->). simpl.
    eexists. split; [rewrite La, <- !app_assoc; reflexivity|].
    exists data, market, request. auto.
Qed.

(** ** Bids *)

(** X20. The request that [generateBidData] returns carries the one
    address that was generated, assigned to the default profile; the
    literal of bid data; the bidder that was given, or else an address
    just obtained from the coin daemon; and the action that was given, or
    else MPA_BID. *)
Theorem generateBidData_request generateParams s request s' :
  generateBidData generateParams s = (Return request, s') ->
  exists calls generated defaultProfile,
    log s' = (log s ++ calls)%list /\
    In (Ev GenerateAddressData (Return generated)) calls /\
    In (Ev ProfileService_getDefault (Return defaultProfile)) calls /\
    BidCreateRequest.address request
    = AddressCreateRequest.mk generated (Some (Profile.id defaultProfile)) /\
    BidCreateRequest.bidDatas request = bidDatas_literal /\
    BidCreateRequest.action request
    = match GenerateBidParams.action generateParams with
      | Some action => action
      | None => MPA_BID
      end /\
    match truthy_string (GenerateBidParams.bidder generateParams) with
    | Some bidder => BidCreateRequest.bidder request = VStr bidder
    | None =>
        In (Ev CoreRpcService_getNewAddress
              (Return (BidCreateRequest.bidder request))) calls
    end.
Proof.
  intros H. unfold TestDataService.generateBidData in H.
  apply bind_return in H as (addresses & s1 & Haddr & H).
  unfold generateAddressesData in Haddr. simpl in Haddr.
  apply bind_invoke in Haddr as (generated & w1 & _ & Haddr).
  apply ret_return in Haddr as [<- <-].
  apply bind_invoke in H as (defaultProfile & w2 & _ & H).
  apply bind_return in H as (address & s2 & Hfirst & H).
  apply ret_return in Hfirst as [<- <-].
  apply bind_return in H as (bidder & s3 & Hbidder & H).
  set (upto := [Ev GenerateAddressData (Return generated);
                Ev ProfileService_getDefault (Return defaultProfile)]) in *.
  assert (exists c3,
             log s3 = (log s ++ upto ++ c3)%list /\
             match truthy_string (GenerateBidParams.bidder generateParams) with
             | Some given => bidder = VStr given
             | None => In (Ev CoreRpcService_getNewAddress (Return bidder)) c3
             end) as (c3 & L3 & Hb).
  { destruct (truthy_string (GenerateBidParams.bidder generateParams)).
    - apply ret_return in Hbidder as [<- <-]. exists []. simpl.
      rewrite <- app_assoc. auto.
    - apply invoke_return in Hbidder as (w & _ & ->). simpl.
      eexists. rewrite <- !app_assoc. split; [reflexivity|]. simpl. auto. }
  clear Hbidder.
  assert (exists c4 listing_item_id,
             log s' = (log s3 ++ c4)%list /\
             request
             = BidCreateRequest.mk
                 match GenerateBidParams.action generateParams with
                 | Some action => action
                 | None => MPA_BID
                 end
                 (AddressCreateRequest.mk generated (Some (Profile.id defaultProfile)))
                 bidder bidDatas_literal listing_item_id)
    as (c4 & listing_item_id & L4 & ->).
  { destruct (truthy_string (GenerateBidParams.listingItemHash generateParams)).
    - apply bind_invoke in H as (found & w4 & _ & H).
      destruct found; apply ret_return in H as [<- <-]; simpl; eauto.
    - apply ret_return in H as [<- <-]. exists []. rewrite app_nil_r. eauto. }
  exists (upto ++ c3 ++ c4)%list, generated, defaultProfile.
  split; [rewrite L4, L3, <- !app_assoc; reflexivity|].
  split; [simpl; auto|]. split; [simpl; auto|].
  split; [reflexivity|]. split; [reflexivity|]. split; [reflexivity|].
  cbn [BidCreateRequest.bidder].
  destruct (truthy_string (GenerateBidParams.bidder generateParams)); [exact Hb|].
  apply in_or_app. right. apply in_or_app. now left.
Qed.

Lemma generateListingItems_one generateParams s (items : list ListingItem.t) s' :
  generateListingItems 1 true generateParams s = (Return items, s') ->
  exists earlier request listingItem,
    items = [listingItem] /\
    log s' = (log s ++ earlier
                ++ [Ev (ListingItemService_create request) (Return listingItem)])%list /\
    Forall quiet earlier.
Proof.
  intros H. unfold TestDataService.generateListingItems in H.
  apply bind_return in H as (pushed & s1 & Hloop & H).
  apply ret_return in H as [<- <-].
  unfold for_amount in Hloop. simpl in Hloop.
  apply bind_return in Hloop as (listingItem & s2 & Hbody & Hloop).
  apply ret_return in Hloop as [<- <-].
  apply bind_return in Hbody as (request & s3 & Hdata & Hbody).
  assert (emits quiet (generateListingItemData generateParams)) as Hquiet.
  { unfold TestDataService.generateListingItemData.
    emits_by ltac:(split; reflexivity). }
  apply Hquiet in Hdata as (c & L & Q).
  apply bind_invoke in Hbody as (market & w1 & _ & Hbody).
  apply invoke_return in Hbody as (w2 & _ & ->). simpl.
  exists (c ++ [Ev MarketService_getDefault (Return market)])%list, request,
    listingItem.
  split; [reflexivity|]. split.
  - rewrite L, <- !app_assoc. reflexivity.
  - apply Forall_app. split; [exact Q|]. constructor; [split; reflexivity|].
    constructor.
Qed.

Lemma generateBidData_bids_for generateParams hash :
  GenerateBidParams.listingItemHash generateParams = Some hash ->
  emits (bids_for hash) (generateBidData generateParams).
Proof.
  intros Hhash. unfold TestDataService.generateBidData, generateAddressesData.
  rewrite Hhash.
  assert (forall T (op : Op T) o,
             listing_created (Ev op o) = None ->
             listing_lookup (Ev op o) = None -> bids_for hash (Ev op o))
    as Hother.
  { intros T op o Hc Hl. split; [exact Hc|]. rewrite Hl. discriminate. }
  apply emits_bind;
    [apply emits_generateAddressesData_loop; intros; now apply Hother|].
  intros addresses.
  apply emits_bind; [apply emits_invoke; intros; now apply Hother|].
  intros defaultProfile.
  apply emits_bind; [apply emits_first|]. intros address.
  apply emits_bind.
  { destruct (truthy_string (GenerateBidParams.bidder generateParams));
      [apply emits_ret | apply emits_invoke; intros; now apply Hother]. }
  intros bidder. unfold truthy_string.
  destruct (hash =? "")%string; [apply emits_ret|].
  apply emits_bind.
  - apply emits_invoke. intros o. split; [reflexivity|].
    simpl. now intros asked [= <-].
  - intros [listingItem|]; apply emits_ret.
Qed.

(** X21. With [generateListingItem], the bids of a run of [generateBids]
    that returns are generated for the listing item that the run has
    created just before them: the parameters leave the call with the hash
    of that listing item, whatever hash they came with, no bid is created
    before it, and after it no listing item is looked up by another hash
    and none is created. Without [generateListingItem] the parameters
    leave the call as they came. Either way the call resolves with
    [amount] bids or ids of bids. *)
Theorem generateBids_for_the_generated_listing_item
    amount withRelated generateParams s result generateParams' s' calls :
  generateBids amount withRelated generateParams s
    = (Return (result, generateParams'), s') ->
  log s' = (log s ++ calls)%list ->
  count result = Z.to_nat amount /\
  if GenerateBidParams.generateListingItem generateParams then
    exists before request listingItem rounds,
      calls = (before
                 ++ [Ev (ListingItemService_create request) (Return listingItem)]
                 ++ rounds)%list /\
      GenerateBidParams.listingItemHash generateParams'
      = Some (ListingItem.hash listingItem) /\
      bids_created before = [] /\
      Forall (bids_for (ListingItem.hash listingItem)) rounds
  else generateParams' = generateParams.
Proof.
  intros H Hlog.
  split; [eapply generateBids_count; exact H|].
  unfold TestDataService.generateBids in H.
  apply bind_return in H as (itemParams & s1 & H1 & H).
  assert (exists c1, log s1 = (log s ++ c1)%list /\ Forall quiet c1)
    as (c1 & L1 & Q1).
  { destruct (GenerateBidParams.generateListingItemTemplate generateParams).
    - apply bind_return in H1 as (templates & sa & Hgen & H1).
      apply generateListingItemTemplates_quiet in Hgen as (c & L & Q).
      apply bind_return in H1 as (template & sb & Hfirst & H1).
      apply ret_return in H1 as [_ <-].
      destruct (templates : list _); [discriminate|].
      apply ret_return in Hfirst as [_ <-]. eauto.
    - apply ret_return in H1 as [_ <-]. exists []. now rewrite app_nil_r. }
  clear H1.
  apply bind_return in H as (bidParams & s2 & H2 & H).
  destruct (GenerateBidParams.generateListingItem generateParams).
  - apply bind_return in H2 as (listingItems & sa & Hgen & H2).
    apply generateListingItems_one in Hgen
      as (c2 & request & listingItem & -> & L2 & Q2).
    apply bind_return in H2 as (first & sb & Hfirst & H2).
    apply ret_return in Hfirst as [<- <-].
    apply ret_return in H2 as [<- <-].
    apply bind_return in H as (items & s3 & Hloop & H).
    apply bind_return in H as (response & s4 & Hresponse & H).
    apply generateResponse_respond in Hresponse as [_ ->].
    apply ret_return in H as [[= _ <-] <-].
    assert (emits (bids_for (ListingItem.hash listingItem))
              (for_amount W amount
                 (bid <- generateBidData
                           (GenerateBidParams.mk
                              (GenerateBidParams.generateListingItemTemplate
                                 generateParams)
                              true
                              (Some (ListingItem.hash listingItem))
                              (GenerateBidParams.action generateParams)
                              (GenerateBidParams.bidder generateParams)
                              (GenerateBidParams.listingItemSeller generateParams)) ;;
                  invoke (BidService_create bid)))) as Hrounds.
    { unfold for_amount. apply emits_push_each. apply emits_bind.
      - now apply generateBidData_bids_for.
      - intros bid. apply emits_invoke. intros o. split; [reflexivity|].
        discriminate. }
    apply Hrounds in Hloop as (c3 & L3 & F3).
    exists (c1 ++ c2)%list, request, listingItem, c3.
    split; [|split; [reflexivity|split; [|exact F3]]].
    + rewrite L3, L2, L1, <- !app_assoc in Hlog.
      apply app_inv_head in Hlog. subst calls.
      now rewrite <- !app_assoc.
    + apply quiet_creates_nothing. apply Forall_app. auto.
  - apply ret_return in H2 as [<- <-].
    apply bind_return in H as (items & s3 & _ & H).
    apply bind_return in H as (response & s4 & _ & H).
    apply ret_return in H as [[= _ <-] _]. reflexivity.
Qed.

(** ** create *)

(** X22. For a model that the switch of [create] names, [create] makes
    one call after the validation of the decorator: the call of [create]
    of the service of that model, with the data of the request, and it
    ends as that call ends. The flag [timestampedHash] is passed on for
    listing item templates only. When the validation rejects the request,
    no service is called. *)
Theorem create_calls_one_service body s :
  create_supports (TestDataCreateRequest.model body) = true ->
  let validation := Validate_TestDataCreateRequest body in
  let service :=
    Service_create (TestDataCreateRequest.model body)
      (TestDataCreateRequest.data body)
      match TestDataCreateRequest.model body with
      | LISTINGITEMTEMPLATE => TestDataCreateRequest.timestampedHash body
      | _ => None
      end in
  match handler unit validation (world s) with
  | (Return _, w1) =>
      create body s
      = (fst (handler value service w1),
         mkSt (snd (handler value service w1))
           (log s ++ [Ev validation (Return tt);
                      Ev service (fst (handler value service w1))]))
  | (Throw e, w1) =>
      create body s = (Throw e, mkSt w1 (log s ++ [Ev validation (Throw e)]))
  end.
Proof.
  intros Hmodel validation service. subst validation service.
  unfold TestDataService.create, bind, TestDataService.invoke.
  destruct (handler unit (Validate_TestDataCreateRequest body) (world s))
    as [[[]|e] w1]; [|reflexivity].
  destruct (TestDataCreateRequest.model body); try discriminate Hmodel;
    simpl; destruct (handler value _ w1) as [o w2]; simpl;
    rewrite <- app_assoc; reflexivity.
Qed.

(** ** Orders *)

Lemma generateBids_creates_no_order amount withRelated generateParams :
  emits (fun e => order_created e = None)
    (generateBids amount withRelated generateParams).
Proof.
  unfold TestDataService.generateBids, TestDataService.generateListingItemTemplates,
    TestDataService.generateListingItems, TestDataService.generateBidData,
    generateListingItemTemplateData, TestDataService.generateListingItemData,
    generateAddressesData, for_amount.
  emits_by ltac:(reflexivity).
Qed.

(** X23. [generateOrders] creates no order unless it has the bid. When
    [generateBid] is unset and the bid service fails to find the bid of
    [generateParams.bidId], [generateOrders] throws what the bid service
    threw and has made no other call. When [generateBid] is set and the
    generation of the bid throws, [generateOrders] throws the same, and no
    order has been created by then. *)
Theorem generateOrders_needs_the_bid amount withRelated generateParams s :
  (GenerateOrderParams.generateBid generateParams = false ->
   forall e w1,
     handler Bid.t (BidService_findOne (GenerateOrderParams.bidId generateParams))
       (world s) = (Throw e, w1) ->
     generateOrders amount withRelated generateParams s
     = (Throw e,
        mkSt w1 (log s ++ [Ev (BidService_findOne
                                 (GenerateOrderParams.bidId generateParams))
                             (Throw e)]))) /\
  (GenerateOrderParams.generateBid generateParams = true ->
   forall e s1,
     generateBids 1 true
       (GenerateBidParams.mk
          (GenerateOrderParams.generateListingItemTemplate generateParams)
          (GenerateOrderParams.generateListingItem generateParams)
          (GenerateBidParams.listingItemHash (new_GenerateBidParams None))
          (Some MPA_ACCEPT)
          (GenerateBidParams.bidder (new_GenerateBidParams None))
          (GenerateOrderParams.listingItemSeller generateParams)) s
     = (Throw e, s1) ->
     generateOrders amount withRelated generateParams s = (Throw e, s1) /\
     exists calls,
       log s1 = (log s ++ calls)%list /\ orders_created calls = []).
Proof.
  split.
  - intros Hflag e w1 Hfind.
    unfold TestDataService.generateOrders, bind, TestDataService.invoke.
    rewrite Hflag, Hfind. reflexivity.
  - intros Hflag e s1 Hbids. split.
    + unfold TestDataService.generateOrders, bind. rewrite Hflag.
      cbv zeta. rewrite Hbids. reflexivity.
    + apply generateBids_creates_no_order in Hbids as (calls & L & F).
      exists calls. split; [exact L|].
      clear L. induction F as [|x l Hx _ IH]; [reflexivity|].
      unfold orders_created in *. simpl. now rewrite Hx, IH.
Qed.

End Facts.

End GeneratorFacts.

(* ================================================================== *)
(** * Properties of the clean-up *)
(* ================================================================== *)

Module CleaningFacts.
Import Cleaning.

Section Facts.

Variable W : Type.
Variable handler : Call -> M W unit.

#[local] Abbreviation invoke := (Cleaning.invoke W handler).
#[local] Abbreviation cleanDb := (Cleaning.cleanDb W handler).
#[local] Abbreviation clean := (Cleaning.clean W handler).

(** X24. [cleanDb] deletes the rows of the tables in the order of its
    list, one deletion per table, and stops at the first deletion that
    fails: when it returns, every table of the list has been cleaned, once
    and in that order; when it throws, it throws what the failed deletion
    threw, the tables before that one have been cleaned and no deletion
    has been tried on the tables after it. *)
Theorem cleanDb_deletes_in_order s :
  exists deletes,
    log (snd (cleanDb s)) = (log s ++ deletes)%list /\
    match fst (cleanDb s) with
    | Return _ => deletes = map deleted tablesToClean
    | Throw e =>
        exists done table rest,
          tablesToClean = (done ++ table :: rest)%list /\
          deletes = (map deleted done ++ [(Knex_del table, Throw e)])%list
    end.
Proof.
  unfold Cleaning.cleanDb. generalize tablesToClean as tables. intros tables.
  revert s. induction tables as [|table tables IH]; intros s.
  - exists []. simpl. now rewrite app_nil_r.
  - cbn [for_of]. unfold bind, Cleaning.invoke.
    destruct (handler (Knex_del table) (world s)) as [[[]|e] w1].
    + destruct (IH (mkSt w1 (log s ++ [(Knex_del table, Return tt)])))
        as (deletes & L & Hd).
      exists (deleted table :: deletes). split.
      * unfold Cleaning.invoke in L. rewrite L. simpl. now rewrite <- app_assoc.
      * unfold Cleaning.invoke in Hd.
        destruct (fst (for_of W tables _ _)) as [u|e].
        -- now rewrite Hd.
        -- destruct Hd as (done & failed & rest & -> & ->).
           exists (table :: done), failed, rest. auto.
    + exists [(Knex_del table, Throw e)]. split; [reflexivity|].
      exists [], table, tables. auto.
Qed.

Lemma logged_invoke (c : Call) s :
  exists o s1,
    logged W (invoke c) s = (Return tt, s1) /\ log s1 = (log s ++ [(c, o)])%list.
Proof.
  unfold logged, Cleaning.invoke.
  destruct (handler c (world s)) as [[u|e] w1];
    eexists; eexists; split; reflexivity.
Qed.

(** X25. [clean] never throws. It runs [cleanDb] and, when [seed] is set,
    the seeds of the default categories, of the default profile and of the
    default market, each once and in this order, whether or not the
    clean-up or an earlier seed has failed. Without [seed] it makes no
    call after the clean-up. *)
Theorem clean_always_resolves seed s :
  exists s',
    clean seed s = (Return tt, s') /\
    exists seeds,
      log s' = (log (snd (cleanDb s)) ++ seeds)%list /\
      if seed then
        exists categories profile market,
          seeds = [(DefaultItemCategoryService_seedDefaultCategories, categories);
                   (DefaultProfileService_seedDefaultProfile, profile);
                   (DefaultMarketService_seedDefaultMarket, market)]
      else seeds = [].
Proof.
  unfold Cleaning.clean, bind.
  assert (exists s1, logged W cleanDb s = (Return tt, s1) /\ s1 = snd (cleanDb s))
    as (s1 & -> & ->).
  { unfold logged. destruct (cleanDb s) as [[u|e] s1]; eauto. }
  destruct seed.
  - destruct (logged_invoke DefaultItemCategoryService_seedDefaultCategories
                (snd (cleanDb s))) as (o1 & s1 & -> & L1).
    destruct (logged_invoke DefaultProfileService_seedDefaultProfile s1)
      as (o2 & s2 & -> & L2).
    destruct (logged_invoke DefaultMarketService_seedDefaultMarket s2)
      as (o3 & s3 & -> & L3).
    exists s3. split; [reflexivity|]. eexists. split.
    + rewrite L3, L2, L1, <- !app_assoc. reflexivity.
    + exists o1, o2, o3. reflexivity.
  - eexists. split; [reflexivity|]. exists []. now rewrite app_nil_r.
Qed.

End Facts.

Lemma cleanDb_deletes_in_order_witness :
  exists deletes,
    log (snd (cleanDb Tables sqlite busy)) = ([] ++ deletes)%list /\
    match fst (cleanDb Tables sqlite busy) with
    | Return _ => deletes = map deleted tablesToClean
    | Throw e =>
        exists done table rest,
          tablesToClean = (done ++ table :: rest)%list /\
          deletes = (map deleted done ++ [(Knex_del table, Throw e)])%list
    end.
Proof. exact (cleanDb_deletes_in_order Tables sqlite busy). Defined.

Lemma clean_always_resolves_witness :
  exists s',
    clean Tables sqlite true busy = (Return tt, s') /\
    exists seeds,
      log s' = (log (snd (cleanDb Tables sqlite busy)) ++ seeds)%list /\
      exists categories profile market,
        seeds = [(DefaultItemCategoryService_seedDefaultCategories, categories);
                 (DefaultProfileService_seedDefaultProfile, profile);
                 (DefaultMarketService_seedDefaultMarket, market)].
Proof. exact (clean_always_resolves Tables sqlite true busy). Defined.

End CleaningFacts.

(* ================================================================== *)
(** * Properties of the data of a profile *)
(* ================================================================== *)

Module ProfileFacts.
Import TestDataService CallLog TestDataFacts Profiles.

Lemma rounds_within (amount : Q) :
  (1 <= amount)%Q -> (amount <= 5)%Q ->
  (1 <= Z.to_nat (rounds_of amount) <= 5)%nat.
Proof.
  intros Hlo Hhi. unfold rounds_of.
  apply Qceiling_resp_le in Hlo. apply Qceiling_resp_le in Hhi.
  change (Qceiling 1) with 1 in Hlo. change (Qceiling 5) with 5 in Hhi. lia.
Qed.

Section Facts.

Variable W : Type.
Variable handler : forall T, Op T -> M W T.
Variable Faker_name_firstName : M W string.
Variable Faker_random_arrayElement : list string -> M W string.
Variable Faker_random_word : M W string.
Variable CryptocurrencyAddressType_names : list string.

#[local] Abbreviation St := (TestDataService.St W).
#[local] Abbreviation invoke := (TestDataService.invoke W handler).
#[local] Abbreviation generateProfileData :=
  (Profiles.generateProfileData W handler Faker_name_firstName
     Faker_random_arrayElement Faker_random_word CryptocurrencyAddressType_names).

Lemma bind_unlogged {A B} (m : M W A) (k : A -> M St B) s b s' :
  (x <- unlogged W m ;; k x) s = (Return b, s') ->
  exists x w', k x (mkSt w' (log s)) = (Return b, s').
Proof.
  unfold bind, unlogged. destruct (m (world s)) as [[x|e] w']; [eauto|].
  discriminate.
Qed.

Lemma addresses_loop_run rounds addresses s out s' :
  generateAddressesData_loop W handler rounds addresses s = (Return out, s') ->
  exists calls,
    log s' = (log s ++ calls)%list /\
    List.length out = (List.length addresses + rounds)%nat /\
    collect new_address calls = [].
Proof.
  revert addresses s. induction rounds as [|n IH]; intros addresses s H;
    simpl in H.
  - apply ret_return in H as [<- <-]. exists []. rewrite app_nil_r.
    split; [reflexivity|]. split; [lia | reflexivity].
  - apply bind_invoke in H as (generated & w1 & _ & H).
    apply IH in H as (calls & L & Hlen & Hnone). simpl in L.
    exists (Ev GenerateAddressData (Return generated) :: calls).
    split; [now rewrite L, <- app_assoc|]. split.
    + rewrite Hlen, length_app. simpl. lia.
    + exact Hnone.
Qed.

Lemma crypto_loop_run rounds cryptoAddresses s out s' :
  generateCryptocurrencyAddressesData_loop W handler Faker_random_arrayElement
    CryptocurrencyAddressType_names rounds cryptoAddresses s = (Return out, s') ->
  exists calls made,
    log s' = (log s ++ calls)%list /\
    out = (cryptoAddresses ++ made)%list /\
    List.length made = rounds /\
    collect new_address calls
    = map (fun c => Return (CryptocurrencyAddressCreateRequest.address c)) made /\
    collect random_draw calls = [].
Proof.
  revert cryptoAddresses s.
  induction rounds as [|n IH]; intros cryptoAddresses s H; simpl in H.
  - apply ret_return in H as [<- <-]. exists [], [].
    rewrite !app_nil_r. auto.
  - apply bind_unlogged in H as (type & w1 & H).
    apply bind_invoke in H as (address & w2 & _ & H).
    apply IH in H as (calls & made & L & -> & Hlen & Haddr & Hdraw).
    simpl in L.
    exists (Ev CoreRpcService_getNewAddress (Return address) :: calls),
      (CryptocurrencyAddressCreateRequest.mk type address :: made).
    split; [now rewrite L, <- app_assoc|].
    split; [now rewrite <- app_assoc|].
    split; [simpl; now rewrite Hlen|]. split.
    + unfold collect in *. simpl. now rewrite Haddr.
    + exact Hdraw.
Qed.

Lemma settings_loop_run rounds settings s out s' :
  generateSettings_loop W Faker_random_word rounds settings s = (Return out, s') ->
  log s' = log s /\ List.length out = (List.length settings + rounds)%nat.
Proof.
  revert settings s. induction rounds as [|n IH]; intros settings s H; simpl in H.
  - apply ret_return in H as [<- <-]. split; [reflexivity | lia].
  - apply bind_unlogged in H as (key & w1 & H).
    apply bind_unlogged in H as (value & w2 & H).
    apply IH in H as [L Hlen]. split; [exact L|].
    rewrite Hlen, length_app. simpl. lia.
Qed.

Lemma drawn_within (amount : Q) calls :
  Forall draw_in_range calls ->
  In (Ev (Lodash_random 1 5) (Return amount)) calls ->
  (1 <= Z.to_nat (rounds_of amount) <= 5)%nat.
Proof.
  intros Hall Hin.
  destruct (draw_between 1 5 amount calls Hall Hin) as [Hlo Hhi];
    [discriminate|].
  now apply rounds_within.
Qed.

(** X26. The request that [generateProfileData] returns has a name that
    starts with 'TEST-' and the address that the coin daemon handed out
    first. Every cryptocurrency address of the request was handed out by
    the daemon in a request of its own, in the order of the list, and the
    run asked the daemon for no other address. When they are asked for,
    there are between one and five shipping addresses, cryptocurrency
    addresses and settings, and none otherwise. Lodash is taken to draw
    between the bounds it is given. *)
Theorem generateProfileData_request generateParams s request s' calls :
  generateProfileData generateParams s = (Return request, s') ->
  log s' = (log s ++ calls)%list ->
  Forall draw_in_range calls ->
  (exists firstName, ProfileCreateRequest.name request = "TEST-" ++ firstName) /\
  collect new_address calls
  = Return (ProfileCreateRequest.address request)
    :: map (fun c => Return (CryptocurrencyAddressCreateRequest.address c))
         (ProfileCreateRequest.cryptocurrencyAddresses request) /\
  (if GenerateProfileParams.generateShippingAddresses generateParams
   then (1 <= List.length (ProfileCreateRequest.shippingAddresses request) <= 5)%nat
   else ProfileCreateRequest.shippingAddresses request = []) /\
  (if GenerateProfileParams.generateCryptocurrencyAddresses generateParams
   then (1 <= List.length (ProfileCreateRequest.cryptocurrencyAddresses request)
         <= 5)%nat
   else ProfileCreateRequest.cryptocurrencyAddresses request = []) /\
  (if GenerateProfileParams.generateSettings generateParams
   then (1 <= List.length (ProfileCreateRequest.settings request) <= 5)%nat
   else ProfileCreateRequest.settings request = []).
Proof.
  intros H Hlog Hdraws. unfold Profiles.generateProfileData in H.
  apply bind_unlogged in H as (firstName & w0 & H).
  apply bind_invoke in H as (address & w1 & _ & H).
  apply bind_invoke in H as (amount1 & w2 & _ & H).
  apply bind_return in H as (profile & s3 & Hprofile & H).
  unfold generateAddressesData in Hprofile.
  apply addresses_loop_run in Hprofile as (c3 & L3 & Hlen3 & Hnone3).
  simpl in L3, Hlen3.
  apply bind_return in H as (cryptocurrencyAddresses & s4 & Hcrypto & H).
  assert (exists c4,
             log s4 = (log s3 ++ c4)%list /\
             collect new_address c4
             = map (fun c => Return (CryptocurrencyAddressCreateRequest.address c))
                 cryptocurrencyAddresses /\
             if GenerateProfileParams.generateCryptocurrencyAddresses generateParams
             then exists amount,
                 In (Ev (Lodash_random 1 5) (Return amount)) c4 /\
                 List.length cryptocurrencyAddresses = Z.to_nat (rounds_of amount)
             else cryptocurrencyAddresses = []) as (c4 & L4 & Haddr4 & Hcount4).
  { destruct (GenerateProfileParams.generateCryptocurrencyAddresses generateParams).
    - apply bind_invoke in Hcrypto as (amount2 & w & _ & Hcrypto).
      unfold generateCryptocurrencyAddressesData in Hcrypto.
      apply crypto_loop_run in Hcrypto as (c & made & L & -> & Hlen & Haddr & _).
      simpl in L. exists (Ev (Lodash_random 1 5) (Return amount2) :: c).
      split; [now rewrite L, <- app_assoc|]. split; [exact Haddr|].
      exists amount2. simpl. auto.
    - apply ret_return in Hcrypto as [<- <-]. exists []. rewrite app_nil_r. auto. }
  clear Hcrypto.
  apply bind_return in H as (settings & s5 & Hsettings & H).
  assert (exists c5,
             log s5 = (log s4 ++ c5)%list /\
             collect new_address c5 = [] /\
             if GenerateProfileParams.generateSettings generateParams
             then exists amount,
                 In (Ev (Lodash_random 1 5) (Return amount)) c5 /\
                 List.length settings = Z.to_nat (rounds_of amount)
             else settings = []) as (c5 & L5 & Hnone5 & Hcount5).
  { destruct (GenerateProfileParams.generateSettings generateParams).
    - apply bind_invoke in Hsettings as (amount3 & w & _ & Hsettings).
      unfold generateSettings in Hsettings.
      apply settings_loop_run in Hsettings as [L Hlen]. simpl in L, Hlen.
      exists [Ev (Lodash_random 1 5) (Return amount3)].
      split; [exact L|]. split; [reflexivity|].
      exists amount3. simpl. auto.
    - apply ret_return in Hsettings as [<- <-]. exists []. rewrite app_nil_r. auto. }
  clear Hsettings.
  apply ret_return in H as [<- <-].
  rewrite L5, L4, L3, <- !app_assoc in Hlog. apply app_inv_head in Hlog.
  simpl in Hlog. subst calls.
  cbn [ProfileCreateRequest.name ProfileCreateRequest.address
       ProfileCreateRequest.shippingAddresses
       ProfileCreateRequest.cryptocurrencyAddresses
       ProfileCreateRequest.settings].
  split; [now exists firstName|]. split.
  - change (Ev CoreRpcService_getNewAddress (Return address)
              :: Ev (Lodash_random 1 5) (Return amount1) :: c3 ++ c4 ++ c5)%list
      with ([Ev CoreRpcService_getNewAddress (Return address);
             Ev (Lodash_random 1 5) (Return amount1)] ++ c3 ++ c4 ++ c5)%list.
    rewrite !GeneratorFacts.collect_app, Hnone3, Haddr4, Hnone5, app_nil_r.
    reflexivity.
  - split; [|split].
    + destruct (GenerateProfileParams.generateShippingAddresses generateParams);
        [|reflexivity].
      rewrite Hlen3. eapply drawn_within; [exact Hdraws|].
      right. left. reflexivity.
    + destruct (GenerateProfileParams.generateCryptocurrencyAddresses generateParams);
        [|exact Hcount4].
      destruct Hcount4 as (amount & Hin & ->).
      eapply drawn_within; [exact Hdraws|].
      right. right. apply in_or_app. right. apply in_or_app. now left.
    + destruct (GenerateProfileParams.generateSettings generateParams);
        [|exact Hcount5].
      destruct Hcount5 as (amount & Hin & ->).
      eapply drawn_within; [exact Hdraws|].
      right. right. apply in_or_app. right. apply in_or_app. now right.
Qed.

End Facts.

Lemma generateProfileData_request_witness :
  exists request s',
    generateProfileData InMemory.Db InMemory.services (always "Ada")
      (fun _ => always "COIN") (always "word") ["COIN"; "FIAT"] everything
      InMemory.start = (Return request, s') /\
    (exists firstName, ProfileCreateRequest.name request = "TEST-" ++ firstName) /\
    (1 <= List.length (ProfileCreateRequest.cryptocurrencyAddresses request)
     <= 5)%nat.
Proof.
  eexists. eexists.
  assert (generateProfileData InMemory.Db InMemory.services (always "Ada")
            (fun _ => always "COIN") (always "word") ["COIN"; "FIAT"] everything
            InMemory.start = (Return _, _)) as Hrun
    by (vm_compute; reflexivity).
  split; [exact Hrun|].
  assert (Forall draw_in_range (log (snd (generateProfileData InMemory.Db
            InMemory.services (always "Ada") (fun _ => always "COIN")
            (always "word") ["COIN"; "FIAT"] everything InMemory.start))))
    as Hdraws.
  { vm_compute. repeat constructor; try discriminate. }
  pose proof (generateProfileData_request InMemory.Db InMemory.services
                (always "Ada") (fun _ => always "COIN") (always "word")
                ["COIN"; "FIAT"] everything InMemory.start _ _ _ Hrun eq_refl
                Hdraws) as H.
  exact (conj (proj1 H) (proj1 (proj2 (proj2 (proj2 H))))).
Defined.

End ProfileFacts.

(* ================================================================== *)
(** * Properties of the content of a listing item *)
(* ================================================================== *)

Module ContentFacts.
Import TestDataService CallLog TestDataFacts Profiles Content.

(** The rounds of a loop over an amount that lodash drew between two
    integers. *)
Lemma drawn_rounds (lower upper : Z) (amount : Q) calls :
  Forall draw_in_range calls ->
  In (Ev (Lodash_random (inject_Z lower) (inject_Z upper)) (Return amount)) calls ->
  lower <= upper ->
  lower <= rounds_of amount <= upper.
Proof.
  intros Hall Hin Hle.
  destruct (draw_between _ _ amount calls Hall Hin) as [Hlo Hhi].
  { now rewrite <- Zle_Qle. }
  unfold rounds_of.
  apply Qceiling_resp_le in Hlo. apply Qceiling_resp_le in Hhi.
  rewrite Qceiling_Z in Hlo, Hhi. lia.
Qed.

(** The index that [randomCategoryKey] computes from a draw of
    [Math.random] is one of the array. *)
Lemma category_key (random : Q) :
  (0 <= random)%Q -> (random < 1)%Q ->
  exists key,
    (if Qfloor (random * inject_Z (Z.of_nat (List.length categoryKeys))) <? 0
     then None
     else nth_error categoryKeys
            (Z.to_nat (Qfloor (random
                               * inject_Z (Z.of_nat (List.length categoryKeys))))))
    = Some key /\
    In key categoryKeys.
Proof.
  intros Hlo Hhi.
  set (n := Z.of_nat (List.length categoryKeys)).
  assert (0 < n) as Hn by (vm_compute; reflexivity).
  set (rand := Qfloor (random * inject_Z n)).
  assert (0 <= rand) as H0.
  { change 0 with (Qfloor 0). apply Qfloor_resp_le.
    apply Qmult_le_0_compat; [exact Hlo|].
    change 0%Q with (inject_Z 0). rewrite <- Zle_Qle. lia. }
  assert (rand < n) as H1.
  { rewrite Zlt_Qlt. eapply Qle_lt_trans; [apply Qfloor_le|].
    rewrite <- (Qmult_1_l (inject_Z n)) at 2.
    apply Qmult_lt_compat_r; [|exact Hhi].
    change 0%Q with (inject_Z 0). rewrite <- Zlt_Qlt. exact Hn. }
  destruct (Z.ltb_spec rand 0) as [Hneg|_]; [lia|].
  destruct (nth_error categoryKeys (Z.to_nat rand)) as [key|] eqn:E.
  - exists key. split; [reflexivity|]. eapply nth_error_In; exact E.
  - apply nth_error_None in E. subst n. lia.
Qed.

Section Facts.

Variable W : Type.
Variable handler : forall T, Op T -> M W T.
Variable Faker : string -> M W string.
Variable Faker_random_arrayElement : list string -> M W string.
Variable ShippingCountries_countryCodes : list string.
Variable CryptocurrencyAddressType_names : list string.
Variable ShippingAvailability_SHIPS : string.
Variable ImageDataProtocolType_LOCAL : string.
Variable ImageProcessing_milkcatSmall : string.
Variable EscrowType_MAD : string.
Variable Currency_PARTICL : string.
Variable PaymentType_SALE : string.

#[local] Abbreviation St := (TestDataService.St W).
#[local] Abbreviation invoke := (TestDataService.invoke W handler).
#[local] Abbreviation randomCategoryKey := (Content.randomCategoryKey W handler).
#[local] Abbreviation generateItemInformationData :=
  (Content.generateItemInformationData W handler Faker Faker_random_arrayElement
     ShippingCountries_countryCodes ShippingAvailability_SHIPS
     ImageDataProtocolType_LOCAL ImageProcessing_milkcatSmall).
#[local] Abbreviation generatePaymentInformationData :=
  (Content.generatePaymentInformationData W handler Faker_random_arrayElement
     CryptocurrencyAddressType_names EscrowType_MAD Currency_PARTICL
     PaymentType_SALE).

Lemma randomCategoryKey_run s key s' :
  randomCategoryKey s = (Return key, s') ->
  exists random,
    log s' = (log s ++ [Ev Math_random (Return random)])%list /\
    key
    = if Qfloor (random * inject_Z (Z.of_nat (List.length categoryKeys))) <? 0
      then None
      else nth_error categoryKeys
             (Z.to_nat (Qfloor (random
                                * inject_Z (Z.of_nat (List.length categoryKeys))))).
Proof.
  intros H. unfold Content.randomCategoryKey in H.
  apply bind_invoke in H as (random & w1 & _ & H).
  apply ret_return in H as [<- <-]. exists random. auto.
Qed.

Lemma unit_draw_read random calls :
  Forall unit_draw calls ->
  In (Ev Math_random (Return random)) calls ->
  (0 <= random)%Q /\ (random < 1)%Q.
Proof.
  intros Hall Hin. rewrite Forall_forall in Hall. exact (Hall _ Hin).
Qed.

(** X27. [randomCategoryKey] returns one of the keys of its list, and
    never [undefined], when [Math.random] draws a number from 0 up to, but
    not including, 1: the index it computes lies within the list. It makes
    the one call of [Math.random]. *)
Theorem randomCategoryKey_is_a_key s key s' calls :
  randomCategoryKey s = (Return key, s') ->
  log s' = (log s ++ calls)%list ->
  Forall unit_draw calls ->
  (exists random, calls = [Ev Math_random (Return random)]) /\
  exists found, key = Some found /\ In found categoryKeys.
Proof.
  intros H Hlog Hdraws.
  apply randomCategoryKey_run in H as (random & L & ->).
  rewrite L in Hlog. apply app_inv_head in Hlog. subst calls.
  split; [now exists random|].
  destruct (unit_draw_read random _ Hdraws (or_introl eq_refl)) as [Hlo Hhi].
  now apply category_key.
Qed.

Lemma destinations_loop_run rounds items s out s' :
  generateShippingDestinationsData_loop W Faker_random_arrayElement
    ShippingCountries_countryCodes ShippingAvailability_SHIPS rounds items s
    = (Return out, s') ->
  log s' = log s /\ List.length out = (List.length items + rounds)%nat.
Proof.
  revert items s. induction rounds as [|n IH]; intros items s H; simpl in H.
  - apply ret_return in H as [<- <-]. split; [reflexivity | lia].
  - apply ProfileFacts.bind_unlogged in H as (country & w1 & H).
    apply IH in H as [L Hlen]. split; [exact L|].
    rewrite Hlen, length_app. simpl. lia.
Qed.

Lemma images_loop_run rounds items s out s' :
  generateItemImagesData_loop W Faker ImageDataProtocolType_LOCAL
    ImageProcessing_milkcatSmall rounds items s = (Return out, s') ->
  log s' = log s /\
  List.length out = (List.length items + rounds)%nat /\
  (Forall image_with_data items -> Forall image_with_data out).
Proof.
  revert items s. induction rounds as [|n IH]; intros items s H; simpl in H.
  - apply ret_return in H as [<- <-]. split; [reflexivity|]. split; [lia | auto].
  - apply ProfileFacts.bind_unlogged in H as (fakeHash & w1 & H).
    apply ProfileFacts.bind_unlogged in H as (dataId & w2 & H).
    apply IH in H as (L & Hlen & Hall). split; [exact L|]. split.
    + rewrite Hlen, length_app. simpl. lia.
    + intros Hitems. apply Hall. apply Forall_app. split; [exact Hitems|].
      constructor; [|constructor]. eexists. split; reflexivity.
Qed.

(** X28. The request that [generateItemInformationData] returns has
    between one and five shipping destinations and one or two images when
    they are asked for, and none otherwise; every image comes with one
    data, which carries the hash of the image; a location exactly when it
    is asked for. Its category is named by the id that was given and by
    nothing else; without an id (or with the id 0) it is named by a key,
    which is one of the list of [randomCategoryKey] when [Math.random]
    draws from 0 up to, but not including, 1. Lodash is taken to draw
    between the bounds it is given. *)
Theorem generateItemInformationData_request generateParams s request s' calls :
  generateItemInformationData generateParams s = (Return request, s') ->
  log s' = (log s ++ calls)%list ->
  Forall draw_in_range calls ->
  (if generateShippingDestinations generateParams
   then (1 <= List.length (ItemInformationCreateRequest.shippingDestinations request)
         <= 5)%nat
   else ItemInformationCreateRequest.shippingDestinations request = []) /\
  (if generateItemImages generateParams
   then (1 <= List.length (ItemInformationCreateRequest.itemImages request)
         <= 2)%nat
   else ItemInformationCreateRequest.itemImages request = []) /\
  Forall image_with_data (ItemInformationCreateRequest.itemImages request) /\
  (ItemInformationCreateRequest.itemLocation request = None <->
   generateItemLocation generateParams = false) /\
  match truthy_number (categoryId generateParams) with
  | Some id =>
      ItemInformationCreateRequest.itemCategory request
      = ItemCategoryUpdateRequest.mk (Some id) None
  | None =>
      ItemCategoryUpdateRequest.id (ItemInformationCreateRequest.itemCategory request)
      = None /\
      (Forall unit_draw calls ->
       exists key,
         ItemCategoryUpdateRequest.key
           (ItemInformationCreateRequest.itemCategory request) = Some key /\
         In key categoryKeys)
  end.
Proof.
  intros H Hlog Hdraws. unfold Content.generateItemInformationData in H.
  apply bind_return in H as (shippingDestinations & s1 & H1 & H).
  assert (exists c1,
             log s1 = (log s ++ c1)%list /\
             if generateShippingDestinations generateParams
             then exists amount,
                 In (Ev (Lodash_random 1 5) (Return amount)) c1 /\
                 List.length shippingDestinations = Z.to_nat (rounds_of amount)
             else shippingDestinations = []) as (c1 & L1 & Hcount1).
  { destruct (generateShippingDestinations generateParams).
    - apply bind_invoke in H1 as (amount & w & _ & H1).
      unfold generateShippingDestinationsData in H1.
      apply destinations_loop_run in H1 as [L Hlen]. simpl in L, Hlen.
      eexists. split; [exact L|]. exists amount. simpl. auto.
    - apply ret_return in H1 as [<- <-]. exists []. rewrite app_nil_r. auto. }
  clear H1.
  apply bind_return in H as (itemImages & s2 & H2 & H).
  assert (exists c2,
             log s2 = (log s1 ++ c2)%list /\
             Forall image_with_data itemImages /\
             if generateItemImages generateParams
             then exists amount,
                 In (Ev (Lodash_random 1 2) (Return amount)) c2 /\
                 List.length itemImages = Z.to_nat (rounds_of amount)
             else itemImages = []) as (c2 & L2 & Himages & Hcount2).
  { destruct (generateItemImages generateParams).
    - apply bind_invoke in H2 as (amount & w & _ & H2).
      unfold generateItemImagesData in H2.
      apply images_loop_run in H2 as (L & Hlen & Hall). simpl in L, Hlen.
      eexists. split; [exact L|]. split; [apply Hall; constructor|].
      exists amount. simpl. auto.
    - apply ret_return in H2 as [<- <-]. exists []. rewrite app_nil_r.
      split; [reflexivity|]. split; [constructor | reflexivity]. }
  clear H2.
  apply bind_return in H as (itemLocation & s3 & H3 & H).
  assert (log s3 = log s2 /\
          (itemLocation = None <-> generateItemLocation generateParams = false))
    as [L3 Hlocation].
  { destruct (generateItemLocation generateParams).
    - apply bind_return in H3 as (location & sa & Hloc & H3).
      apply ret_return in H3 as [<- <-].
      unfold generateItemLocationData in Hloc.
      do 6 apply ProfileFacts.bind_unlogged in Hloc as (? & ? & Hloc).
      apply ret_return in Hloc as [_ <-]. split; [reflexivity|].
      split; discriminate.
    - apply ret_return in H3 as [<- <-]. split; [reflexivity|]. split; auto. }
  clear H3.
  apply bind_return in H as (itemCategory & s4 & H4 & H).
  assert (exists c4,
             log s4 = (log s3 ++ c4)%list /\
             match truthy_number (categoryId generateParams) with
             | Some id => itemCategory = ItemCategoryUpdateRequest.mk (Some id) None
             | None =>
                 ItemCategoryUpdateRequest.id itemCategory = None /\
                 (Forall unit_draw c4 ->
                  exists key,
                    ItemCategoryUpdateRequest.key itemCategory = Some key /\
                    In key categoryKeys)
             end) as (c4 & L4 & Hcategory).
  { destruct (truthy_number (categoryId generateParams)) as [id|].
    - apply ret_return in H4 as [<- <-]. exists []. rewrite app_nil_r. auto.
    - apply bind_return in H4 as (key & sa & Hkey & H4).
      apply ret_return in H4 as [<- <-].
      apply randomCategoryKey_run in Hkey as (random & L & ->).
      eexists. split; [exact L|]. split; [reflexivity|].
      intros Hunit.
      destruct (unit_draw_read random _ Hunit (or_introl eq_refl)) as [Hlo Hhi].
      now apply category_key. }
  clear H4.
  do 4 apply ProfileFacts.bind_unlogged in H as (? & ? & H).
  apply ret_return in H as [<- <-]. simpl in Hlog.
  rewrite L4, L3, L2, L1, <- !app_assoc in Hlog. apply app_inv_head in Hlog.
  subst calls.
  cbn [ItemInformationCreateRequest.shippingDestinations
       ItemInformationCreateRequest.itemImages
       ItemInformationCreateRequest.itemLocation
       ItemInformationCreateRequest.itemCategory].
  split; [|split; [|split; [exact Himages|split; [exact Hlocation|]]]].
  - destruct (generateShippingDestinations generateParams); [|exact Hcount1].
    destruct Hcount1 as (amount & Hin & ->).
    assert (1 <= rounds_of amount <= 5); [|lia].
    apply (drawn_rounds 1 5 amount (c1 ++ c2 ++ c4)%list Hdraws); [|lia].
    apply in_or_app. now left.
  - destruct (generateItemImages generateParams); [|exact Hcount2].
    destruct Hcount2 as (amount & Hin & ->).
    assert (1 <= rounds_of amount <= 2); [|lia].
    apply (drawn_rounds 1 2 amount (c1 ++ c2 ++ c4)%list Hdraws); [|lia].
    apply in_or_app. right. apply in_or_app. now left.
  - destruct (truthy_number (categoryId generateParams)); [exact Hcategory|].
    destruct Hcategory as [Hid Hkey]. split; [exact Hid|].
    intros Hunit. apply Hkey.
    apply Forall_app in Hunit as [_ Hunit].
    now apply Forall_app in Hunit as [_ Hunit].
Qed.


End Facts.

Lemma randomCategoryKey_is_a_key_witness :
  exists key s',
    randomCategoryKey InMemory.Db InMemory.services InMemory.start
    = (Return key, s') /\
    exists found, key = Some found /\ In found categoryKeys.
Proof.
  eexists. eexists.
  assert (randomCategoryKey InMemory.Db InMemory.services InMemory.start
          = (Return _, _)) as Hrun by (vm_compute; reflexivity).
  split; [exact Hrun|].
  refine (proj2 (randomCategoryKey_is_a_key InMemory.Db InMemory.services
                   InMemory.start _ _ _ Hrun eq_refl _)).
  repeat constructor; vm_compute; discriminate.
Defined.

Lemma generateItemInformationData_request_witness :
  exists request s',
    generateItemInformationData InMemory.Db InMemory.services faker
      (fun _ => faker "FI") ["FI"; "SE"] "SHIPS" "LOCAL" "iVBORw0KGgo="
      all_content InMemory.start = (Return request, s') /\
    (1 <= List.length (ItemInformationCreateRequest.shippingDestinations request)
     <= 5)%nat /\
    (1 <= List.length (ItemInformationCreateRequest.itemImages request) <= 2)%nat.
Proof.
  eexists. eexists.
  assert (generateItemInformationData InMemory.Db InMemory.services faker
            (fun _ => faker "FI") ["FI"; "SE"] "SHIPS" "LOCAL" "iVBORw0KGgo="
            all_content InMemory.start = (Return _, _)) as Hrun
    by (vm_compute; reflexivity).
  split; [exact Hrun|].
  assert (Forall draw_in_range
            (log (snd (generateItemInformationData InMemory.Db InMemory.services
                         faker (fun _ => faker "FI") ["FI"; "SE"] "SHIPS" "LOCAL"
                         "iVBORw0KGgo=" all_content InMemory.start)))) as Hdraws.
  { vm_compute. repeat constructor; try discriminate. }
  pose proof (generateItemInformationData_request InMemory.Db InMemory.services
                faker (fun _ => faker "FI") ["FI"; "SE"] "SHIPS" "LOCAL"
                "iVBORw0KGgo=" all_content InMemory.start _ _ _ Hrun eq_refl
                Hdraws) as H.
  exact (conj (proj1 H) (proj1 (proj2 H))).
Defined.


End ContentFacts.

(* ================================================================== *)
(** * Runs of the generators with the services in memory *)
(* ================================================================== *)

Module GeneratorExamples.
Import TestDataService CallLog InMemory Examples GeneratorFacts.

Lemma generate_amount_witness :
  exists result s',
    generate Db services (ObjectHash.getHash plain)
      new_GenerateListingItemTemplateParams new_GenerateListingItemParams
      new_GenerateBidParams new_GenerateOrderParams new_GenerateProposalParams
      example_bidDatas two_bids start = (Return result, s') /\
    match records result with
    | Some n => n = 2%nat
    | None =>
        TestDataGenerateRequest.model two_bids = ACTIONMESSAGE \/
        TestDataGenerateRequest.model two_bids = PROFILE
    end.
Proof.
  eexists. eexists. split; [vm_compute; reflexivity|].
  eapply (generate_amount Db services (ObjectHash.getHash plain)
            new_GenerateListingItemTemplateParams new_GenerateListingItemParams
            new_GenerateBidParams new_GenerateOrderParams
            new_GenerateProposalParams example_bidDatas two_bids start).
  vm_compute. reflexivity.
Defined.

Lemma generateProposals_not_implemented_witness :
  generateProposals Db services (ObjectHash.getHash plain) 3 true
    proposal_with_template start
  = (Throw NotImplementedException, start).
Proof.
  apply (proj1 (generateProposals_not_implemented Db services
                  (ObjectHash.getHash plain)
                  new_GenerateListingItemTemplateParams
                  new_GenerateListingItemParams new_GenerateBidParams
                  new_GenerateOrderParams new_GenerateProposalParams
                  example_bidDatas 3 true proposal_with_template
                  (or_introl eq_refl))).
Defined.

Lemma generateProposalData_window_witness :
  exists request s' currentTime,
    generateProposalData Db services (ObjectHash.getHash plain) past_proposal
      (mkSt at_odd_time []) = (Return request, s') /\
    (2200 <= currentTime ->
     (1 <= ProposalCreateRequest.timeStart request /\
      ProposalCreateRequest.timeStart request <= inject_Z currentTime / 2 /\
      inject_Z currentTime / 2 + 100 <= ProposalCreateRequest.expiredAt request /\
      ProposalCreateRequest.expiredAt request <= inject_Z currentTime - 1000 /\
      ProposalCreateRequest.expiredAt request < inject_Z currentTime)%Q).
Proof.
  eexists. eexists.
  assert (generateProposalData Db services (ObjectHash.getHash plain)
            past_proposal (mkSt at_odd_time [])
          = (Return _, _)) as Hrun by (vm_compute; reflexivity).
  destruct (generateProposalData_window Db services (ObjectHash.getHash plain)
              past_proposal (mkSt at_odd_time []) _ _ _ Hrun eq_refl)
    as (currentTime & _ & Hwindow).
  - repeat constructor; vm_compute; discriminate.
  - exists currentTime. split; [exact Hrun | exact Hwindow].
Defined.

Lemma generateProposalData_request_witness :
  exists request s',
    generateProposalData Db services (ObjectHash.getHash plain) voted_proposal
      start = (Return request, s') /\
    ProposalCreateRequest.item request = Some "f08f3d6e" /\
    match ProposalCreateRequest.item request with
    | Some hash =>
        ProposalCreateRequest.type request = ITEM_VOTE /\
        ProposalCreateRequest.title request = hash /\
        ProposalCreateRequest.description request = "ILLEGAL ITEM"
    | None => ProposalCreateRequest.type request = PUBLIC_VOTE
    end.
Proof.
  eexists. eexists.
  assert (generateProposalData Db services (ObjectHash.getHash plain)
            voted_proposal start = (Return _, _)) as Hrun
    by (vm_compute; reflexivity).
  split; [exact Hrun|].
  pose proof (generateProposalData_request Db services (ObjectHash.getHash plain)
                voted_proposal start _ _ Hrun) as H.
  exact (conj (proj1 (proj2 (proj2 (proj2 H))))
              (proj1 (proj2 (proj2 (proj2 (proj2 H)))))).
Defined.

Lemma generateVotesForProposal_rounds_witness :
  exists votes s',
    generateVotesForProposal Db services 2 keep_or_remove with_proposal
    = (Return votes, s') /\
    exists calls,
      log s' = (log with_proposal ++ calls)%list /\
      VoteRounds keep_or_remove calls votes /\
      List.length votes = Z.to_nat 2 /\
      map snd (collect vote_created calls) = map Return votes /\
      Forall with_option votes.
Proof.
  eexists. eexists. split; [vm_compute; reflexivity|].
  eapply (generateVotesForProposal_rounds Db services 2 keep_or_remove
            with_proposal).
  vm_compute. reflexivity.
Defined.

Lemma generateVotesForProposal_votes_for_two_options_witness :
  (exists s',
      generateVotesForProposal Db services 2 keep_only with_keep_only
      = (Throw TypeError, s') /\
      List.length (collect vote_created (log s')) = 1%nat /\
      exists calls,
        log s' = (log with_keep_only ++ calls)%list /\
        Forall (vote_for keep_only) calls /\
        votes_read (is_TypeError (Throw TypeError : Outcome (list value))) calls) /\
  (exists s' request vote,
      generateVotesForProposal Db bare_votes 2 keep_or_remove with_proposal
      = (Throw TypeError, s') /\
      collect vote_created (log s') = [(request, Return vote)] /\
      get vote "ProposalOption" = Some VUndefined /\
      exists calls,
        log s' = (log with_proposal ++ calls)%list /\
        Forall (vote_for keep_or_remove) calls /\
        votes_read (is_TypeError (Throw TypeError : Outcome (list value))) calls).
Proof.
  split.
  - eexists. split; [vm_compute; reflexivity|]. split; [reflexivity|].
    eapply (generateVotesForProposal_votes_for_two_options Db services 2
              keep_only with_keep_only).
    vm_compute. reflexivity.
  - eexists. eexists. eexists. split; [vm_compute; reflexivity|].
    split; [reflexivity|]. split; [reflexivity|].
    eapply (generateVotesForProposal_votes_for_two_options Db bare_votes 2
              keep_or_remove with_proposal).
    vm_compute. reflexivity.
Defined.

Lemma generateProposals_rounds_witness :
  exists result s',
    generateProposals Db services (ObjectHash.getHash plain) 1 true voted_proposal
      start = (Return result, s') /\
    exists done : list (list Event * Proposal.t),
      log s' = (log start ++ List.concat (map fst done))%list /\
      result = respond true (map snd done) /\
      List.length done = Z.to_nat 1 /\
      Forall (fun round => ProposalRound 2 (fst round) (snd round)) done.
Proof.
  eexists. eexists. split; [vm_compute; reflexivity|].
  eapply (generateProposals_rounds Db services (ObjectHash.getHash plain) 1 true
            voted_proposal start).
  vm_compute. reflexivity.
Defined.

Lemma generateListingItemData_request_witness :
  exists request s',
    generateListingItemData Db services listing_of_template start
    = (Return request, s') /\
    ListingItemCreateRequest.seller request = VStr "pseller" /\
    ListingItemCreateRequest.listing_item_template_id request = None.
Proof.
  eexists. eexists. split; [vm_compute; reflexivity|].
  destruct (generateListingItemData_request Db services listing_of_template
              start _ _ ltac:(vm_compute; reflexivity))
    as (calls & defaultMarket & expiredAt & _ & _ & _ & _ & _ & _ & Hseller
        & earlier & found & Hcalls & Htemplate).
  split; [exact Hseller | reflexivity].
Defined.


Lemma generateListingItemTemplates_rounds_witness :
  exists result s',
    generateListingItemTemplates Db services 1 true template_with_listing start
    = (Return result, s') /\
    exists done : list (list Event * ListingItemTemplate.t),
      log s' = (log start ++ List.concat (map fst done))%list /\
      result = respond true (map snd done) /\
      List.length done = Z.to_nat 1 /\
      Forall (fun round =>
                TemplateRound template_with_listing (fst round) (snd round)) done.
Proof.
  eexists. eexists. split; [vm_compute; reflexivity|].
  eapply (generateListingItemTemplates_rounds Db services 1 true
            template_with_listing start).
  vm_compute. reflexivity.
Defined.

Lemma generateListingItems_rounds_witness :
  exists result s',
    generateListingItems Db services 2 false listing_of_template start
    = (Return result, s') /\
    exists done : list (list Event * ListingItem.t),
      log s' = (log start ++ List.concat (map fst done))%list /\
      result = respond false (map snd done) /\
      List.length done = Z.to_nat 2 /\
      Forall (fun round => ListingItemRound (fst round) (snd round)) done.
Proof.
  eexists. eexists. split; [vm_compute; reflexivity|].
  eapply (generateListingItems_rounds Db services 2 false listing_of_template
            start).
  vm_compute. reflexivity.
Defined.

Lemma generateBidData_request_witness :
  exists request s',
    generateBidData Db services example_bidDatas bid_for_listing
      (mkSt with_listing []) = (Return request, s') /\
    exists calls generated defaultProfile,
      log s' = ([] ++ calls)%list /\
      In (Ev GenerateAddressData (Return generated)) calls /\
      In (Ev ProfileService_getDefault (Return defaultProfile)) calls /\
      BidCreateRequest.address request
      = AddressCreateRequest.mk generated (Some (Profile.id defaultProfile)) /\
      BidCreateRequest.bidDatas request = example_bidDatas /\
      BidCreateRequest.action request = MPA_BID /\
      BidCreateRequest.bidder request = VStr "pbidder".
Proof.
  eexists. eexists. split; [vm_compute; reflexivity|].
  eapply (generateBidData_request Db services example_bidDatas bid_for_listing
            (mkSt with_listing [])).
  vm_compute. reflexivity.
Defined.

Lemma generateBids_for_the_generated_listing_item_witness :
  exists result generateParams' s',
    generateBids Db services new_GenerateListingItemTemplateParams
      new_GenerateListingItemParams example_bidDatas 2 true bids_with_listing
      start = (Return (result, generateParams'), s') /\
    count result = Z.to_nat 2 /\
    exists before request listingItem rounds,
      log s'
      = (before
           ++ [Ev (ListingItemService_create request) (Return listingItem)]
           ++ rounds)%list /\
      GenerateBidParams.listingItemHash generateParams'
      = Some (ListingItem.hash listingItem) /\
      bids_created before = [] /\
      Forall (bids_for (ListingItem.hash listingItem)) rounds.
Proof.
  eexists. eexists. eexists. split; [vm_compute; reflexivity|].
  eapply (generateBids_for_the_generated_listing_item Db services
            new_GenerateListingItemTemplateParams new_GenerateListingItemParams
            example_bidDatas 2 true bids_with_listing start).
  - vm_compute. reflexivity.
  - reflexivity.
Defined.

Lemma create_calls_one_service_witness :
  create Db services bid_by_hand start
  = (Return (VObj [("action", VStr "MPA_BID")]),
     mkSt seeded
       [Ev (Validate_TestDataCreateRequest bid_by_hand) (Return tt);
        Ev (Service_create BID (VObj [("action", VStr "MPA_BID")]) None)
          (Return (VObj [("action", VStr "MPA_BID")]))]).
Proof.
  exact (create_calls_one_service Db services bid_by_hand start eq_refl).
Defined.

Lemma generateOrders_needs_the_bid_witness :
  generateOrders Db services new_GenerateListingItemTemplateParams
    new_GenerateListingItemParams new_GenerateBidParams example_bidDatas 2 true
    orders_without_bid start
  = (Throw (NotFoundException "41"),
     mkSt seeded [Ev (BidService_findOne (Some 41))
                    (Throw (NotFoundException "41"))]).
Proof.
  apply (proj1 (generateOrders_needs_the_bid Db services
                  new_GenerateListingItemTemplateParams
                  new_GenerateListingItemParams new_GenerateBidParams
                  example_bidDatas 2 true orders_without_bid start));
    reflexivity.
Defined.

End GeneratorExamples.
